(** * proxmox-backup-gui: profile handling, command construction, mounts and
    the archive catalog of [proxmox-backup-gui.py], embedded in Rocq.

    Python [str] values are modelled as [string]; a character is a code
    point below 256.  Python dictionaries with string keys ([os.environ],
    [self.profiles]) are finite maps, Python lists are lists. *)

From Stdlib Require Import ZArith Ascii.
From stdpp Require Import base strings list sorting gmap.

Local Open Scope Z_scope.

(** ** Python string methods used by the program *)

Module PyStr.

(** [str.isspace] on one character, for code points below 256. *)
Definition isspace (c : ascii) : bool :=
  let n := N_of_ascii c in
  ((9 <=? n) && (n <=? 13) || (28 <=? n) && (n <=? 32)
   || (n =? 133) || (n =? 160))%N.

Fixpoint lstrip_by (p : ascii → bool) (s : string) : string :=
  match s with
  | "" => ""
  | String c r => if p c then lstrip_by p r else s
  end.

Fixpoint rstrip_by (p : ascii → bool) (s : string) : string :=
  match s with
  | "" => ""
  | String c r =>
      match rstrip_by p r with
      | "" => if p c then "" else String c ""
      | r' => String c r'
      end
  end.

(** [s.strip()] *)
Definition strip (s : string) : string := rstrip_by isspace (lstrip_by isspace s).

(** [s.rstrip(ch)] for a one-character argument. *)
Definition rstrip (ch : ascii) (s : string) : string := rstrip_by (Ascii.eqb ch) s.

(** [s.split(sep)] for a one-character separator. *)
Fixpoint split (sep : ascii) (s : string) : list string :=
  match s with
  | "" => [""]
  | String c r =>
      if Ascii.eqb c sep then "" :: split sep r
      else match split sep r with
           | [] => [String c ""]
           | h :: t => String c h :: t
           end
  end.

(** [sep.join(l)] *)
Fixpoint join (sep : string) (l : list string) : string :=
  match l with
  | [] => ""
  | [x] => x
  | x :: r => x +:+ sep +:+ join sep r
  end.

Fixpoint rfind_go (s : string) (ch : ascii) (i found : Z) : Z :=
  match s with
  | "" => found
  | String c r => rfind_go r ch (i + 1) (if Ascii.eqb c ch then i else found)
  end.

(** [s.rfind(ch)]: the highest index of [ch], or -1. *)
Definition rfind (s : string) (ch : ascii) : Z := rfind_go s ch 0 (-1).

Fixpoint drop (n : nat) (s : string) : string :=
  match n, s with
  | O, _ => s
  | S n', String _ r => drop n' r
  | S _, "" => ""
  end.

(** [s[i:]] for a non-negative [i]. *)
Definition slice_from (i : Z) (s : string) : string := drop (Z.to_nat i) s.

Fixpoint take (n : nat) (s : string) : string :=
  match n, s with
  | O, _ => ""
  | S n', String c r => String c (take n' r)
  | S _, "" => ""
  end.

(** [s.endswith(suf)]: [suf] is not longer than [s] and equals the slice
    of [s] that starts [len(suf)] characters before its end. *)
Definition endswith (s suf : string) : bool :=
  (String.length suf <=? String.length s)%nat
  && String.eqb (drop (String.length s - String.length suf) s) suf.

(** [s.removesuffix(suf)] *)
Definition removesuffix (s suf : string) : string :=
  if endswith s suf && negb (String.eqb suf "")
  then take (String.length s - String.length suf) s
  else s.

Definition lower_char (c : ascii) : ascii :=
  let n := N_of_ascii c in
  if ((65 <=? n) && (n <=? 90) || (192 <=? n) && (n <=? 222) && negb (n =? 215))%N
  then ascii_of_N (n + 32) else c.

(** [s.lower()] *)
Fixpoint lower (s : string) : string :=
  match s with
  | "" => ""
  | String c r => String (lower_char c) (lower r)
  end.

Fixpoint contains (ch : ascii) (s : string) : bool :=
  match s with
  | "" => false
  | String c r => Ascii.eqb c ch || contains ch r
  end.

Fixpoint all_chars (p : ascii → bool) (s : string) : bool :=
  match s with
  | "" => true
  | String c r => p c && all_chars p r
  end.

Definition head_is (p : ascii → bool) (s : string) : bool :=
  match s with
  | "" => false
  | String c _ => p c
  end.

Fixpoint last_is (p : ascii → bool) (s : string) : bool :=
  match s with
  | "" => false
  | String c "" => p c
  | String _ r => last_is p r
  end.

End PyStr.

(** [os.path.basename] of [posixpath]: [i = p.rfind('/') + 1; return p[i:]]. *)
Definition os_path_basename (p : string) : string :=
  let i := PyStr.rfind p "/" + 1 in
  PyStr.slice_from i p.

(** Truth value of a Python string and of an optional string
    ([None] and the empty string are false). *)
Definition truthy (s : string) : bool := negb (String.eqb s "").

Definition truthy_opt (o : option string) : bool :=
  match o with
  | None => false
  | Some s => truthy s
  end.

(** ** Data model *)

(** Outcome of a Python computation: a value, or an exception that
    propagates, carried as the text [str(e)] that the handlers display. *)
Inductive result (A : Type) : Type :=
| Ok (a : A)
| Raise (e : string).
Arguments Ok {A} a.
Arguments Raise {A} e.

#[global] Instance result_bind : MBind result :=
  λ A B k r, match r with
             | Ok a => k a
             | Raise e => Raise e
             end.

(** [class BackupSource] *)
Record BackupSource := {
  path : string;
  archive_type : string;
  exclusions : list string
}.

(** [class BackupProfile] *)
Record BackupProfile := {
  name : string;
  repository : string;
  api_key : string;
  fingerprint : string;
  backup_sources : list BackupSource
}.

(** The dictionary returned by [get_current_config]: [None] is the empty
    dictionary returned when no profile is current. *)
Record Config := {
  cfg_repository : string;
  cfg_api_key : string;
  cfg_fingerprint : string;
  cfg_backup_sources : list BackupSource
}.

(** One row of [archives_table]: the text of each of its five cells, [None]
    for a cell without an item. *)
Record table_row := {
  cell_archive : option string;
  cell_size : option string;
  cell_date : option string;
  cell_owner : option string;
  cell_verify : option string
}.

(** One object of the decoded output of [snapshot list]: each key the
    program reads, [None] when the object lacks it.  [verification] is the
    nested object, with its own optional [state]. *)
Record snapshot := {
  backup_type : option string;
  backup_id : option string;
  backup_time : option Z;
  size : option Z;
  owner : option string;
  verification : option (option string)
}.

(** One object of the decoded output of [snapshot files]. *)
Record file_entry := {
  filename : option string
}.

(** The fields of [ProxmoxBackupGUI] that the modelled methods read or write. *)
Record GUI := {
  profiles : gmap string BackupProfile;
  current_profile_name : option string;
  current_mount : option string;
  repo_edit : string;
  api_edit : string;
  fingerprint_edit : string;
  sources_list : list string;
  command_display : string;
  archives_table : list table_row;
  archive_data : option (list snapshot);
  mount_status_label : string;
  progress_label : string
}.

Inductive box_kind := Warning | Information.

(** What a method does to the world outside [GUI], in program order. *)
Inductive effect : Type :=
| Spawn (cmd : list string) (env : gmap string string)
| SpawnBare (cmd : list string)
| Terminate
| MessageBox (k : box_kind) (title text : string)
| TrayMessage (title text : string)
| WriteConfig (ps : gmap string BackupProfile).

Definition is_spawn (e : effect) : bool :=
  match e with
  | Spawn _ _ | SpawnBare _ => true
  | _ => false
  end.

Definition spawned (es : list effect) : list effect := filter (λ e, is_spawn e = true) es.

Definition set_profiles (g : GUI) (ps : gmap string BackupProfile) : GUI :=
  {| profiles := ps; current_profile_name := current_profile_name g;
     current_mount := current_mount g; repo_edit := repo_edit g;
     api_edit := api_edit g; fingerprint_edit := fingerprint_edit g;
     sources_list := sources_list g; command_display := command_display g;
     archives_table := archives_table g; archive_data := archive_data g;
     mount_status_label := mount_status_label g;
     progress_label := progress_label g |}.

Definition set_sources_list (g : GUI) (l : list string) : GUI :=
  {| profiles := profiles g; current_profile_name := current_profile_name g;
     current_mount := current_mount g; repo_edit := repo_edit g;
     api_edit := api_edit g; fingerprint_edit := fingerprint_edit g;
     sources_list := l; command_display := command_display g;
     archives_table := archives_table g; archive_data := archive_data g;
     mount_status_label := mount_status_label g;
     progress_label := progress_label g |}.

Definition set_command_display (g : GUI) (s : string) : GUI :=
  {| profiles := profiles g; current_profile_name := current_profile_name g;
     current_mount := current_mount g; repo_edit := repo_edit g;
     api_edit := api_edit g; fingerprint_edit := fingerprint_edit g;
     sources_list := sources_list g; command_display := s;
     archives_table := archives_table g; archive_data := archive_data g;
     mount_status_label := mount_status_label g;
     progress_label := progress_label g |}.

Definition set_mount (g : GUI) (m : option string) (label : string) : GUI :=
  {| profiles := profiles g; current_profile_name := current_profile_name g;
     current_mount := m; repo_edit := repo_edit g;
     api_edit := api_edit g; fingerprint_edit := fingerprint_edit g;
     sources_list := sources_list g; command_display := command_display g;
     archives_table := archives_table g; archive_data := archive_data g;
     mount_status_label := label;
     progress_label := progress_label g |}.

Definition set_catalog (g : GUI) (t : list table_row) (d : option (list snapshot)) : GUI :=
  {| profiles := profiles g; current_profile_name := current_profile_name g;
     current_mount := current_mount g; repo_edit := repo_edit g;
     api_edit := api_edit g; fingerprint_edit := fingerprint_edit g;
     sources_list := sources_list g; command_display := command_display g;
     archives_table := t; archive_data := d;
     mount_status_label := mount_status_label g;
     progress_label := progress_label g |}.

Definition set_progress (g : GUI) (s : string) : GUI :=
  {| profiles := profiles g; current_profile_name := current_profile_name g;
     current_mount := current_mount g; repo_edit := repo_edit g;
     api_edit := api_edit g; fingerprint_edit := fingerprint_edit g;
     sources_list := sources_list g; command_display := command_display g;
     archives_table := archives_table g; archive_data := archive_data g;
     mount_status_label := mount_status_label g;
     progress_label := s |}.

(** ** Profiles and sources *)

(** [self.profiles[self.current_profile_name]] behind the guard
    [if not self.current_profile_name]: [None] when the guard fires. *)
Definition current_profile (g : GUI) : option (result BackupProfile) :=
  if truthy_opt (current_profile_name g) then
    match current_profile_name g with
    | Some n =>
        match profiles g !! n with
        | Some p => Some (Ok p)
        | None => Some (Raise ("'" +:+ n +:+ "'"))
        end
    | None => None
    end
  else None.

(** [get_current_config] *)
Definition get_current_config (g : GUI) : result (option Config) :=
  match current_profile g with
  | None => Ok None
  | Some r =>
      p ← r;
      Ok (Some {| cfg_repository := repository p; cfg_api_key := api_key p;
                  cfg_fingerprint := fingerprint p;
                  cfg_backup_sources := backup_sources p |})
  end.

(** [config[key]] on the dictionary of [get_current_config]. *)
Definition config_item {A} (c : option Config) (key : string) (f : Config → A) : result A :=
  match c with
  | Some c => Ok (f c)
  | None => Raise ("'" +:+ key +:+ "'")
  end.

(** [BackupSource.__str__] *)
Definition source_str (s : BackupSource) : string :=
  let exclusions_str :=
    match exclusions s with
    | [] => ""
    | _ => " (excludes: " +:+ PyStr.join ", " (exclusions s) +:+ ")"
    end in
  path s +:+ " (" +:+ archive_type s +:+ ")" +:+ exclusions_str.

(** [update_sources_list] *)
Definition update_sources_list (g : GUI) : result GUI :=
  match current_profile g with
  | None => Ok (set_sources_list g [])
  | Some r =>
      p ← r;
      Ok (set_sources_list g (source_str <$> backup_sources p))
  end.

(** In-place update of the object [self.profiles[self.current_profile_name]]. *)
Definition alter_current (g : GUI) (f : BackupProfile → BackupProfile) : GUI :=
  match current_profile_name g with
  | Some n => set_profiles g (alter f n (profiles g))
  | None => g
  end.

Definition set_connection (repo key fp : string) (p : BackupProfile) : BackupProfile :=
  {| name := name p; repository := repo; api_key := key; fingerprint := fp;
     backup_sources := backup_sources p |}.

Definition set_backup_sources (f : list BackupSource → list BackupSource)
    (p : BackupProfile) : BackupProfile :=
  {| name := name p; repository := repository p; api_key := api_key p;
     fingerprint := fingerprint p; backup_sources := f (backup_sources p) |}.

Definition set_exclusions (ex : list string) (s : BackupSource) : BackupSource :=
  {| path := path s; archive_type := archive_type s; exclusions := ex |}.

(** [save_settings]: the current profile takes the connection fields of the
    settings tab, then the whole profile set is written.  Every exception
    is caught and shown; [write_error] is the exception of the file write,
    if it raises. *)
Definition save_settings (g : GUI) (show_message : bool) (write_error : option string)
  : GUI * list effect :=
  let updated : result GUI :=
    match current_profile g with
    | None => Ok g
    | Some r =>
        _ ← r;
        Ok (alter_current g
              (set_connection (repo_edit g) (api_edit g) (fingerprint_edit g)))
    end in
  match updated with
  | Raise e => (g, [MessageBox Warning "Error" ("Failed to save settings: " +:+ e)])
  | Ok g' =>
      match write_error with
      | Some e =>
          (g', [WriteConfig (profiles g');
                MessageBox Warning "Error" ("Failed to save settings: " +:+ e)])
      | None =>
          (g', WriteConfig (profiles g') ::
               if show_message
               then [MessageBox Information "Success" "Settings saved successfully"]
               else [])
      end
  end.

(** The list comprehension of [edit_exclusions]:
    [[line.strip() for line in text.split('\n') if line.strip()]]. *)
Definition exclusion_lines (text : string) : list string :=
  PyStr.strip <$>
    filter (λ line, truthy (PyStr.strip line) = true) (PyStr.split "010" text).

(** [edit_exclusions].  [current_row] is [sources_list.currentRow()];
    [dialog] is the text of the editor when the dialog is accepted, [None]
    when it is rejected.  The method has no handler of its own: an
    exception propagates. *)
Definition edit_exclusions (g : GUI) (current_row : Z) (dialog : option string)
    (write_error : option string) : result (GUI * list effect) :=
  config ← get_current_config g;
  if current_row <? 0
  then Ok (g, [MessageBox Warning "Error" "Please select a source first"])
  else
    sources ← config_item config "backup_sources" cfg_backup_sources;
    match sources !! Z.to_nat current_row with
    | None => Raise "list index out of range"
    | Some source =>
        match dialog with
        | None => Ok (g, [])
        | Some text =>
            let g1 :=
              alter_current g
                (set_backup_sources
                   (alter (set_exclusions (exclusion_lines text))
                      (Z.to_nat current_row))) in
            g2 ← update_sources_list g1;
            Ok (save_settings g2 false write_error)
        end
    end.

(** ** Building the backup command *)

(** [BackupWorker.get_backup_command]: the loops append to [cmd]. *)
Definition get_backup_command (g : GUI) : result (list string) :=
  config ← get_current_config g;
  let cmd := ["proxmox-backup-client"; "backup"] in
  sources ← config_item config "backup_sources" cfg_backup_sources;
  let cmd :=
    foldl (λ cmd source,
             let dir_name := os_path_basename (PyStr.rstrip "/" (path source)) in
             let cmd :=
               cmd ++ [dir_name +:+ "." +:+ archive_type source +:+ ":" +:+ path source] in
             foldl (λ cmd exclusion, cmd ++ ["--exclude=" +:+ exclusion])
                   cmd (exclusions source))
          cmd sources in
  repo ← config_item config "repository" cfg_repository;
  Ok (cmd ++ ["--repository"; repo]).

(** The argument vector of [buildBackupArgs] in the words of the
    specification: [spec_baseName] strips trailing path separators and keeps
    the final path component; each source gives its positional argument
    followed by its exclusions. *)
Definition spec_baseName (p : string) : string :=
  default "" (last (PyStr.split "/" (PyStr.rstrip "/" p))).

Definition spec_source_args (s : BackupSource) : list string :=
  (spec_baseName (path s) +:+ "." +:+ archive_type s +:+ ":" +:+ path s)
  :: ((λ pattern, "--exclude=" +:+ pattern) <$> exclusions s).

(** ** External processes *)

(** What [subprocess.run] returns ([CompletedProcess]). *)
Record completed := {
  returncode : Z;
  stdout : string;
  stderr : string
}.

(** A child started with [subprocess.Popen] whose standard output is read
    line by line: [child_stdout] is the text it writes to standard output,
    [child_stderr] the text that [process.stderr.read()] returns and
    [child_returncode] its exit code.  The child exits. *)
Record child := {
  child_stdout : string;
  child_stderr : string;
  child_returncode : Z
}.

(** The pipes are opened with [universal_newlines=True]: what is read from
    them has every carriage return followed by a line feed, and every other
    carriage return, replaced by one line feed. *)
Fixpoint universal_newlines (s : string) : string :=
  match s with
  | "" => ""
  | String c r =>
      if Ascii.eqb c "013" then
        String "010"
          match r with
          | String c' r' =>
              if Ascii.eqb c' "010" then universal_newlines r' else universal_newlines r
          | "" => ""
          end
      else String c (universal_newlines r)
  end.

(** Successive results of [readline()] on a text up to its end: each line
    with its line feed, the last one possibly without. *)
Fixpoint readlines_go (cur : string) (s : string) : list string :=
  match s with
  | "" => match cur with "" => [] | _ => [String.rev cur] end
  | String c r =>
      if Ascii.eqb c "010" then String.rev (String c cur) :: readlines_go "" r
      else readlines_go (String c cur) r
  end.

(** Successive results of [process.stdout.readline()] up to end of file,
    for a child that writes [s]. *)
Definition readlines (s : string) : list string :=
  readlines_go "" (universal_newlines s).

(** Signals of [BackupWorker]. *)
Inductive signal : Type :=
| progress (message : string)
| finished (success : bool) (message : string)
| command_ready (cmd : list string).

(** The [while True] loop of [BackupWorker.run] over the lines still to be
    read.  At end of file [readline] gives the empty string until [poll]
    reports the exit, and nothing is emitted. *)
Fixpoint run_loop (pending : list string) : list signal :=
  match pending with
  | [] => []
  | output :: rest =>
      (if truthy output then [progress (PyStr.strip output)] else [])
      ++ run_loop rest
  end.

(** The polling loop of [restore_archive].  [running] counts the iterations
    at which [process.poll()] is still [None]; [cancel_at] is the iteration
    at which [progress.wasCanceled()] first answers true, if the user
    cancels.  The lines read by [readline] are dropped. *)
Inductive loop_end := Exited | Canceled.

Fixpoint restore_loop (running : nat) (cancel_at : option nat) : loop_end :=
  match running with
  | O => Exited
  | S k =>
      match cancel_at with
      | Some O => Canceled
      | Some (S j) => restore_loop k (Some j)
      | None => restore_loop k None
      end
  end.

(** Outcome of [datetime.fromtimestamp(int(timestamp)).strftime(...)] inside
    [try ... except (ValueError, TypeError): pass]. *)
Inductive local_time :=
| Formatted (s : string)
| ValueOrTypeError
| OtherError (e : string).

(** ** The archives table *)

Definition empty_row : table_row :=
  {| cell_archive := None; cell_size := None; cell_date := None;
     cell_owner := None; cell_verify := None |}.

Definition set_cell (col : nat) (text : string) (row : table_row) : table_row :=
  match col with
  | 0%nat => {| cell_archive := Some text; cell_size := cell_size row;
                cell_date := cell_date row; cell_owner := cell_owner row;
                cell_verify := cell_verify row |}
  | 1%nat => {| cell_archive := cell_archive row; cell_size := Some text;
                cell_date := cell_date row; cell_owner := cell_owner row;
                cell_verify := cell_verify row |}
  | 2%nat => {| cell_archive := cell_archive row; cell_size := cell_size row;
                cell_date := Some text; cell_owner := cell_owner row;
                cell_verify := cell_verify row |}
  | 3%nat => {| cell_archive := cell_archive row; cell_size := cell_size row;
                cell_date := cell_date row; cell_owner := Some text;
                cell_verify := cell_verify row |}
  | 4%nat => {| cell_archive := cell_archive row; cell_size := cell_size row;
                cell_date := cell_date row; cell_owner := cell_owner row;
                cell_verify := Some text |}
  | _ => row
  end.

(** [archives_table.setRowCount(n)] *)
Definition setRowCount (n : nat) (t : list table_row) : list table_row :=
  take n t ++ replicate (n - length t) empty_row.

(** [archives_table.setItem(i, col, QTableWidgetItem(text))] *)
Definition setItem (i col : nat) (text : string) (t : list table_row) : list table_row :=
  alter (set_cell col text) i t.

(** [list.sort(key=..., reverse=True)] on integer keys, as an insertion
    sort: from the last element to the first, each element is put behind
    the elements with a larger key and in front of the others. *)
Fixpoint insert_desc {A} (key : A → Z) (x : A) (l : list A) : list A :=
  match l with
  | [] => [x]
  | y :: r => if key y <=? key x then x :: y :: r else y :: insert_desc key x r
  end.

Definition sort_desc {A} (key : A → Z) (l : list A) : list A :=
  foldr (insert_desc key) [] l.

(** [lambda x: x.get('backup-time', 0)] *)
Definition sort_key (x : snapshot) : Z := default 0 (backup_time x).

(** The verification column:
    [archive.get('verification', {}).get('state', 'none')], lowered, and
    replaced by ['none'] unless it is ['ok'] or ['none']. *)
Definition verify_status (archive : snapshot) : string :=
  let status := default "none" (default None (verification archive)) in
  let status := PyStr.lower status in
  if bool_decide (status ∈ ["ok"; "none"]) then status else "none".

(** What the file selection of [restore_archive] and [mount_archive]
    ends with. *)
Inductive selection :=
| Selected (file : string)
| Shown (k : box_kind) (title text : string)
| Declined
| Raised (e : string).

Section program.

(** [os.environ] *)
Variable environ : gmap string string.

(** [json.loads] on the output of [snapshot list] and of [snapshot files]:
    the decoded array of objects, or the text of the [JSONDecodeError]. *)
Variable json_loads_snapshots : string → result (list snapshot).
Variable json_loads_files : string → result (list file_entry).

(** [datetime.fromtimestamp(t, tz=timezone.utc).strftime("%Y-%m-%dT%H:%M:%SZ")],
    the local-time formatting of the date column, and [format_size]. *)
Variable utc_timestamp : Z → result string.
Variable local_timestamp : Z → local_time.
Variable format_size : Z → string.

(** [validate_config] *)
Definition validate_config (g : GUI) (show_message : bool) : result (bool * list effect) :=
  let warning text := if show_message then [MessageBox Warning "Error" text] else [] in
  match current_profile g with
  | None => Ok (false, warning "No profile selected")
  | Some r =>
      profile ← r;
      match backup_sources profile with
      | [] => Ok (false, warning "Please add at least one backup source")
      | _ =>
          if negb (truthy (repository profile))
          then Ok (false, warning "Please configure repository in settings")
          else if negb (truthy (api_key profile))
          then Ok (false, warning "Please configure API key in settings")
          else Ok (true, [])
      end
  end.

(** [BackupWorker.run].  [launch] is what [subprocess.Popen] gives: the
    child, or the exception of a failed launch. *)
Definition BackupWorker_run (g : GUI) (launch : result child) : list effect * list signal :=
  let prepared : result (list string * gmap string string) :=
    config ← get_current_config g;
    let env := environ in
    key ← config_item config "api_key" cfg_api_key;
    let env := <["PBS_PASSWORD" := key]> env in
    let env :=
      match config with
      | Some c =>
          if truthy (cfg_fingerprint c)
          then <["PBS_FINGERPRINT" := cfg_fingerprint c]> env else env
      | None => env
      end in
    cmd ← get_backup_command g;
    Ok (cmd, env) in
  match prepared with
  | Raise e => ([], [finished false ("Error: " +:+ e)])
  | Ok (cmd, env) =>
      let announced :=
        [command_ready cmd; progress ("Running command: " +:+ PyStr.join " " cmd)] in
      match launch with
      | Raise e => ([Spawn cmd env], announced ++ [finished false ("Error: " +:+ e)])
      | Ok process =>
          let lines := run_loop (readlines (child_stdout process)) in
          let returncode := child_returncode process in
          ([Spawn cmd env],
           announced ++ lines ++
             [if returncode =? 0
              then finished true "Backup completed successfully"
              else finished false ("Backup failed: " +:+ child_stderr process)])
      end
  end.

(** [update_progress], [backup_finished] and the [command_ready] lambda:
    the slots connected by [start_backup]. *)
Definition handle_signal (write_error : option string) (acc : GUI * list effect)
    (s : signal) : GUI * list effect :=
  let '(g, effs) := acc in
  match s with
  | progress message => (set_progress g message, effs)
  | command_ready cmd => (set_command_display g (PyStr.join " " cmd), effs)
  | finished success message =>
      let g := set_progress g message in
      if success then
        let '(g, saved) :=
          if truthy_opt (current_profile_name g)
          then save_settings g false write_error else (g, []) in
        (g, effs ++ saved ++ [TrayMessage "Backup Complete" "Backup finished successfully"])
      else (g, effs ++ [TrayMessage "Backup Failed" message])
  end.

(** [start_backup], followed by the delivery of the worker's signals to
    their slots in emission order. *)
Definition start_backup (g : GUI) (launch : result child) (write_error : option string)
    : result (GUI * list effect) :=
  '(valid, shown) ← validate_config g true;
  if negb valid then Ok (g, shown)
  else
    let '(spawns, signals) := BackupWorker_run g launch in
    let g := set_progress g "Backup in progress..." in
    Ok (foldl (handle_signal write_error) (g, shown ++ spawns) signals).

(** [test_connection] *)
Definition test_connection (g : GUI) (outcome : result completed) : list effect :=
  if negb (truthy (repo_edit g)) || negb (truthy (api_edit g))
  then [MessageBox Warning "Error" "Please enter both repository and API key"]
  else
    let env := environ in
    let env := <["PBS_PASSWORD" := api_edit g]> env in
    let env :=
      if truthy (fingerprint_edit g)
      then <["PBS_FINGERPRINT" := fingerprint_edit g]> env else env in
    let cmd := ["proxmox-backup-client"; "list"; "--repository"; repo_edit g;
                "--output-format"; "json"] in
    Spawn cmd env ::
      match outcome with
      | Ok result =>
          if returncode result =? 0
          then [MessageBox Information "Success" "Connection successful!"]
          else [MessageBox Warning "Error" ("Connection failed: " +:+ stderr result)]
      | Raise e => [MessageBox Warning "Error" ("Connection test failed: " +:+ e)]
      end.

(** The loop body of [refresh_archives] for row [i]: the cells are set in
    column order, and an exception leaves the cells already set. *)
Definition fill_row (i : nat) (archive : snapshot) (t : list table_row)
    : list table_row * option string :=
  let backup_type := default "unknown" (backup_type archive) in
  let backup_id := default "unknown" (backup_id archive) in
  match backup_time archive with
  | None => (t, Some "'str' object cannot be interpreted as an integer")
  | Some backup_time_unix =>
      match utc_timestamp backup_time_unix with
      | Raise e => (t, Some e)
      | Ok backup_time =>
          let snapshot_path := backup_type +:+ "/" +:+ backup_id +:+ "/" +:+ backup_time in
          let t := setItem i 0 snapshot_path t in
          let size_bytes := default 0 (size archive) in
          let t := setItem i 1 (format_size size_bytes) t in
          match local_timestamp backup_time_unix with
          | OtherError e => (t, Some e)
          | local =>
              let timestamp :=
                match local with Formatted s => s | _ => "" end in
              let t := setItem i 2 timestamp t in
              let owner := default "Unknown" (owner archive) in
              let t := setItem i 3 owner t in
              let t := setItem i 4 (verify_status archive) t in
              (t, None)
          end
      end
  end.

(** [for i, archive in enumerate(archives)] from index [i]. *)
Fixpoint fill_rows (i : nat) (archives : list snapshot) (t : list table_row)
    : list table_row * option string :=
  match archives with
  | [] => (t, None)
  | archive :: rest =>
      match fill_row i archive t with
      | (t, Some e) => (t, Some e)
      | (t, None) => fill_rows (S i) rest t
      end
  end.

(** [refresh_archives].  [outcome] is what [subprocess.run] gives. *)
Definition refresh_archives (g : GUI) (outcome : result completed) : GUI * list effect :=
  let unexpected e :=
    MessageBox Warning "Error" ("Unexpected error when fetching archives: " +:+ e) in
  let prepared : result (list string * gmap string string) :=
    config ← get_current_config g;
    let env := environ in
    key ← config_item config "api_key" cfg_api_key;
    let env := <["PBS_PASSWORD" := key]> env in
    repo ← config_item config "repository" cfg_repository;
    Ok (["proxmox-backup-client"; "snapshot"; "list"; "--repository"; repo;
         "--output-format"; "json"], env) in
  match prepared with
  | Raise e => (g, [unexpected e])
  | Ok (cmd, env) =>
      match outcome with
      | Raise e => (g, [Spawn cmd env; unexpected e])
      | Ok result =>
          if returncode result =? 0 then
            match json_loads_snapshots (stdout result) with
            | Raise e => (g, [Spawn cmd env; unexpected e])
            | Ok archives =>
                let archives := sort_desc sort_key archives in
                let t := setRowCount (length archives) (archives_table g) in
                let '(t, raised) := fill_rows 0 archives t in
                (set_catalog g t (Some archives),
                 Spawn cmd env ::
                   match raised with Some e => [unexpected e] | None => [] end)
            end
          else (g, [Spawn cmd env])
      end
  end.

(** The list comprehension of [restore_archive] and [mount_archive]:
    [[file["filename"].removesuffix(".didx") for file in files_data
      if file["filename"].endswith(".pxar.didx")]]. *)
Fixpoint pxar_files (files_data : list file_entry) : result (list string) :=
  match files_data with
  | [] => Ok []
  | file :: rest =>
      match filename file with
      | None => Raise "'filename'"
      | Some name =>
          files ← pxar_files rest;
          if PyStr.endswith name ".pxar.didx"
          then Ok (PyStr.removesuffix name ".didx" :: files)
          else Ok files
      end
  end.

(** The [try] block that decodes the file list and selects the archive
    file.  [choice] is the answer of [QInputDialog.getItem], which opens
    on entry 0: the index of the entry chosen when the dialog is accepted,
    [None] when it is cancelled. *)
Definition select_file (result : completed) (choice : option nat) : selection :=
  match json_loads_files (stdout result) with
  | Raise _ => Shown Warning "Error" "Failed to parse snapshot data"
  | Ok files_data =>
      match pxar_files files_data with
      | Raise e => Raised e
      | Ok [] => Shown Warning "Error" "No .pxar.didx files found in backup"
      | Ok (first :: others) =>
          let selected_file := first in
          match others with
          | [] => Selected selected_file
          | _ =>
              match choice with
              | Some k => Selected (default selected_file ((first :: others) !! k))
              | None => Declined
              end
          end
      end
  end.

(** The command and environment of [snapshot files] in [restore_archive]
    and [mount_archive]. *)
Definition files_command (g : GUI) (backup_id : string)
    : result (option Config * list string * gmap string string) :=
  config ← get_current_config g;
  let env := environ in
  key ← config_item config "api_key" cfg_api_key;
  let env := <["PBS_PASSWORD" := key]> env in
  repo ← config_item config "repository" cfg_repository;
  Ok (config,
      ["proxmox-backup-client"; "snapshot"; "files"; backup_id;
       "--repository"; repo; "--output-format"; "json"], env).

(** [update_mount_status] after [current_mount] is set to [m]. *)
Definition mount_status (m : option string) : string :=
  if truthy_opt m then "Currently mounted at: " +:+ default "" m
  else "No archive currently mounted".

(** [mount_archive].  [selected] is the text of column 0 in the row of the
    first selected item, [mount_path] the directory returned by the file
    dialog (empty when cancelled), [files] what [subprocess.run] gives
    for [snapshot files], [mounted] what [Popen] and [communicate] give
    for the mount command. *)
Definition mount_archive (g : GUI) (selected : option string) (mount_path : string)
    (files : result completed) (choice : option nat) (mounted : result completed)
    : GUI * list effect :=
  let failed e := MessageBox Warning "Error" ("Failed to mount archive: " +:+ e) in
  if truthy_opt (current_mount g) then
    (g, [MessageBox Warning "Error"
           ("An archive is already mounted at " +:+ default "" (current_mount g))])
  else
    match selected with
    | None => (g, [MessageBox Warning "Error" "Please select an archive to mount"])
    | Some backup_id =>
        match get_current_config g with
        | Raise e => (g, [failed e])
        | Ok _ =>
            if negb (truthy mount_path) then (g, [])
            else
              match files_command g backup_id with
              | Raise e => (g, [failed e])
              | Ok (config, cmd, env) =>
                  match files with
                  | Raise e => (g, [Spawn cmd env; failed e])
                  | Ok result =>
                      if negb (returncode result =? 0) then
                        (g, [Spawn cmd env;
                             MessageBox Warning "Error"
                               ("Failed to list snapshot contents: "
                                +:+ PyStr.strip (stderr result))])
                      else
                        match select_file result choice with
                        | Shown k title text => (g, [Spawn cmd env; MessageBox k title text])
                        | Declined => (g, [Spawn cmd env])
                        | Raised e => (g, [Spawn cmd env; failed e])
                        | Selected selected_file =>
                            match config_item config "repository" cfg_repository with
                            | Raise e => (g, [Spawn cmd env; failed e])
                            | Ok repo =>
                                let cmd' :=
                                  ["proxmox-backup-client"; "mount"; backup_id;
                                   selected_file; mount_path; "--repository"; repo] in
                                match mounted with
                                | Raise e => (g, [Spawn cmd env; Spawn cmd' env; failed e])
                                | Ok process =>
                                    if returncode process =? 0 then
                                      (set_mount g (Some mount_path)
                                         (mount_status (Some mount_path)),
                                       [Spawn cmd env; Spawn cmd' env;
                                        MessageBox Information "Success"
                                          ("Archive mounted successfully at " +:+ mount_path
                                           +:+ String "010" (String "010"
                                                 "Note: The mount will be automatically unmounted when you close the application."))])
                                    else
                                      (g, [Spawn cmd env; Spawn cmd' env;
                                           failed (stderr process)])
                                end
                            end
                        end
                  end
              end
        end
    end.

(** [unmount_current].  [outcome] is what [subprocess.run] gives for
    [fusermount -u]. *)
Definition unmount_current (g : GUI) (outcome : result completed) : GUI * list effect :=
  if negb (truthy_opt (current_mount g)) then
    (g, [MessageBox Information "Info" "No archive is currently mounted"])
  else
    let mount := default "" (current_mount g) in
    let cmd := ["fusermount"; "-u"; mount] in
    match outcome with
    | Raise e =>
        (g, [SpawnBare cmd; MessageBox Warning "Error" ("Failed to unmount archive: " +:+ e)])
    | Ok result =>
        if returncode result =? 0 then
          (set_mount g None (mount_status None),
           [SpawnBare cmd;
            MessageBox Information "Success"
              ("Archive unmounted successfully from " +:+ mount)])
        else
          (g, [SpawnBare cmd;
               MessageBox Warning "Error" ("Failed to unmount archive: " +:+ stderr result)])
    end.

(** [restore_archive].  [selected], [files] and [choice] are as in
    [mount_archive]; [restore_path] is the directory returned by the file
    dialog; [launch] is what [Popen] gives for the restore command, and
    [running] and [cancel_at] drive the polling loop. *)
Definition restore_archive (g : GUI) (selected : option string) (restore_path : string)
    (files : result completed) (choice : option nat) (launch : result child)
    (running : nat) (cancel_at : option nat) : list effect :=
  let failed e := MessageBox Warning "Error" ("Failed to restore archive: " +:+ e) in
  match selected with
  | None => [MessageBox Warning "Error" "Please select an archive to restore"]
  | Some backup_id =>
      match get_current_config g with
      | Raise e => [failed e]
      | Ok _ =>
          if negb (truthy restore_path) then []
          else
            match files_command g backup_id with
            | Raise e => [failed e]
            | Ok (config, cmd, env) =>
                match files with
                | Raise e => [Spawn cmd env; failed e]
                | Ok result =>
                    if negb (returncode result =? 0) then
                      [Spawn cmd env;
                       MessageBox Warning "Error"
                         ("Failed to list snapshot contents: "
                          +:+ PyStr.strip (stderr result))]
                    else
                      match select_file result choice with
                      | Shown k title text => [Spawn cmd env; MessageBox k title text]
                      | Declined => [Spawn cmd env]
                      | Raised e => [Spawn cmd env; failed e]
                      | Selected selected_file =>
                          match config_item config "repository" cfg_repository with
                          | Raise e => [Spawn cmd env; failed e]
                          | Ok repo =>
                              let cmd' :=
                                ["proxmox-backup-client"; "restore"; backup_id;
                                 selected_file; restore_path; "--repository"; repo] in
                              match launch with
                              | Raise e => [Spawn cmd env; Spawn cmd' env; failed e]
                              | Ok process =>
                                  match restore_loop running cancel_at with
                                  | Canceled =>
                                      [Spawn cmd env; Spawn cmd' env; Terminate;
                                       MessageBox Warning "Cancelled"
                                         "Restore operation cancelled"]
                                  | Exited =>
                                      if child_returncode process =? 0 then
                                        [Spawn cmd env; Spawn cmd' env;
                                         MessageBox Information "Success"
                                           "Archive restored successfully"]
                                      else
                                        [Spawn cmd env; Spawn cmd' env;
                                         failed (child_stderr process)]
                                  end
                              end
                          end
                      end
                end
            end
      end
  end.

(** [delete_archive].  [reply] tells whether the confirmation is answered
    with Yes; [outcome] is what [subprocess.run] gives for
    [snapshot forget], [refreshed] what it gives for the refresh that
    follows a successful deletion. *)
Definition delete_archive (g : GUI) (selected : option string) (reply : bool)
    (outcome refreshed : result completed) : GUI * list effect :=
  let failed e := MessageBox Warning "Error" ("Failed to delete archive: " +:+ e) in
  match selected with
  | None => (g, [MessageBox Warning "Error" "Please select an archive to delete"])
  | Some backup_id =>
      if negb reply then (g, [])
      else
        let prepared : result (list string * gmap string string) :=
          config ← get_current_config g;
          let env := environ in
          key ← config_item config "api_key" cfg_api_key;
          let env := <["PBS_PASSWORD" := key]> env in
          repo ← config_item config "repository" cfg_repository;
          Ok (["proxmox-backup-client"; "snapshot"; "forget"; backup_id;
               "--repository"; repo], env) in
        match prepared with
        | Raise e => (g, [failed e])
        | Ok (cmd, env) =>
            match outcome with
            | Raise e => (g, [Spawn cmd env; failed e])
            | Ok result =>
                if returncode result =? 0 then
                  let '(g', effs) := refresh_archives g refreshed in
                  (g', [Spawn cmd env;
                        MessageBox Information "Success" "Archive deleted successfully"]
                       ++ effs)
                else
                  (g, [Spawn cmd env; failed (PyStr.strip (stderr result))])
            end
        end
  end.

(** Exit code 0 of a completed process. *)
Definition succeeded (outcome : result completed) : bool :=
  match outcome with
  | Ok result => returncode result =? 0
  | Raise _ => false
  end.

Definition mount_launched (effs : list effect) : bool :=
  existsb (λ e, match e with
                | Spawn (_ :: "mount" :: _) _ => true
                | _ => false
                end) effs.

Definition unmount_launched (effs : list effect) : bool :=
  existsb (λ e, match e with
                | SpawnBare ("fusermount" :: _) => true
                | _ => false
                end) effs.

(** The user's mount and unmount requests with the answers of the
    dialogs and processes. *)
Inductive action : Type :=
| Mount (selected : option string) (mount_path : string) (files : result completed)
    (choice : option nat) (mounted : result completed)
| Unmount (outcome : result completed).

(** One request on the program state paired with the mount points that
    are live in the operating system: a launched mount command that exits
    with 0 adds its mount point, a launched [fusermount -u] that exits
    with 0 removes its argument. *)
Definition step (w : GUI * list string) (a : action) : GUI * list string :=
  let '(g, live) := w in
  match a with
  | Mount selected mount_path files choice mounted =>
      let '(g', effs) := mount_archive g selected mount_path files choice mounted in
      (g', if mount_launched effs && succeeded mounted then mount_path :: live else live)
  | Unmount outcome =>
      let '(g', effs) := unmount_current g outcome in
      (g', if unmount_launched effs && succeeded outcome
           then filter (λ m, m ≠ default "" (current_mount g)) live else live)
  end.

(** The row that the loop body of [refresh_archives] leaves for [archive]
    when nothing raises. *)
Definition rendered_row (archive : snapshot) : table_row :=
  let backup_time_unix := default 0 (backup_time archive) in
  {| cell_archive :=
       Some (default "unknown" (backup_type archive) +:+ "/"
             +:+ default "unknown" (backup_id archive) +:+ "/"
             +:+ match utc_timestamp backup_time_unix with Ok s => s | Raise _ => "" end);
     cell_size := Some (format_size (default 0 (size archive)));
     cell_date :=
       Some (match local_timestamp backup_time_unix with Formatted s => s | _ => "" end);
     cell_owner := Some (default "Unknown" (owner archive));
     cell_verify := Some (verify_status archive) |}.

(** The objects for which the loop body raises nothing: the backup time is
    present and both of its formattings succeed. *)
Definition renderable (archive : snapshot) : Prop :=
  ∃ t s, backup_time archive = Some t ∧ utc_timestamp t = Ok s
         ∧ ∀ e, local_timestamp t ≠ OtherError e.

End program.

(** ** The configuration file *)

(** The dictionaries of the configuration file as [yaml.safe_load] gives
    them: each key that the program reads, [None] when the key is absent. *)
Record source_dict := {
  key_path : option string;
  key_archive_type : option string;
  key_exclusions : option (list string)
}.

Record profile_dict := {
  key_name : option string;
  key_repository : option string;
  key_api_key : option string;
  key_fingerprint : option string;
  key_backup_sources : option (list source_dict)
}.

(** The decoded file: the old flat layout, without a [profiles] key, or the
    list under [profiles].  An empty file is the flat layout without keys. *)
Inductive config_data : Type :=
| LegacyConfig (repo key : option string) (sources : option (list source_dict))
| ProfileConfig (dicts : list profile_dict).

(** [data[key]] *)
Definition dict_item {A} (key : string) (v : option A) : result A :=
  match v with
  | Some a => Ok a
  | None => Raise ("'" +:+ key +:+ "'")
  end.

(** [BackupSource.to_dict] *)
Definition BackupSource_to_dict (s : BackupSource) : source_dict :=
  {| key_path := Some (path s); key_archive_type := Some (archive_type s);
     key_exclusions := Some (exclusions s) |}.

(** [BackupSource.from_dict] *)
Definition BackupSource_from_dict (data : source_dict) : result BackupSource :=
  p ← dict_item "path" (key_path data);
  t ← dict_item "archive_type" (key_archive_type data);
  Ok {| path := p; archive_type := t; exclusions := default [] (key_exclusions data) |}.

(** [[BackupSource.from_dict(source) for source in ...]] *)
Fixpoint sources_from_dicts (l : list source_dict) : result (list BackupSource) :=
  match l with
  | [] => Ok []
  | data :: rest =>
      s ← BackupSource_from_dict data;
      r ← sources_from_dicts rest;
      Ok (s :: r)
  end.

(** [BackupProfile.to_dict] *)
Definition BackupProfile_to_dict (p : BackupProfile) : profile_dict :=
  {| key_name := Some (name p); key_repository := Some (repository p);
     key_api_key := Some (api_key p); key_fingerprint := Some (fingerprint p);
     key_backup_sources := Some (BackupSource_to_dict <$> backup_sources p) |}.

(** [BackupProfile.from_dict] *)
Definition BackupProfile_from_dict (data : profile_dict) : result BackupProfile :=
  sources ← sources_from_dicts (default [] (key_backup_sources data));
  n ← dict_item "name" (key_name data);
  r ← dict_item "repository" (key_repository data);
  k ← dict_item "api_key" (key_api_key data);
  Ok {| name := n; repository := r; api_key := k;
        fingerprint := default "" (key_fingerprint data);
        backup_sources := sources |}.

(** [BackupProfile(name)] *)
Definition BackupProfile_new (n : string) : BackupProfile :=
  {| name := n; repository := ""; api_key := ""; fingerprint := "";
     backup_sources := [] |}.

(** [d[k] = v] on a dictionary in insertion order: a key that is present
    keeps its place. *)
Fixpoint dict_set {V} (k : string) (v : V) (d : list (string * V)) : list (string * V) :=
  match d with
  | [] => [(k, v)]
  | (k', v') :: r =>
      if String.eqb k' k then (k, v) :: r else (k', v') :: dict_set k v r
  end.

(** The loop of [load_config] that fills [self.profiles]. *)
Fixpoint load_profiles (dicts : list profile_dict) (profiles : list (string * BackupProfile))
    : result (list (string * BackupProfile)) :=
  match dicts with
  | [] => Ok profiles
  | profile_data :: rest =>
      profile ← BackupProfile_from_dict profile_data;
      load_profiles rest (dict_set (name profile) profile profiles)
  end.

(** [load_config], from the empty [self.profiles] of [__init__].  [file] is
    [None] when the file does not exist, otherwise what opening and decoding
    it gives.  The result is [self.profiles] in insertion order,
    [self.current_profile_name] and the message shown. *)
Definition load_config (file : option (result config_data))
    : list (string * BackupProfile) * option string * list effect :=
  let fallback e :=
    ([("Default", BackupProfile_new "Default")], Some "Default",
     [MessageBox Warning "Error" ("Failed to load config: " +:+ e)]) in
  let loaded : result (list (string * BackupProfile) * option string) :=
    match file with
    | None => Ok ([], None)
    | Some opened =>
        data ← opened;
        let dicts :=
          match data with
          | LegacyConfig repo key sources =>
              [{| key_name := Some "Default"; key_repository := Some (default "" repo);
                  key_api_key := Some (default "" key); key_fingerprint := None;
                  key_backup_sources := Some (default [] sources) |}]
          | ProfileConfig dicts => dicts
          end in
        profiles ← load_profiles dicts [];
        Ok (profiles, head profiles.*1)
    end in
  match loaded with
  | Raise e => fallback e
  | Ok ([], _) => ([("Default", BackupProfile_new "Default")], Some "Default", [])
  | Ok (profiles, current) => (profiles, current, [])
  end.

(** The data that [save_settings] writes:
    [{'profiles': [profile.to_dict() for profile in self.profiles.values()]}]. *)
Definition config_of_profiles (profiles : list (string * BackupProfile)) : config_data :=
  ProfileConfig (BackupProfile_to_dict <$> profiles.*2).

(** ** Sources and profile selection *)

Definition set_current (g : GUI) (n : option string) : GUI :=
  {| profiles := profiles g; current_profile_name := n;
     current_mount := current_mount g; repo_edit := repo_edit g;
     api_edit := api_edit g; fingerprint_edit := fingerprint_edit g;
     sources_list := sources_list g; command_display := command_display g;
     archives_table := archives_table g; archive_data := archive_data g;
     mount_status_label := mount_status_label g;
     progress_label := progress_label g |}.

Definition set_fields (g : GUI) (repo key fp : string) : GUI :=
  {| profiles := profiles g; current_profile_name := current_profile_name g;
     current_mount := current_mount g; repo_edit := repo;
     api_edit := key; fingerprint_edit := fp;
     sources_list := sources_list g; command_display := command_display g;
     archives_table := archives_table g; archive_data := archive_data g;
     mount_status_label := mount_status_label g;
     progress_label := progress_label g |}.

(** [update_command_display], once the window is built. *)
Definition update_command_display (g : GUI) : result GUI :=
  '(valid, _) ← validate_config g false;
  if negb valid then Ok (set_command_display g "")
  else
    cmd ← get_backup_command g;
    Ok (set_command_display g (PyStr.join " " cmd)).

(** [add_source].  [text] is [source_edit.text()] and [archive_type] the
    current text of the archive combo box.  The method has no handler of
    its own. *)
Definition add_source (g : GUI) (text archive_type : string) (write_error : option string)
    : result (GUI * list effect) :=
  if negb (truthy_opt (current_profile_name g)) then Ok (g, [])
  else if negb (truthy text)
  then Ok (g, [MessageBox Warning "Error" "Please specify a source path"])
  else
    let source := {| path := text; archive_type := archive_type; exclusions := [] |} in
    match current_profile g with
    | None => Ok (g, [])
    | Some r =>
        _ ← r;
        let g := alter_current g (set_backup_sources (λ l, l ++ [source])) in
        g ← update_sources_list g;
        g ← update_command_display g;
        Ok (save_settings g false write_error)
    end.

(** [list.pop(i)] for a non-negative [i]. *)
Definition list_pop {A} (i : nat) (l : list A) : result (list A) :=
  match l !! i with
  | Some _ => Ok (delete i l)
  | None => Raise "pop index out of range"
  end.

(** [remove_source].  [current_row] is [sources_list.currentRow()]. *)
Definition remove_source (g : GUI) (current_row : Z) (write_error : option string)
    : result (GUI * list effect) :=
  if negb (truthy_opt (current_profile_name g)) then Ok (g, [])
  else if 0 <=? current_row then
    match current_profile g with
    | None => Ok (g, [])
    | Some r =>
        profile ← r;
        sources ← list_pop (Z.to_nat current_row) (backup_sources profile);
        let g := alter_current g (set_backup_sources (λ _, sources)) in
        g ← update_sources_list g;
        g ← update_command_display g;
        Ok (save_settings g false write_error)
    end
  else Ok (g, []).

(** [update_ui_from_profile] *)
Definition update_ui_from_profile (g : GUI) : result GUI :=
  match current_profile g with
  | None => Ok g
  | Some r =>
      profile ← r;
      let g := set_fields g (repository profile) (api_key profile) (fingerprint profile) in
      let g := set_sources_list g (source_str <$> backup_sources profile) in
      update_command_display g
  end.

(** [switch_profile] *)
Definition switch_profile (g : GUI) (profile_name : string) : result GUI :=
  if truthy profile_name && bool_decide (is_Some (profiles g !! profile_name)) then
    let g := set_current g (Some profile_name) in
    g ← update_ui_from_profile g;
    update_command_display g
  else Ok g.

(** ** Reference definitions for the properties *)

(** The recorded mount agrees with the live mount points: none of either,
    or one mount point that is the recorded, non-empty path. *)
Definition tracked (w : GUI * list string) : Prop :=
  (current_mount w.1 = None ∧ w.2 = [])
  ∨ (∃ m, m ≠ "" ∧ current_mount w.1 = Some m ∧ w.2 = [m]).

Definition restore_launched (effs : list effect) : bool :=
  existsb (λ e, match e with
                | Spawn (_ :: "restore" :: _) _ => true
                | _ => false
                end) effs.

(** [parseSnapshotFiles] in the words of the specification: the file names
    that end in the double-suffix marker of the archive type, without the
    trailing index suffix. *)
Inductive archive_kind := pxar | img.

Definition spec_marker (k : archive_kind) : string :=
  match k with pxar => ".pxar.didx" | img => ".img.fidx" end.

Definition spec_index_suffix (k : archive_kind) : string :=
  match k with pxar => ".didx" | img => ".fidx" end.

Definition spec_parseSnapshotFiles (k : archive_kind) (names : list string) : list string :=
  (λ name, PyStr.removesuffix name (spec_index_suffix k))
  <$> filter (λ name, PyStr.endswith name (spec_marker k) = true) names.

(** The default of the specification: without a selection by the caller the
    first candidate is taken. *)
Definition spec_default (candidates : list string) (choice : option nat) : option string :=
  match choice with
  | Some k => candidates !! k
  | None => head candidates
  end.

(** What a streaming run delivers to its consumer, in the words of the
    specification: the lines of the child in arrival order and then one
    terminal result, or, when the consumer cancels after [k] lines, those
    lines and then the cancelled outcome. *)
Inductive delivery : Type :=
| Line (text : string)
| Result (success : bool) (message : string)
| Cancelled.

Definition spec_stream (lines : list string) (code : Z) (stderr_text success_text : string)
    (cancel_after : option nat) : list delivery :=
  match cancel_after with
  | None =>
      (Line <$> lines)
      ++ [Result (code =? 0) (if code =? 0 then success_text else stderr_text)]
  | Some k => (Line <$> take k lines) ++ [Cancelled]
  end.

(** What the consumer of [restore_archive] is shown. *)
Definition restore_delivery (e : effect) : list delivery :=
  match e with
  | MessageBox Information _ text => [Result true text]
  | MessageBox Warning "Cancelled" _ => [Cancelled]
  | MessageBox Warning _ text => [Result false text]
  | _ => []
  end.

(** What the slots of [BackupWorker] receive. *)
Definition worker_delivery (s : signal) : list delivery :=
  match s with
  | progress message => [Line message]
  | finished success message => [Result success message]
  | command_ready _ => []
  end.

(** The profiles that [validate_config] accepts. *)
Definition profile_complete (p : BackupProfile) : bool :=
  match backup_sources p with
  | [] => false
  | _ => truthy (repository p) && truthy (api_key p)
  end.

(** The backup command of a profile, as [get_backup_command] builds it. *)
Definition backup_command_of (p : BackupProfile) : list string :=
  ["proxmox-backup-client"; "backup"]
  ++ concat (spec_source_args <$> backup_sources p)
  ++ ["--repository"; repository p].

(** The lines of the text that a child writes, as reading under universal
    newlines returns them: a line ends at a line feed, at a carriage return
    with the line feed after it, or at a carriage return alone, and comes
    with one line feed in place of its ending; what follows the last ending,
    if anything, is a last line without one. *)
Definition no_line_end (body : string) : Prop :=
  PyStr.contains "010" body = false ∧ PyStr.contains "013" body = false.

Inductive text_lines : string → list string → Prop :=
| text_lines_done : text_lines "" []
| text_lines_last body :
    body ≠ "" → no_line_end body → text_lines body [body]
| text_lines_lf body rest lines :
    no_line_end body → text_lines rest lines →
    text_lines (body +:+ String "010" rest) ((body +:+ String "010" "") :: lines)
| text_lines_crlf body rest lines :
    no_line_end body → text_lines rest lines →
    text_lines (body +:+ String "013" (String "010" rest))
      ((body +:+ String "010" "") :: lines)
| text_lines_cr body rest lines :
    no_line_end body → PyStr.head_is (λ c, Ascii.eqb c "010") rest = false →
    text_lines rest lines →
    text_lines (body +:+ String "013" rest) ((body +:+ String "010" "") :: lines).

(** ** Sample data *)

(** The double quote character, for JSON texts. *)
Definition dq : string := String "034" "".

Definition sample_source : BackupSource :=
  {| path := "/home/u/"; archive_type := "pxar"; exclusions := ["cache"; "tmp"] |}.

Definition sample_profile : BackupProfile :=
  {| name := "Default"; repository := "h:8007:ds"; api_key := "k"; fingerprint := "";
     backup_sources :=
       [sample_source; {| path := "/etc"; archive_type := "pxar"; exclusions := [] |}] |}.

Definition sample_gui : GUI :=
  {| profiles := {["Default" := sample_profile]};
     current_profile_name := Some "Default"; current_mount := None;
     repo_edit := "h:8007:ds"; api_edit := "k"; fingerprint_edit := "";
     sources_list := []; command_display := ""; archives_table := [];
     archive_data := None; mount_status_label := ""; progress_label := "" |}.

(** Output of [snapshot files] for a snapshot with one pxar archive and one
    image, and [json.loads] on the texts used in the examples. *)
Definition sample_files_json : string :=
  "[{" +:+ dq +:+ "filename" +:+ dq +:+ ": " +:+ dq +:+ "a.pxar.didx" +:+ dq +:+ "}, {"
  +:+ dq +:+ "filename" +:+ dq +:+ ": " +:+ dq +:+ "b.img.fidx" +:+ dq +:+ "}]".

Definition sample_files : list file_entry :=
  [{| filename := Some "a.pxar.didx" |}; {| filename := Some "b.img.fidx" |}].

Definition sample_loads_files (s : string) : result (list file_entry) :=
  if String.eqb s sample_files_json then Ok sample_files
  else if String.eqb s "[]" then Ok []
  else Raise "Expecting value: line 1 column 1 (char 0)".

Definition exit_with (code : Z) (out err : string) : result completed :=
  Ok {| returncode := code; stdout := out; stderr := err |}.

Definition sample_mount : action :=
  Mount (Some "host/pc/2024-01-01T00:00:00Z") "/mnt/backup"
    (exit_with 0 sample_files_json "") None (exit_with 0 "" "").

Definition sample_mounted_gui : GUI :=
  set_mount sample_gui (Some "/mnt/backup") "Currently mounted at: /mnt/backup".

(** The profile of a fresh installation ([BackupProfile('Default')]) and the
    window state that holds only it. *)
Definition default_profile : BackupProfile :=
  {| name := "Default"; repository := ""; api_key := ""; fingerprint := "";
     backup_sources := [] |}.

Definition default_gui : GUI :=
  {| profiles := {["Default" := default_profile]};
     current_profile_name := Some "Default"; current_mount := None;
     repo_edit := ""; api_edit := ""; fingerprint_edit := "";
     sources_list := []; command_display := ""; archives_table := [];
     archive_data := None; mount_status_label := "No archive currently mounted";
     progress_label := "Ready" |}.

(** A complete profile with a server fingerprint. *)
Definition fingerprint_profile : BackupProfile :=
  {| name := "Default"; repository := "h:8007:ds"; api_key := "k";
     fingerprint := "AA:BB";
     backup_sources := [{| path := "/etc"; archive_type := "pxar"; exclusions := [] |}] |}.

Definition fingerprint_gui : GUI :=
  {| profiles := {["Default" := fingerprint_profile]};
     current_profile_name := Some "Default"; current_mount := None;
     repo_edit := "h:8007:ds"; api_edit := "k"; fingerprint_edit := "AA:BB";
     sources_list := []; command_display := ""; archives_table := [];
     archive_data := None; mount_status_label := "No archive currently mounted";
     progress_label := "Ready" |}.

(** Output of [snapshot list] with three snapshots, taken at 100, 300 and
    200, the last one with an owner and a verification state. *)
Definition sample_list_json : string :=
  "[{" +:+ dq +:+ "backup-time" +:+ dq +:+ ": 100}, {"
  +:+ dq +:+ "backup-time" +:+ dq +:+ ": 300}, {"
  +:+ dq +:+ "backup-time" +:+ dq +:+ ": 200, "
  +:+ dq +:+ "owner" +:+ dq +:+ ": " +:+ dq +:+ "root@pam" +:+ dq +:+ ", "
  +:+ dq +:+ "verification" +:+ dq +:+ ": {" +:+ dq +:+ "state" +:+ dq +:+ ": "
  +:+ dq +:+ "OK" +:+ dq +:+ "}}]".

Definition snapshot_at (t : Z) : snapshot :=
  {| backup_type := None; backup_id := None; backup_time := Some t; size := None;
     owner := None; verification := None |}.

Definition sample_list : list snapshot :=
  [snapshot_at 100; snapshot_at 300;
   {| backup_type := None; backup_id := None; backup_time := Some 200; size := None;
      owner := Some "root@pam"; verification := Some (Some "OK") |}].

(** Output of [snapshot list] with one object that has no backup time. *)
Definition untimed_list_json : string :=
  "[{" +:+ dq +:+ "backup-id" +:+ dq +:+ ": " +:+ dq +:+ "pc" +:+ dq +:+ "}]".

Definition untimed_list : list snapshot :=
  [{| backup_type := None; backup_id := Some "pc"; backup_time := None; size := None;
      owner := None; verification := None |}].

(** Stand-ins for the library functions in the examples: a decoder that
    knows the texts used here, and formatters that are constant. *)
Definition sample_loads_snapshots (s : string) : result (list snapshot) :=
  if String.eqb s "[]" then Ok []
  else if String.eqb s sample_list_json then Ok sample_list
  else if String.eqb s untimed_list_json then Ok untimed_list
  else Raise "Expecting value: line 1 column 1 (char 0)".

Definition sample_utc (t : Z) : result string := Ok "1970-01-01T00:00:00Z".
Definition sample_local (t : Z) : local_time := Formatted "1970-01-01 00:00:00".
Definition sample_format_size (n : Z) : string := "0.00 B".

(** The window after a refresh that listed the three sample snapshots. *)
Definition sample_listed_gui : GUI :=
  (refresh_archives ∅ sample_loads_snapshots sample_utc sample_local sample_format_size
     sample_gui (Ok {| returncode := 0; stdout := sample_list_json; stderr := "" |})).1.

Definition sample_child : child :=
  {| child_stdout := "Starting backup" +:+ String "010" ("  done " +:+ String "010" "");
     child_stderr := ""; child_returncode := 0 |}.

(** A snapshot with two pxar archives. *)
Definition two_pxar_json : string :=
  "[{" +:+ dq +:+ "filename" +:+ dq +:+ ": " +:+ dq +:+ "root.pxar.didx" +:+ dq +:+ "}, {"
  +:+ dq +:+ "filename" +:+ dq +:+ ": " +:+ dq +:+ "home.pxar.didx" +:+ dq +:+ "}]".

Definition two_pxar_loads (s : string) : result (list file_entry) :=
  if String.eqb s two_pxar_json
  then Ok [{| filename := Some "root.pxar.didx" |}; {| filename := Some "home.pxar.didx" |}]
  else Raise "Expecting value: line 1 column 1 (char 0)".

(** A child of the restore command that writes one line and exits with 0. *)
Definition one_line_child : child :=
  {| child_stdout := "L1" +:+ String "010" ""; child_stderr := ""; child_returncode := 0 |}.

Definition sample_restore (running : nat) (cancel_at : option nat) : list effect :=
  restore_archive ∅ sample_loads_files sample_gui (Some "host/pc/2024-01-01T00:00:00Z")
    "/restore" (exit_with 0 sample_files_json "") None (Ok one_line_child)
    running cancel_at.

(** A second profile, and a profile dictionary without its API key. *)
Definition work_profile : BackupProfile :=
  {| name := "Work"; repository := "w:8007:ds"; api_key := "secret"; fingerprint := "AA:BB";
     backup_sources := [{| path := "/srv"; archive_type := "pxar"; exclusions := ["tmp"] |}] |}.

Definition keyless_dict : profile_dict :=
  {| key_name := Some "Broken"; key_repository := Some "b:8007:ds"; key_api_key := None;
     key_fingerprint := None; key_backup_sources := None |}.

(** A window with the two profiles, [Default] current. *)
Definition two_profiles_gui : GUI :=
  {| profiles := <["Work" := work_profile]> {["Default" := sample_profile]};
     current_profile_name := Some "Default"; current_mount := None;
     repo_edit := "h:8007:ds"; api_edit := "k"; fingerprint_edit := "";
     sources_list := []; command_display := ""; archives_table := [];
     archive_data := None; mount_status_label := ""; progress_label := "" |}.

(** A state whose only profile has the empty name, as [load_config] leaves
    it for a configuration file with such a profile. *)
Definition unnamed_gui : GUI :=
  {| profiles := {["" := BackupProfile_new ""]};
     current_profile_name := Some ""; current_mount := None;
     repo_edit := ""; api_edit := ""; fingerprint_edit := "";
     sources_list := []; command_display := ""; archives_table := [];
     archive_data := None; mount_status_label := ""; progress_label := "" |}.

(** A child that ends its first line with a carriage return alone, its
    second with a carriage return and a line feed, writes one line more
    and fails. *)
Definition carriage_child : child :=
  {| child_stdout :=
       "10%" +:+ String "013" ("50%" +:+ String "013" (String "010" ("done" +:+ String "010" "")));
     child_stderr := "connection lost"; child_returncode := 1 |}.

(** * Verified properties *)

(** ** String methods *)

Section string_facts.

Implicit Types (s t : string) (c ch : ascii) (p : ascii → bool).

Lemma append_nil_l s : "" +:+ s = s.
Proof. reflexivity. Qed.

Lemma append_cons c s t : String c s +:+ t = String c (s +:+ t).
Proof. reflexivity. Qed.

Lemma append_nil_r s : s +:+ "" = s.
Proof. induction s as [|c s IH]; [done|]. by rewrite append_cons, IH. Qed.

Lemma append_assoc s t u : (s +:+ t) +:+ u = s +:+ t +:+ u.
Proof. induction s as [|c s IH]; [done|]. by rewrite !append_cons, IH. Qed.

Lemma lstrip_by_head p s : PyStr.head_is p (PyStr.lstrip_by p s) = false.
Proof.
  induction s as [|c s IH]; simpl; [done|].
  destruct (p c) eqn:Hc; [done|]. simpl. exact Hc.
Qed.

Lemma lstrip_by_decomp p s :
  ∃ a, s = a +:+ PyStr.lstrip_by p s ∧ PyStr.all_chars p a = true.
Proof.
  induction s as [|c s (a & Ha & Hp)]; simpl.
  - by exists "".
  - destruct (p c) eqn:Hc.
    + exists (String c a). rewrite append_cons, <- Ha. simpl. by rewrite Hc, Hp.
    + by exists "".
Qed.

Lemma rstrip_by_last p s : PyStr.last_is p (PyStr.rstrip_by p s) = false.
Proof.
  induction s as [|c s IH]; simpl; [done|].
  destruct (PyStr.rstrip_by p s) as [|d r] eqn:Hr.
  - destruct (p c) eqn:Hc; simpl; [done|exact Hc].
  - exact IH.
Qed.

Lemma rstrip_by_head p s :
  PyStr.head_is p s = false → PyStr.head_is p (PyStr.rstrip_by p s) = false.
Proof.
  destruct s as [|c s]; simpl; [done|]. intros Hc.
  destruct (PyStr.rstrip_by p s); [by rewrite Hc|done].
Qed.

Lemma rstrip_by_decomp p s :
  ∃ b, s = PyStr.rstrip_by p s +:+ b ∧ PyStr.all_chars p b = true.
Proof.
  induction s as [|c s (b & Hb & Hp)]; simpl.
  - by exists "".
  - destruct (PyStr.rstrip_by p s) as [|d r] eqn:Hr.
    + destruct (p c) eqn:Hc.
      * exists (String c b). rewrite append_nil_l in *. simpl.
        rewrite Hc, Hp. by rewrite <- Hb.
      * exists b. rewrite append_cons. by rewrite <- Hb.
    + exists b. rewrite append_cons. by rewrite <- Hb.
Qed.

(** [strip] removes a whitespace prefix and a whitespace suffix, and what
    is left neither starts nor ends with whitespace. *)
Lemma strip_decomp s :
  ∃ a b, s = a +:+ PyStr.strip s +:+ b
         ∧ PyStr.all_chars PyStr.isspace a = true ∧ PyStr.all_chars PyStr.isspace b = true.
Proof.
  destruct (lstrip_by_decomp PyStr.isspace s) as (a & Ha & Hpa).
  destruct (rstrip_by_decomp PyStr.isspace (PyStr.lstrip_by PyStr.isspace s))
    as (b & Hb & Hpb).
  exists a, b. split; [|done]. unfold PyStr.strip. by rewrite <- Hb.
Qed.

Lemma strip_head s : PyStr.head_is PyStr.isspace (PyStr.strip s) = false.
Proof. apply rstrip_by_head, lstrip_by_head. Qed.

Lemma strip_last s : PyStr.last_is PyStr.isspace (PyStr.strip s) = false.
Proof. apply rstrip_by_last. Qed.

Lemma truthy_true s : truthy s = true ↔ s ≠ "".
Proof.
  unfold truthy. destruct (String.eqb_spec s ""); simpl; split; try done.
Qed.

Lemma split_not_nil ch s : PyStr.split ch s ≠ [].
Proof.
  destruct s as [|c s]; simpl; [done|].
  destruct (Ascii.eqb c ch); [done|]. by destruct (PyStr.split ch s).
Qed.

(** [split] is the inverse of [join] and its pieces hold no separator. *)
Lemma split_join ch s : PyStr.join (String ch "") (PyStr.split ch s) = s.
Proof.
  induction s as [|c s IH]; simpl; [done|].
  destruct (Ascii.eqb_spec c ch) as [->|Hne].
  - pose proof (split_not_nil ch s) as Hnil.
    destruct (PyStr.split ch s) as [|h t] eqn:Hs; [done|].
    change (PyStr.join (String ch "") ("" :: h :: t))
      with ("" +:+ String ch "" +:+ PyStr.join (String ch "") (h :: t)).
    by rewrite IH.
  - destruct (PyStr.split ch s) as [|h t] eqn:Hs.
    + by destruct (split_not_nil ch s).
    + destruct t as [|h' t]; simpl in *; [by rewrite IH|].
      rewrite append_cons. by rewrite IH.
Qed.

Lemma split_no_sep ch s :
  Forall (λ x, PyStr.contains ch x = false) (PyStr.split ch s).
Proof.
  induction s as [|c s IH]; simpl.
  - by constructor.
  - destruct (Ascii.eqb c ch) eqn:Hc.
    + by constructor.
    + destruct (PyStr.split ch s) as [|h t]; inversion IH; subst;
        constructor; simpl; rewrite ?Hc; auto.
Qed.

Lemma split_no_sep_single ch s :
  PyStr.contains ch s = false → PyStr.split ch s = [s].
Proof.
  induction s as [|c s IH]; simpl; [done|].
  destruct (Ascii.eqb c ch); simpl; [done|]. intros H. by rewrite IH.
Qed.

Lemma split_sep_last ch c s :
  PyStr.contains ch s = true →
  last (PyStr.split ch (String c s)) = last (PyStr.split ch s).
Proof.
  intros Hs. simpl. destruct (Ascii.eqb c ch).
  - pose proof (split_not_nil ch s). by destruct (PyStr.split ch s).
  - destruct s as [|d s]; [done|]. simpl in *.
    destruct (Ascii.eqb d ch); simpl in *.
    + pose proof (split_not_nil ch s). by destruct (PyStr.split ch s).
    + pose proof (split_not_nil ch s).
      destruct (PyStr.split ch s) as [|h [|h' t]] eqn:Hsp; [done| |done].
      assert (PyStr.contains ch s = false) as Hno; [|congruence].
      pose proof (split_no_sep ch s) as Hf. rewrite Hsp in Hf.
      pose proof (split_join ch s) as Hj. rewrite Hsp in Hj. simpl in Hj.
      subst h. by inversion Hf.
Qed.

Lemma rfind_go_spec ch s i found :
  (PyStr.contains ch s = false → PyStr.rfind_go s ch i found = found) ∧
  (PyStr.contains ch s = true →
     i ≤ PyStr.rfind_go s ch i found ∧
     PyStr.drop (Z.to_nat (PyStr.rfind_go s ch i found - i + 1)) s
     = default "" (last (PyStr.split ch s))).
Proof.
  revert i found. induction s as [|c s IH]; intros i found.
  - simpl. split; done.
  - change (PyStr.rfind_go (String c s) ch i found)
      with (PyStr.rfind_go s ch (i + 1) (if Ascii.eqb c ch then i else found)).
    destruct (IH (i + 1) (if Ascii.eqb c ch then i else found)) as [IH1 IH2].
    destruct (PyStr.contains ch s) eqn:Hs.
    + split; [simpl; rewrite Hs; by destruct (Ascii.eqb c ch)|]. intros _.
      destruct (IH2 eq_refl) as [Hle Hd]. split; [lia|].
      rewrite split_sep_last by done. rewrite <- Hd.
      replace (Z.to_nat (PyStr.rfind_go s ch (i + 1)
                 (if Ascii.eqb c ch then i else found) - i + 1))
        with (S (Z.to_nat (PyStr.rfind_go s ch (i + 1)
                 (if Ascii.eqb c ch then i else found) - (i + 1) + 1))) by lia.
      done.
    + rewrite (IH1 eq_refl). simpl. rewrite Hs.
      destruct (Ascii.eqb c ch) eqn:Hc; simpl; split; try done.
      intros _. split; [lia|].
      replace (Z.to_nat (i - i + 1)) with 1%nat by lia. simpl.
      by rewrite split_no_sep_single.
Qed.

(** [os.path.basename] keeps the last [/]-separated component. *)
Lemma os_path_basename_last s :
  os_path_basename s = default "" (last (PyStr.split "/" s)).
Proof.
  unfold os_path_basename, PyStr.rfind, PyStr.slice_from.
  destruct (rfind_go_spec "/" s 0 (-1)) as [H1 H2].
  destruct (PyStr.contains "/" s) eqn:Hs.
  - destruct (H2 eq_refl) as [Hle Hd]. rewrite <- Hd. f_equal. lia.
  - rewrite (H1 eq_refl). simpl. by rewrite split_no_sep_single.
Qed.

End string_facts.

(** ** The current profile *)

Section current.

Variables (g : GUI) (n : string) (p : BackupProfile).
Hypothesis Hcur : current_profile_name g = Some n.
Hypothesis Hn : n ≠ "".
Hypothesis Hp : profiles g !! n = Some p.

Lemma current_profile_some : current_profile g = Some (Ok p).
Proof using Hcur Hn Hp.
  unfold current_profile. rewrite Hcur. simpl.
  apply truthy_true in Hn. by rewrite Hn, Hp.
Qed.

Lemma get_current_config_some :
  get_current_config g
  = Ok (Some {| cfg_repository := repository p; cfg_api_key := api_key p;
                cfg_fingerprint := fingerprint p;
                cfg_backup_sources := backup_sources p |}).
Proof using Hcur Hn Hp. unfold get_current_config. by rewrite current_profile_some. Qed.

End current.

(** ** Backup command *)

Lemma foldl_append_each {A} (f : A → string) (l : list A) (acc : list string) :
  foldl (λ cmd x, cmd ++ [f x]) acc l = acc ++ (f <$> l).
Proof.
  revert acc. induction l as [|x l IH]; intros acc; simpl.
  - by rewrite app_nil_r.
  - rewrite IH. by rewrite <- app_assoc.
Qed.

Lemma foldl_sources (l : list BackupSource) (acc : list string) :
  foldl (λ cmd source,
           let dir_name := os_path_basename (PyStr.rstrip "/" (path source)) in
           let cmd :=
             cmd ++ [dir_name +:+ "." +:+ archive_type source +:+ ":" +:+ path source] in
           foldl (λ cmd exclusion, cmd ++ ["--exclude=" +:+ exclusion])
                 cmd (exclusions source))
        acc l
  = acc ++ concat (spec_source_args <$> l).
Proof.
  revert acc. induction l as [|s l IH]; intros acc; simpl.
  - by rewrite app_nil_r.
  - rewrite IH, foldl_append_each. unfold spec_source_args, spec_baseName.
    rewrite os_path_basename_last. by rewrite <- !app_assoc.
Qed.

Lemma get_backup_command_some (g : GUI) (n : string) (p : BackupProfile) :
  current_profile_name g = Some n → n ≠ "" → profiles g !! n = Some p →
  get_backup_command g
  = Ok (["proxmox-backup-client"; "backup"]
        ++ concat (spec_source_args <$> backup_sources p)
        ++ ["--repository"; repository p]).
Proof.
  intros Hcur Hn Hp. unfold get_backup_command.
  rewrite (get_current_config_some g n p) by done.
  simpl. rewrite foldl_sources. simpl. reflexivity.
Qed.

(** C1: for the current profile [p] with at least one source, the backup
    command is the program name and the [backup] subcommand followed by the
    argument vector: for each source in stored order its positional argument
    [baseName(path).archiveType:path] immediately followed by one
    [--exclude=pattern] per exclusion of that source in stored order, and
    the vector ends with [--repository] and the profile's repository. *)
Theorem get_backup_command_interleaved (g : GUI) (n : string) (p : BackupProfile) :
  current_profile_name g = Some n → n ≠ "" → profiles g !! n = Some p →
  backup_sources p ≠ [] →
  ∃ args,
    get_backup_command g = Ok (["proxmox-backup-client"; "backup"] ++ args)
    ∧ args = concat (spec_source_args <$> backup_sources p)
             ++ ["--repository"; repository p]
    ∧ (∀ i s, backup_sources p !! i = Some s →
         ∃ before after,
           args = before ++ spec_source_args s ++ after
           ∧ before = concat (spec_source_args <$> take i (backup_sources p)))
    ∧ drop (length args - 2) args = ["--repository"; repository p].
Proof.
  intros Hcur Hn Hp _. eexists. split; [|split; [reflexivity|split]].
  - by rewrite (get_backup_command_some g n p).
  - intros i s Hi.
    exists (concat (spec_source_args <$> take i (backup_sources p))),
           (concat (spec_source_args <$> drop (S i) (backup_sources p))
            ++ ["--repository"; repository p]).
    split; [|done].
    rewrite <- (take_drop_middle _ _ _ Hi) at 1.
    rewrite fmap_app, concat_app. simpl.
    rewrite <- !app_assoc. simpl. by rewrite <- !app_assoc.
  - rewrite length_app. simpl.
    replace (length (concat (spec_source_args <$> backup_sources p)) + 2 - 2)%nat
      with (length (concat (spec_source_args <$> backup_sources p)) + 0)%nat by lia.
    by rewrite drop_app_length'.
Qed.

Example get_backup_command_sample :
  get_backup_command sample_gui
  = Ok ["proxmox-backup-client"; "backup"; "u.pxar:/home/u/"; "--exclude=cache";
        "--exclude=tmp"; "etc.pxar:/etc"; "--repository"; "h:8007:ds"].
Proof. reflexivity. Qed.

Lemma get_backup_command_interleaved_witness :
  ∃ args,
    get_backup_command sample_gui = Ok (["proxmox-backup-client"; "backup"] ++ args)
    ∧ args = concat (spec_source_args <$> backup_sources sample_profile)
             ++ ["--repository"; repository sample_profile]
    ∧ (∀ i s, backup_sources sample_profile !! i = Some s →
         ∃ before after,
           args = before ++ spec_source_args s ++ after
           ∧ before = concat (spec_source_args <$> take i (backup_sources sample_profile)))
    ∧ drop (length args - 2) args = ["--repository"; repository sample_profile].
Proof.
  apply (get_backup_command_interleaved sample_gui "Default" sample_profile);
    [reflexivity | discriminate | vm_compute; reflexivity | discriminate].
Defined.

(** ** Editing exclusions *)

Lemma exclusion_lines_filter (text : string) :
  exclusion_lines text
  = filter (λ e, e ≠ "") (PyStr.strip <$> PyStr.split "010" text).
Proof.
  unfold exclusion_lines. induction (PyStr.split "010" text) as [|l ls IH]; [done|].
  rewrite fmap_cons, !filter_cons, <- IH.
  destruct (decide (truthy (PyStr.strip l) = true)) as [Ht|Ht];
    destruct (decide (PyStr.strip l ≠ "")) as [Hs|Hs]; try done.
  - by apply truthy_true in Ht.
  - by apply truthy_true in Hs.
Qed.

Lemma exclusion_lines_clean (text : string) :
  Forall (λ e, e ≠ ""
               ∧ PyStr.head_is PyStr.isspace e = false
               ∧ PyStr.last_is PyStr.isspace e = false)
         (exclusion_lines text).
Proof.
  unfold exclusion_lines. apply Forall_fmap, Forall_forall.
  intros l [Hl _]%list_elem_of_filter. simpl.
  split; [by apply truthy_true|]. split; [apply strip_head|apply strip_last].
Qed.

(** C10: when the exclusion dialog of the selected source is accepted with
    text [text], the exclusions stored on that source are exactly the
    whitespace-trimmed lines of [text] that are not empty, in input order;
    no stored exclusion is empty or starts or ends with whitespace (blank
    lines are dropped), and the other sources are left as they were. *)
Theorem edit_exclusions_stores_trimmed_lines
    (g : GUI) (n : string) (p : BackupProfile) (i : nat) (src : BackupSource)
    (text : string) (write_error : option string) :
  current_profile_name g = Some n → n ≠ "" → profiles g !! n = Some p →
  backup_sources p !! i = Some src →
  ∃ g' effs p' src',
    edit_exclusions g (Z.of_nat i) (Some text) write_error = Ok (g', effs)
    ∧ profiles g' !! n = Some p'
    ∧ backup_sources p' !! i = Some src'
    ∧ path src' = path src ∧ archive_type src' = archive_type src
    ∧ exclusions src'
      = filter (λ e, e ≠ "") (PyStr.strip <$> PyStr.split "010" text)
    ∧ Forall (λ e, e ≠ ""
                   ∧ PyStr.head_is PyStr.isspace e = false
                   ∧ PyStr.last_is PyStr.isspace e = false)
             (exclusions src')
    ∧ (∀ j, j ≠ i → backup_sources p' !! j = backup_sources p !! j).
Proof.
  intros Hcur Hn Hp Hi.
  set (f := set_backup_sources
              (alter (set_exclusions (exclusion_lines text)) i)).
  set (g1 := alter_current g f).
  assert (current_profile_name g1 = Some n) as Hcur1.
  { unfold g1, alter_current. by rewrite Hcur. }
  assert (profiles g1 !! n = Some (f p)) as Hp1.
  { unfold g1, alter_current. rewrite Hcur. simpl. by rewrite lookup_alter_eq, Hp. }
  set (g2 := set_sources_list g1 (source_str <$> backup_sources (f p))).
  assert (update_sources_list g1 = Ok g2) as Hupd.
  { unfold update_sources_list. by rewrite (current_profile_some g1 n (f p)). }
  set (c := set_connection (repo_edit g2) (api_edit g2) (fingerprint_edit g2)).
  destruct (save_settings g2 false write_error) as [g3 effs] eqn:Hsave.
  assert (profiles g3 !! n = Some (c (f p))) as Hp3.
  { unfold save_settings in Hsave.
    rewrite (current_profile_some g2 n (f p)) in Hsave by done. simpl in Hsave.
    assert (profiles (alter_current g2 c) !! n = Some (c (f p))) as Hl.
    { unfold alter_current. simpl. rewrite Hcur1. simpl.
      by rewrite lookup_alter_eq, Hp1. }
    destruct write_error; inversion Hsave; subst; exact Hl. }
  exists g3, effs, (c (f p)), (set_exclusions (exclusion_lines text) src).
  split.
  { unfold edit_exclusions. rewrite (get_current_config_some g n p) by done. simpl.
    assert ((Z.of_nat i <? 0) = false) as -> by (apply Z.ltb_ge; lia).
    rewrite Nat2Z.id, Hi. fold f. fold g1. rewrite Hupd. simpl.
    by rewrite Hsave. }
  split; [done|]. simpl.
  split; [by rewrite list_lookup_alter_eq, Hi|].
  split; [done|]. split; [done|].
  split; [apply exclusion_lines_filter|].
  split; [apply exclusion_lines_clean|].
  intros j Hj. by rewrite list_lookup_alter_ne.
Qed.

Lemma edit_exclusions_stores_trimmed_lines_witness :
  ∃ g' effs p' src',
    edit_exclusions sample_gui (Z.of_nat 0)
      (Some (" a " +:+ String "010" "" +:+ String "010" "b")) None = Ok (g', effs)
    ∧ profiles g' !! "Default" = Some p'
    ∧ backup_sources p' !! 0%nat = Some src'
    ∧ path src' = path sample_source ∧ archive_type src' = archive_type sample_source
    ∧ exclusions src'
      = filter (λ e, e ≠ "")
          (PyStr.strip <$>
             PyStr.split "010" (" a " +:+ String "010" "" +:+ String "010" "b"))
    ∧ Forall (λ e, e ≠ ""
                   ∧ PyStr.head_is PyStr.isspace e = false
                   ∧ PyStr.last_is PyStr.isspace e = false)
             (exclusions src')
    ∧ (∀ j, j ≠ 0%nat →
         backup_sources p' !! j = backup_sources sample_profile !! j).
Proof.
  apply (edit_exclusions_stores_trimmed_lines sample_gui "Default" sample_profile
           0 sample_source);
    [reflexivity | discriminate | vm_compute; reflexivity | reflexivity].
Defined.

Example exclusion_lines_sample :
  exclusion_lines (" a " +:+ String "010" "" +:+ String "010" "b") = ["a"; "b"].
Proof. reflexivity. Qed.

(** ** Mount tracking *)

Section mounts.

Variable environ : gmap string string.
Variable json_loads_files : string → result (list file_entry).

Abbreviation mount_archive' := (mount_archive environ json_loads_files).
Abbreviation step' := (step environ json_loads_files).

Lemma truthy_opt_true (o : option string) :
  truthy_opt o = true ↔ ∃ m, o = Some m ∧ m ≠ "".
Proof.
  destruct o as [m|]; simpl.
  - rewrite truthy_true. split.
    + intros Hm. by exists m.
    + by intros (m' & [= <-] & Hm).
  - split; [done|]. by intros (m & Hm & _).
Qed.

(** A mount request while a mount is recorded is refused at once. *)
Lemma mount_archive_already_mounted (g : GUI) (m : string) selected mount_path files
    choice mounted :
  current_mount g = Some m → m ≠ "" →
  mount_archive' g selected mount_path files choice mounted
  = (g, [MessageBox Warning "Error" ("An archive is already mounted at " +:+ m)]).
Proof.
  intros Hm Hne. unfold mount_archive. rewrite Hm. simpl.
  apply truthy_true in Hne. by rewrite Hne.
Qed.

(** Every run of [mount_archive'] either leaves the state as it is, without
    a mount command that was launched and exited with 0, or records the
    chosen mount point after such a command, starting from no mount. *)
Lemma mount_archive_cases (g : GUI) selected mount_path files choice mounted :
  let '(g', effs) := mount_archive' g selected mount_path files choice mounted in
  (g' = g ∧ mount_launched effs && succeeded mounted = false)
  ∨ (truthy_opt (current_mount g) = false ∧ mount_path ≠ ""
     ∧ mount_launched effs = true ∧ succeeded mounted = true
     ∧ g' = set_mount g (Some mount_path) (mount_status (Some mount_path))).
Proof.
  unfold mount_archive.
  destruct (truthy_opt (current_mount g)) eqn:Hcm; [by left|].
  destruct selected as [backup_id|]; [|by left].
  destruct (get_current_config g) as [cfg|e]; [|by left].
  destruct (truthy mount_path) eqn:Hmp; simpl; [|by left].
  destruct (files_command environ g backup_id) as [[[config cmd] env]|e] eqn:Hfc;
    [|by left].
  assert (∃ rest, cmd = "proxmox-backup-client" :: "snapshot" :: rest) as [rest ->].
  { unfold files_command in Hfc.
    destruct (get_current_config g) as [c|]; simpl in Hfc; [|done].
    destruct (config_item c "api_key" cfg_api_key); simpl in Hfc; [|done].
    destruct (config_item c "repository" cfg_repository); simpl in Hfc; [|done].
    inversion Hfc. by eexists. }
  destruct files as [result|e]; [|by left].
  destruct (returncode result =? 0); simpl; [|by left].
  destruct (select_file json_loads_files result choice); try by left.
  destruct (config_item config "repository" cfg_repository); [|by left].
  destruct mounted as [process|e]; [|by left]. simpl.
  destruct (returncode process =? 0) eqn:Hrc; [|left; by rewrite andb_false_r].
  right. repeat split; try done. by apply truthy_true.
Qed.

Lemma unmount_current_cases (g : GUI) (outcome : result completed) :
  let '(g', effs) := unmount_current g outcome in
  (g' = g ∧ unmount_launched effs && succeeded outcome = false)
  ∨ (truthy_opt (current_mount g) = true
     ∧ unmount_launched effs = true ∧ succeeded outcome = true
     ∧ g' = set_mount g None (mount_status None)).
Proof.
  unfold unmount_current.
  destruct (truthy_opt (current_mount g)) eqn:Hcm; simpl; [|by left].
  destruct outcome as [result|e]; [|by left]. simpl.
  destruct (returncode result =? 0); [by right|left; by rewrite andb_false_r].
Qed.

Lemma step_tracked (w : GUI * list string) (a : action) :
  tracked w → tracked (step' w a).
Proof.
  destruct w as [g live]. intros Hw. unfold tracked in Hw. simpl in Hw.
  destruct a as [sel mp files choice mounted|outcome].
  - simpl. pose proof (mount_archive_cases g sel mp files choice mounted) as Hc.
    destruct (mount_archive' g sel mp files choice mounted) as [g' effs].
    destruct Hc as [[-> Hno]|(Hcm & Hmp & Hl & Hs & ->)].
    + by rewrite Hno.
    + rewrite Hl, Hs. simpl. destruct Hw as [[_ Hlive]|(m & Hm & Hcur & _)]; simpl in *.
      * subst live. right. by exists mp.
      * rewrite Hcur in Hcm. simpl in Hcm. apply truthy_true in Hm. congruence.
  - simpl. pose proof (unmount_current_cases g outcome) as Hc.
    destruct (unmount_current g outcome) as [g' effs].
    destruct Hc as [[-> Hno]|(Hcm & Hl & Hs & ->)].
    + by rewrite Hno.
    + rewrite Hl, Hs. simpl. left. split; [done|].
      destruct Hw as [[Hcur ->]|(m & Hm & Hcur & ->)]; simpl in *; [done|].
      rewrite Hcur. simpl. rewrite filter_cons.
      destruct (decide (m ≠ m)); done.
Qed.

Lemma reachable_tracked (g0 : GUI) (actions : list action) :
  current_mount g0 = None → tracked (foldl step' (g0, []) actions).
Proof.
  intros H0. assert (tracked (g0, [])) as Hw by (by left).
  revert Hw. generalize (g0, @nil string). clear H0.
  induction actions as [|a actions IH]; intros w Hw; simpl; [done|].
  by apply IH, step_tracked.
Qed.

(** C4: in every state reached from the start by mount and unmount requests
    at most one mount point is live, and it is the recorded one; a mount
    request made while a mount is recorded is refused with a warning before
    any process is started and leaves the state, with the recorded path, as
    it was; and the recorded mount changes only to the chosen path, after a
    mount command that was launched and exited with code 0. *)
Theorem mount_archive_exclusive (g0 : GUI) (actions : list action)
    (g : GUI) (live : list string) :
  current_mount g0 = None →
  foldl step' (g0, []) actions = (g, live) →
  (length live ≤ 1)%nat
  ∧ live = match current_mount g with Some m => [m] | None => [] end
  ∧ (∀ m selected mount_path files choice mounted,
       current_mount g = Some m →
       mount_archive' g selected mount_path files choice mounted
       = (g, [MessageBox Warning "Error" ("An archive is already mounted at " +:+ m)])
       ∧ step' (g, live) (Mount selected mount_path files choice mounted) = (g, live))
  ∧ (∀ selected mount_path files choice mounted g' effs,
       mount_archive' g selected mount_path files choice mounted = (g', effs) →
       current_mount g' ≠ current_mount g →
       current_mount g = None ∧ current_mount g' = Some mount_path
       ∧ succeeded mounted = true ∧ mount_launched effs = true).
Proof.
  intros H0 Hreach. pose proof (reachable_tracked g0 actions H0) as Hw.
  rewrite Hreach in Hw. split; [|split; [|split]].
  - destruct Hw as [[_ Hl]|(m & _ & _ & Hl)]; simpl in Hl; subst live; simpl; lia.
  - destruct Hw as [[Hc Hl]|(m & _ & Hc & Hl)]; simpl in *; by rewrite Hc.
  - intros m sel mp files choice mounted Hm.
    assert (m ≠ "") as Hne.
    { destruct Hw as [[Hc _]|(m' & Hne & Hc & _)]; simpl in *; congruence. }
    pose proof (mount_archive_already_mounted g m sel mp files choice mounted Hm Hne)
      as Hrej.
    split; [done|]. simpl. by rewrite Hrej.
  - intros sel mp files choice mounted g' effs Hrun Hchg.
    pose proof (mount_archive_cases g sel mp files choice mounted) as Hc.
    rewrite Hrun in Hc. destruct Hc as [[-> _]|(Hcm & _ & Hl & Hs & ->)]; [done|].
    repeat split; try done.
    destruct Hw as [[Hc _]|(m & Hne & Hc & _)]; simpl in *; [done|].
    rewrite Hc in Hcm. simpl in Hcm. apply truthy_true in Hne. congruence.
Qed.

End mounts.

Lemma mount_archive_exclusive_witness :
  foldl (step ∅ sample_loads_files) (sample_gui, []) [sample_mount]
  = (sample_mounted_gui, ["/mnt/backup"])
  ∧ (length ["/mnt/backup"] ≤ 1)%nat
  ∧ ["/mnt/backup"]
    = match current_mount sample_mounted_gui with Some m => [m] | None => [] end
  ∧ (∀ m selected mount_path files choice mounted,
       current_mount sample_mounted_gui = Some m →
       mount_archive ∅ sample_loads_files sample_mounted_gui selected mount_path files
         choice mounted
       = (sample_mounted_gui,
          [MessageBox Warning "Error" ("An archive is already mounted at " +:+ m)])
       ∧ step ∅ sample_loads_files (sample_mounted_gui, ["/mnt/backup"])
           (Mount selected mount_path files choice mounted)
         = (sample_mounted_gui, ["/mnt/backup"]))
  ∧ (∀ selected mount_path files choice mounted g' effs,
       mount_archive ∅ sample_loads_files sample_mounted_gui selected mount_path files
         choice mounted = (g', effs) →
       current_mount g' ≠ current_mount sample_mounted_gui →
       current_mount sample_mounted_gui = None ∧ current_mount g' = Some mount_path
       ∧ succeeded mounted = true ∧ mount_launched effs = true).
Proof.
  split; [vm_compute; reflexivity|].
  apply (mount_archive_exclusive ∅ sample_loads_files sample_gui [sample_mount]);
    [reflexivity | vm_compute; reflexivity].
Defined.

(** ** Unmounting *)

(** C5: [unmount_current] with no recorded mount only shows the notice that
    nothing is mounted and starts no process; with a recorded mount it runs
    [fusermount -u] on it, and the recorded mount is cleared exactly when
    that command exits with code 0: on a failed command, or a failed
    launch, the state is left as it was, the mount still recorded. *)
Theorem unmount_current_spec (g : GUI) (outcome : result completed) :
  (current_mount g = None →
     unmount_current g outcome
     = (g, [MessageBox Information "Info" "No archive is currently mounted"])
     ∧ spawned (unmount_current g outcome).2 = [])
  ∧ (∀ m, current_mount g = Some m → m ≠ "" →
       ∃ shown,
         (unmount_current g outcome).2 = [SpawnBare ["fusermount"; "-u"; m]; shown]
         ∧ is_spawn shown = false
         ∧ (succeeded outcome = true →
              current_mount (unmount_current g outcome).1 = None
              ∧ (unmount_current g outcome).1
                = set_mount g None "No archive currently mounted")
         ∧ (succeeded outcome = false →
              (unmount_current g outcome).1 = g
              ∧ current_mount (unmount_current g outcome).1 = Some m)).
Proof.
  split.
  - intros Hm. unfold unmount_current. rewrite Hm. simpl. done.
  - intros m Hm Hne. unfold unmount_current. rewrite Hm. simpl.
    apply truthy_true in Hne. rewrite Hne. simpl.
    destruct outcome as [result|e]; simpl.
    + destruct (returncode result =? 0); simpl; eexists; repeat split; try done.
    + eexists; repeat split; try done.
Qed.

Lemma unmount_current_spec_witness :
  (unmount_current sample_gui (exit_with 0 "" "")
   = (sample_gui, [MessageBox Information "Info" "No archive is currently mounted"])
   ∧ spawned (unmount_current sample_gui (exit_with 0 "" "")).2 = [])
  ∧ (∃ shown,
       (unmount_current sample_mounted_gui (exit_with 1 "" "busy")).2
       = [SpawnBare ["fusermount"; "-u"; "/mnt/backup"]; shown]
       ∧ is_spawn shown = false
       ∧ (succeeded (exit_with 1 "" "busy") = true →
            current_mount (unmount_current sample_mounted_gui (exit_with 1 "" "busy")).1
            = None
            ∧ (unmount_current sample_mounted_gui (exit_with 1 "" "busy")).1
              = set_mount sample_mounted_gui None "No archive currently mounted")
       ∧ (succeeded (exit_with 1 "" "busy") = false →
            (unmount_current sample_mounted_gui (exit_with 1 "" "busy")).1
            = sample_mounted_gui
            ∧ current_mount (unmount_current sample_mounted_gui (exit_with 1 "" "busy")).1
              = Some "/mnt/backup")).
Proof.
  split.
  - apply (unmount_current_spec sample_gui (exit_with 0 "" "")). reflexivity.
  - apply (unmount_current_spec sample_mounted_gui (exit_with 1 "" "busy") ).
    + reflexivity.
    + discriminate.
Defined.

(** ** Validation *)

Section validation.

Variable environ : gmap string string.
Variable json_loads_snapshots : string → result (list snapshot).
Variable utc_timestamp : Z → result string.
Variable local_timestamp : Z → local_time.
Variable format_size : Z → string.

Abbreviation refresh_archives' :=
  (refresh_archives environ json_loads_snapshots utc_timestamp local_timestamp format_size).

Lemma validate_config_incomplete (g : GUI) (n : string) (p : BackupProfile)
    (show_message : bool) :
  current_profile_name g = Some n → n ≠ "" → profiles g !! n = Some p →
  backup_sources p = [] ∨ repository p = "" ∨ api_key p = "" →
  ∃ text,
    validate_config g show_message
    = Ok (false, if show_message then [MessageBox Warning "Error" text] else []).
Proof.
  intros Hcur Hn Hp Hinc. unfold validate_config.
  rewrite (current_profile_some g n p) by done. simpl.
  destruct (backup_sources p) as [|s l] eqn:Hs; [by eexists|].
  destruct (truthy (repository p)) eqn:Hr; simpl; [|by eexists].
  destruct (truthy (api_key p)) eqn:Hk; simpl; [|by eexists].
  apply truthy_true in Hr, Hk. by destruct Hinc as [|[|]].
Qed.

Lemma refresh_archives_spawns (g : GUI) (n : string) (p : BackupProfile)
    (outcome : result completed) :
  current_profile_name g = Some n → n ≠ "" → profiles g !! n = Some p →
  ∃ rest,
    (refresh_archives' g outcome).2
    = Spawn ["proxmox-backup-client"; "snapshot"; "list"; "--repository"; repository p;
             "--output-format"; "json"]
            (<["PBS_PASSWORD" := api_key p]> environ) :: rest.
Proof.
  intros Hcur Hn Hp. unfold refresh_archives.
  rewrite (get_current_config_some g n p) by done. simpl.
  destruct outcome as [result|e]; [|by eexists].
  destruct (returncode result =? 0); [|by eexists].
  destruct (json_loads_snapshots (stdout result)); [|by eexists].
  destruct (fill_rows _ _ _ _ _ _) as [t raised]. by eexists.
Qed.

(** C3, as the program has it: when the current profile has no source, an
    empty repository or an empty API key, [validate_config] answers false
    and does nothing but show a warning (nothing at all when asked to stay
    silent), and the backup operation stops there, with the state unchanged
    and no process started.  The connection test is refused before any
    process is started when the repository or the API key field is empty.
    Refreshing the archive list validates nothing: it launches the listing
    process whatever the profile holds. *)
Theorem start_backup_validates (g : GUI) (n : string) (p : BackupProfile)
    (launch : result child) (outcome : result completed) (write_error : option string) :
  current_profile_name g = Some n → n ≠ "" → profiles g !! n = Some p →
  backup_sources p = [] ∨ repository p = "" ∨ api_key p = "" →
  (∃ text,
     validate_config g true = Ok (false, [MessageBox Warning "Error" text])
     ∧ validate_config g false = Ok (false, [])
     ∧ start_backup environ g launch write_error
       = Ok (g, [MessageBox Warning "Error" text])
     ∧ spawned [MessageBox Warning "Error" text] = [])
  ∧ (repo_edit g = "" ∨ api_edit g = "" →
     test_connection environ g outcome
     = [MessageBox Warning "Error" "Please enter both repository and API key"])
  ∧ (∃ rest,
       (refresh_archives' g outcome).2
       = Spawn ["proxmox-backup-client"; "snapshot"; "list"; "--repository";
                repository p; "--output-format"; "json"]
               (<["PBS_PASSWORD" := api_key p]> environ) :: rest).
Proof.
  intros Hcur Hn Hp Hinc. split; [|split].
  - destruct (validate_config_incomplete g n p true Hcur Hn Hp Hinc) as [text Ht].
    destruct (validate_config_incomplete g n p false Hcur Hn Hp Hinc) as [text' Hf].
    exists text. split; [exact Ht|]. split; [exact Hf|]. split; [|done].
    unfold start_backup. rewrite Ht. done.
  - intros Hempty. unfold test_connection.
    destruct Hempty as [-> | ->]; simpl; [done|]. by rewrite orb_true_r.
  - exact (refresh_archives_spawns g n p outcome Hcur Hn Hp).
Qed.

End validation.

Lemma start_backup_validates_witness :
  (∃ text,
     validate_config default_gui true = Ok (false, [MessageBox Warning "Error" text])
     ∧ validate_config default_gui false = Ok (false, [])
     ∧ start_backup ∅ default_gui (Raise "not launched") None
       = Ok (default_gui, [MessageBox Warning "Error" text])
     ∧ spawned [MessageBox Warning "Error" text] = [])
  ∧ (repo_edit default_gui = "" ∨ api_edit default_gui = "" →
     test_connection ∅ default_gui (exit_with 1 "" "")
     = [MessageBox Warning "Error" "Please enter both repository and API key"])
  ∧ (∃ rest,
       (refresh_archives ∅ sample_loads_snapshots sample_utc sample_local
          sample_format_size default_gui (exit_with 1 "" "")).2
       = Spawn ["proxmox-backup-client"; "snapshot"; "list"; "--repository";
                repository default_profile; "--output-format"; "json"]
               (<["PBS_PASSWORD" := api_key default_profile]> ∅) :: rest).
Proof.
  apply (start_backup_validates ∅ sample_loads_snapshots sample_utc sample_local
           sample_format_size default_gui "Default" default_profile);
    [reflexivity | discriminate | vm_compute; reflexivity | left; reflexivity].
Defined.

(** The claim of C3 fails for the refresh of the archive list: with the
    profile of a fresh installation, which has no source, no repository and
    no API key, the listing process is launched all the same. *)
Lemma refresh_archives_not_validated :
  ¬ (∀ (g : GUI) (n : string) (p : BackupProfile) (outcome : result completed),
       current_profile_name g = Some n → n ≠ "" → profiles g !! n = Some p →
       backup_sources p = [] ∨ repository p = "" ∨ api_key p = "" →
       spawned (refresh_archives ∅ sample_loads_snapshots sample_utc sample_local
                  sample_format_size g outcome).2 = []).
Proof.
  intros H.
  specialize (H default_gui "Default" default_profile (exit_with 1 "" "")).
  assert (spawned (refresh_archives ∅ sample_loads_snapshots sample_utc sample_local
                     sample_format_size default_gui (exit_with 1 "" "")).2
          = [Spawn ["proxmox-backup-client"; "snapshot"; "list"; "--repository"; "";
                    "--output-format"; "json"] (<["PBS_PASSWORD" := ""]> ∅)]) as Hs
    by (vm_compute; reflexivity).
  rewrite H in Hs; [discriminate | reflexivity | discriminate | vm_compute; reflexivity
                   | left; reflexivity].
Qed.

(** ** Credentials *)

Section credentials.

Variable environ : gmap string string.

Variables (g : GUI) (n : string) (p : BackupProfile).
Hypothesis Hcur : current_profile_name g = Some n.
Hypothesis Hn : n ≠ "".
Hypothesis Hp : profiles g !! n = Some p.

(** The environment handed to the backup command: the API key, and the
    fingerprint when the profile has one. *)
Lemma BackupWorker_run_env (launch : result child) :
  ∃ cmd,
    get_backup_command g = Ok cmd
    ∧ (BackupWorker_run environ g launch).1
      = [Spawn cmd
           (if truthy (fingerprint p)
            then <["PBS_FINGERPRINT" := fingerprint p]>
                   (<["PBS_PASSWORD" := api_key p]> environ)
            else <["PBS_PASSWORD" := api_key p]> environ)].
Proof using Hcur Hn Hp.
  eexists. split; [by apply (get_backup_command_some g n p)|].
  unfold BackupWorker_run. rewrite (get_current_config_some g n p) by done.
  rewrite (get_backup_command_some g n p) by done. simpl.
  by destruct launch.
Qed.

(** The environment of [snapshot files], used by restore and mount: the
    API key only. *)
Lemma files_command_env (backup_id : string) :
  ∃ config,
    files_command environ g backup_id
    = Ok (config,
          ["proxmox-backup-client"; "snapshot"; "files"; backup_id; "--repository";
           repository p; "--output-format"; "json"],
          <["PBS_PASSWORD" := api_key p]> environ).
Proof using Hcur Hn Hp.
  unfold files_command. rewrite (get_current_config_some g n p) by done. simpl.
  by eexists.
Qed.

(** The backup command is built from the sources and the repository alone:
    profiles that differ in their credentials give the same command. *)
Lemma get_backup_command_ignores_credentials (g' : GUI) (p' : BackupProfile) :
  current_profile_name g' = Some n → profiles g' !! n = Some p' →
  backup_sources p' = backup_sources p → repository p' = repository p →
  get_backup_command g' = get_backup_command g.
Proof using Hcur Hn Hp.
  intros Hcur' Hp' Hs Hr.
  rewrite (get_backup_command_some g n p), (get_backup_command_some g' n p') by done.
  by rewrite Hs, Hr.
Qed.

End credentials.

(** C6, at a profile with the fingerprint [AA:BB]: the backup worker passes
    the API key and the fingerprint through the environment and neither is
    an argument, but the listing of [refresh_archives], the file listing of
    restore and mount and the deletion pass the API key only, and the
    fingerprint variable is left as the base environment has it, here
    unset. *)
Theorem refresh_archives_omits_fingerprint :
  fingerprint fingerprint_profile = "AA:BB"
  ∧ (BackupWorker_run ∅ fingerprint_gui (Ok sample_child)).1
    = [Spawn ["proxmox-backup-client"; "backup"; "etc.pxar:/etc"; "--repository";
              "h:8007:ds"]
         (<["PBS_FINGERPRINT" := "AA:BB"]> (<["PBS_PASSWORD" := "k"]> ∅))]
  ∧ (refresh_archives ∅ sample_loads_snapshots sample_utc sample_local
       sample_format_size fingerprint_gui (exit_with 0 "[]" "")).2
    = [Spawn ["proxmox-backup-client"; "snapshot"; "list"; "--repository"; "h:8007:ds";
              "--output-format"; "json"]
         (<["PBS_PASSWORD" := "k"]> ∅)]
  ∧ (∃ config,
       files_command ∅ fingerprint_gui "host/pc/2024-01-01T00:00:00Z"
       = Ok (config,
             ["proxmox-backup-client"; "snapshot"; "files";
              "host/pc/2024-01-01T00:00:00Z"; "--repository"; "h:8007:ds";
              "--output-format"; "json"],
             <["PBS_PASSWORD" := "k"]> ∅))
  ∧ (delete_archive ∅ sample_loads_snapshots sample_utc sample_local sample_format_size
       fingerprint_gui (Some "host/pc/2024-01-01T00:00:00Z") true
       (exit_with 1 "" "denied") (exit_with 0 "[]" "")).2
    = [Spawn ["proxmox-backup-client"; "snapshot"; "forget";
              "host/pc/2024-01-01T00:00:00Z"; "--repository"; "h:8007:ds"]
         (<["PBS_PASSWORD" := "k"]> ∅);
       MessageBox Warning "Error" "Failed to delete archive: denied"]
  ∧ (<["PBS_PASSWORD" := "k"]> (∅ : gmap string string)) !! "PBS_FINGERPRINT" = None.
Proof.
  split; [reflexivity|]. split; [vm_compute; reflexivity|].
  split; [vm_compute; reflexivity|]. split; [eexists; vm_compute; reflexivity|].
  split; [vm_compute; reflexivity|]. vm_compute; reflexivity.
Qed.

(** ** Archive files of a snapshot *)

Section suffixes.

Implicit Types (s r suf : string).

Lemma length_append s r : String.length (s +:+ r) = (String.length s + String.length r)%nat.
Proof. induction s as [|c s IH]; [done|]. rewrite append_cons. simpl. by rewrite IH. Qed.

Lemma take_drop_append (k : nat) s : PyStr.take k s +:+ PyStr.drop k s = s.
Proof.
  revert s. induction k as [|k IH]; intros [|c s]; simpl; try done.
  by rewrite append_cons, IH.
Qed.

Lemma drop_append_length r suf : PyStr.drop (String.length r) (r +:+ suf) = suf.
Proof. induction r as [|c r IH]; [by destruct suf|]. by rewrite append_cons. Qed.

Lemma take_append_length r suf : PyStr.take (String.length r) (r +:+ suf) = r.
Proof.
  induction r as [|c r IH]; [by destruct suf|]. rewrite append_cons. simpl.
  by rewrite IH.
Qed.

(** [endswith] holds exactly for the strings that are a prefix followed
    by the suffix. *)
Lemma endswith_true s suf : PyStr.endswith s suf = true ↔ ∃ r, s = r +:+ suf.
Proof.
  unfold PyStr.endswith. rewrite andb_true_iff, Nat.leb_le, String.eqb_eq. split.
  - intros [_ Hd]. exists (PyStr.take (String.length s - String.length suf) s).
    pose proof (take_drop_append (String.length s - String.length suf) s) as Ht.
    by rewrite Hd in Ht.
  - intros [r ->]. rewrite length_append. split; [lia|].
    replace (String.length r + String.length suf - String.length suf)%nat
      with (String.length r) by lia.
    apply drop_append_length.
Qed.

Lemma removesuffix_append r suf : suf ≠ "" → PyStr.removesuffix (r +:+ suf) suf = r.
Proof.
  intros Hne. unfold PyStr.removesuffix.
  assert (PyStr.endswith (r +:+ suf) suf = true) as -> by (apply endswith_true; eauto).
  apply String.eqb_neq in Hne. rewrite Hne. simpl. rewrite length_append.
  replace (String.length r + String.length suf - String.length suf)%nat
    with (String.length r) by lia.
  apply take_append_length.
Qed.

(** A name with the marker [.pxar.didx] loses [.didx] and keeps [.pxar]. *)
Lemma removesuffix_didx s :
  PyStr.endswith s ".pxar.didx" = true →
  s = PyStr.removesuffix s ".didx" +:+ ".didx"
  ∧ PyStr.endswith (PyStr.removesuffix s ".didx") ".pxar" = true.
Proof.
  intros [r ->]%endswith_true.
  change (r +:+ ".pxar.didx") with (r +:+ ".pxar" +:+ ".didx").
  rewrite <- append_assoc, removesuffix_append by done.
  split; [done|]. apply endswith_true. eauto.
Qed.

End suffixes.

Section archive_files.

Variable environ : gmap string string.
Variable json_loads_files : string → result (list file_entry).

Abbreviation select_file' := (select_file json_loads_files).
Abbreviation mount_archive' := (mount_archive environ json_loads_files).
Abbreviation restore_archive' := (restore_archive environ json_loads_files).

Lemma pxar_files_spec (files_data : list file_entry) (names : list string) :
  filename <$> files_data = Some <$> names →
  pxar_files files_data = Ok (spec_parseSnapshotFiles pxar names).
Proof.
  revert names. induction files_data as [|file rest IH]; intros [|name names] Hn;
    try done.
  rewrite !fmap_cons in Hn. injection Hn as Hfile Hrest.
  simpl. rewrite Hfile, (IH names Hrest). simpl.
  unfold spec_parseSnapshotFiles. rewrite filter_cons. simpl.
  destruct (PyStr.endswith name ".pxar.didx") eqn:He.
  - by rewrite decide_True.
  - by rewrite decide_False.
Qed.

Lemma spec_parseSnapshotFiles_pxar_shape (names : list string) :
  Forall2 (λ c name, name = c +:+ ".didx" ∧ PyStr.endswith c ".pxar" = true)
          (spec_parseSnapshotFiles pxar names)
          (filter (λ name, PyStr.endswith name ".pxar.didx" = true) names).
Proof.
  unfold spec_parseSnapshotFiles. simpl.
  induction names as [|name names IH]; [constructor|].
  rewrite filter_cons. destruct (decide (PyStr.endswith name ".pxar.didx" = true)) as [He|];
    [|done].
  rewrite fmap_cons. constructor; [|done]. by apply removesuffix_didx.
Qed.

(** Without a selected file neither operation reaches its command. *)
Lemma mount_archive_needs_file (g : GUI) selected mount_path result choice mounted :
  (∀ file, select_file' result choice ≠ Selected file) →
  (mount_archive' g selected mount_path (Ok result) choice mounted).1 = g
  ∧ mount_launched (mount_archive' g selected mount_path (Ok result) choice mounted).2
    = false.
Proof.
  intros Hno.
  pose proof (mount_archive_cases environ json_loads_files g selected mount_path
                (Ok result) choice mounted) as Hc.
  unfold mount_archive in *.
  destruct (truthy_opt (current_mount g)); [done|].
  destruct selected as [backup_id|]; [|done].
  destruct (get_current_config g); [|done].
  destruct (truthy mount_path); simpl in *; [|done].
  destruct (files_command environ g backup_id) as [[[config cmd] env]|e] eqn:Hfc; [|done].
  assert (∃ rest, cmd = "proxmox-backup-client" :: "snapshot" :: rest) as [rest ->].
  { unfold files_command in Hfc.
    destruct (get_current_config g) as [c|]; simpl in Hfc; [|done].
    destruct (config_item c "api_key" cfg_api_key); simpl in Hfc; [|done].
    destruct (config_item c "repository" cfg_repository); simpl in Hfc; [|done].
    inversion Hfc. by eexists. }
  destruct (returncode result =? 0); simpl in *; [|done].
  destruct (select_file' result choice) as [file| | |] eqn:Hsel; try done.
  by destruct (Hno file).
Qed.

Lemma restore_archive_needs_file (g : GUI) selected restore_path result choice launch
    running cancel_at :
  (∀ file, select_file' result choice ≠ Selected file) →
  restore_launched
    (restore_archive' g selected restore_path (Ok result) choice launch running cancel_at)
  = false.
Proof.
  intros Hno. unfold restore_archive.
  destruct selected as [backup_id|]; [|done].
  destruct (get_current_config g); [|done].
  destruct (truthy restore_path); simpl in *; [|done].
  destruct (files_command environ g backup_id) as [[[config cmd] env]|e] eqn:Hfc; [|done].
  assert (∃ rest, cmd = "proxmox-backup-client" :: "snapshot" :: rest) as [rest ->].
  { unfold files_command in Hfc.
    destruct (get_current_config g) as [c|]; simpl in Hfc; [|done].
    destruct (config_item c "api_key" cfg_api_key); simpl in Hfc; [|done].
    destruct (config_item c "repository" cfg_repository); simpl in Hfc; [|done].
    inversion Hfc. by eexists. }
  destruct (returncode result =? 0); simpl in *; [|done].
  destruct (select_file' result choice) as [file| | |] eqn:Hsel; try done.
  by destruct (Hno file).
Qed.

(** C8, as the program has it: from the decoded file list the candidates
    are exactly the file names that end in [.pxar.didx], in listing order
    and without the trailing [.didx]; no other archive type is looked for.
    With no candidate the warning that no such file was found is shown and
    neither the mount nor the restore command is started.  A single
    candidate is taken.  With several candidates the caller is asked, the
    dialog opening on the first: accepting entry [k] takes candidate [k]
    (the first one for entry 0), and cancelling the dialog ends the
    operation without starting the command. *)
Theorem select_file_pxar (result : completed) (files_data : list file_entry)
    (names : list string) :
  json_loads_files (stdout result) = Ok files_data →
  filename <$> files_data = Some <$> names →
  pxar_files files_data = Ok (spec_parseSnapshotFiles pxar names)
  ∧ Forall2 (λ c name, name = c +:+ ".didx" ∧ PyStr.endswith c ".pxar" = true)
            (spec_parseSnapshotFiles pxar names)
            (filter (λ name, PyStr.endswith name ".pxar.didx" = true) names)
  ∧ (spec_parseSnapshotFiles pxar names = [] →
       ∀ choice,
         select_file' result choice
         = Shown Warning "Error" "No .pxar.didx files found in backup"
         ∧ (∀ g selected mount_path mounted,
              mount_launched
                (mount_archive' g selected mount_path (Ok result) choice mounted).2 = false)
         ∧ (∀ g selected restore_path launch running cancel_at,
              restore_launched
                (restore_archive' g selected restore_path (Ok result) choice launch
                   running cancel_at) = false))
  ∧ (∀ only choice,
       spec_parseSnapshotFiles pxar names = [only] →
       select_file' result choice = Selected only)
  ∧ (∀ first second others,
       spec_parseSnapshotFiles pxar names = first :: second :: others →
       select_file' result (Some 0%nat) = Selected first
       ∧ (∀ k c, spec_parseSnapshotFiles pxar names !! k = Some c →
                 select_file' result (Some k) = Selected c)
       ∧ select_file' result None = Declined
       ∧ (∀ g selected mount_path mounted,
            mount_launched
              (mount_archive' g selected mount_path (Ok result) None mounted).2 = false)
       ∧ (∀ g selected restore_path launch running cancel_at,
            restore_launched
              (restore_archive' g selected restore_path (Ok result) None launch
                 running cancel_at) = false)).
Proof.
  intros Hload Hnames. pose proof (pxar_files_spec files_data names Hnames) as Hpx.
  split; [done|]. split; [apply spec_parseSnapshotFiles_pxar_shape|].
  split; [|split].
  - intros Hnil choice.
    assert (select_file' result choice
            = Shown Warning "Error" "No .pxar.didx files found in backup") as Hsel.
    { unfold select_file. by rewrite Hload, Hpx, Hnil. }
    split; [done|]. split.
    + intros. apply mount_archive_needs_file. intros file. by rewrite Hsel.
    + intros. apply restore_archive_needs_file. intros file. by rewrite Hsel.
  - intros only choice Hone. unfold select_file.
    by rewrite Hload, Hpx, Hone.
  - intros first second others Hmany.
    assert (∀ choice, select_file' result choice
                      = match choice with
                        | Some k => Selected (default first ((first :: second :: others) !! k))
                        | None => Declined
                        end) as Hsel.
    { intros choice. unfold select_file. by rewrite Hload, Hpx, Hmany. }
    split; [by rewrite Hsel|]. split; [|split; [by rewrite Hsel|split]].
    + intros k c Hk. rewrite Hsel. rewrite Hmany in Hk. by rewrite Hk.
    + intros. apply mount_archive_needs_file. intros file. by rewrite Hsel.
    + intros. apply restore_archive_needs_file. intros file. by rewrite Hsel.
Qed.

End archive_files.

Lemma select_file_pxar_witness :
  sample_loads_files (stdout {| returncode := 0; stdout := sample_files_json; stderr := "" |})
  = Ok sample_files
  ∧ filename <$> sample_files = Some <$> ["a.pxar.didx"; "b.img.fidx"]
  ∧ pxar_files sample_files = Ok ["a.pxar"]
  ∧ select_file sample_loads_files
      {| returncode := 0; stdout := sample_files_json; stderr := "" |} None
    = Selected "a.pxar".
Proof.
  split; [reflexivity|]. split; [reflexivity|].
  destruct (select_file_pxar ∅ sample_loads_files
              {| returncode := 0; stdout := sample_files_json; stderr := "" |}
              sample_files ["a.pxar.didx"; "b.img.fidx"] eq_refl eq_refl)
    as (Hfiles & _ & _ & Hone & _).
  split; [exact Hfiles|]. apply Hone. reflexivity.
Defined.

(** The claim of C8 fails on two counts.  For the archive type [img] the
    listing with [a.pxar.didx] and [b.img.fidx] should give [b.img], but
    the program looks for [.pxar.didx] only and gives [a.pxar].  And with
    the two candidates [root.pxar] and [home.pxar] and no selection made
    (the dialog cancelled), the operation is abandoned instead of taking
    the first candidate. *)
Lemma select_file_not_as_specified :
  spec_parseSnapshotFiles img ["a.pxar.didx"; "b.img.fidx"] = ["b.img"]
  ∧ pxar_files sample_files
    ≠ Ok (spec_parseSnapshotFiles img ["a.pxar.didx"; "b.img.fidx"])
  ∧ spec_default ["root.pxar"; "home.pxar"] None = Some "root.pxar"
  ∧ select_file two_pxar_loads
      {| returncode := 0; stdout := two_pxar_json; stderr := "" |} None
    ≠ Selected "root.pxar"
  ∧ select_file two_pxar_loads
      {| returncode := 0; stdout := two_pxar_json; stderr := "" |} None
    = Declined.
Proof.
  split; [reflexivity|]. split; [discriminate|]. split; [reflexivity|].
  split; [discriminate|reflexivity].
Qed.

(** ** The archive catalog *)

Section sorting.

Context {A : Type} (key : A → Z).

Lemma insert_desc_perm (x : A) (l : list A) : insert_desc key x l ≡ₚ x :: l.
Proof.
  induction l as [|y l IH]; simpl; [done|].
  destruct (key y <=? key x); [done|]. rewrite IH. apply Permutation_swap.
Qed.

Lemma sort_desc_perm (l : list A) : sort_desc key l ≡ₚ l.
Proof.
  induction l as [|x l IH]; simpl; [done|].
  unfold sort_desc in *. simpl. by rewrite insert_desc_perm, IH.
Qed.

Lemma insert_desc_sorted (x : A) (l : list A) :
  StronglySorted (λ a b, key b ≤ key a) l →
  StronglySorted (λ a b, key b ≤ key a) (insert_desc key x l).
Proof.
  induction 1 as [|y l Hl IH Hy]; simpl.
  - repeat constructor.
  - destruct (Z.leb_spec (key y) (key x)) as [Hle|Hlt].
    + constructor; [by constructor|]. constructor; [done|].
      eapply Forall_impl; [exact Hy|]. simpl. intros z Hz. lia.
    + constructor; [done|]. rewrite insert_desc_perm. constructor; [lia|done].
Qed.

Lemma sort_desc_sorted (l : list A) :
  StronglySorted (λ a b, key b ≤ key a) (sort_desc key l).
Proof.
  induction l as [|x l IH]; [constructor|]. by apply insert_desc_sorted.
Qed.

Lemma insert_desc_stable (t : Z) (x : A) (l : list A) :
  filter (λ a, key a = t) (insert_desc key x l) = filter (λ a, key a = t) (x :: l).
Proof.
  induction l as [|y l IH]; simpl; [done|].
  destruct (Z.leb_spec (key y) (key x)) as [Hle|Hlt]; [done|].
  rewrite (filter_cons _ y), IH, !filter_cons.
  destruct (decide (key y = t)), (decide (key x = t)); try done. lia.
Qed.

(** The elements with one key keep their order: the sort is stable. *)
Lemma sort_desc_stable (t : Z) (l : list A) :
  filter (λ a, key a = t) (sort_desc key l) = filter (λ a, key a = t) l.
Proof.
  induction l as [|x l IH]; [done|].
  change (sort_desc key (x :: l)) with (insert_desc key x (sort_desc key l)).
  by rewrite insert_desc_stable, !filter_cons, IH.
Qed.

End sorting.

Lemma verify_status_spec (archive : snapshot) :
  verify_status archive
  = match verification archive with
    | Some (Some state) => if String.eqb (PyStr.lower state) "ok" then "ok" else "none"
    | _ => "none"
    end.
Proof.
  unfold verify_status.
  destruct (verification archive) as [[state|]|]; simpl; try done.
  destruct (String.eqb_spec (PyStr.lower state) "ok") as [->|Hne]; [done|].
  case_bool_decide as Hin; [|done].
  apply elem_of_cons in Hin as [?|Hin]; [done|].
  by apply list_elem_of_singleton in Hin.
Qed.

Section catalog.

Variable environ : gmap string string.
Variable json_loads_snapshots : string → result (list snapshot).
Variable utc_timestamp : Z → result string.
Variable local_timestamp : Z → local_time.
Variable format_size : Z → string.

Abbreviation refresh_archives' :=
  (refresh_archives environ json_loads_snapshots utc_timestamp local_timestamp format_size).
Abbreviation fill_row' := (fill_row utc_timestamp local_timestamp format_size).
Abbreviation fill_rows' := (fill_rows utc_timestamp local_timestamp format_size).
Abbreviation rendered_row' := (rendered_row utc_timestamp local_timestamp format_size).
Abbreviation renderable' := (renderable utc_timestamp local_timestamp).

Lemma setItem_middle (col : nat) (text : string) (done : list table_row)
    (row : table_row) (pending : list table_row) :
  setItem (length done) col text (done ++ row :: pending)
  = done ++ set_cell col text row :: pending.
Proof. unfold setItem. induction done as [|r done IH]; simpl; [done|]. by f_equal. Qed.

Lemma fill_row_renderable (archive : snapshot) (done : list table_row)
    (row : table_row) (pending : list table_row) :
  renderable' archive →
  fill_row' (length done) archive (done ++ row :: pending)
  = (done ++ rendered_row' archive :: pending, None).
Proof.
  intros (t & s & Ht & Hu & Hl). unfold fill_row, rendered_row.
  rewrite Ht. simpl. rewrite Hu. rewrite !setItem_middle.
  destruct (local_timestamp t) as [d| |e] eqn:Hloc;
    [by rewrite ?setItem_middle..|by destruct (Hl e)].
Qed.

Lemma fill_rows_renderable (archives : list snapshot) (done pending : list table_row) :
  length pending = length archives → Forall renderable' archives →
  fill_rows' (length done) archives (done ++ pending)
  = (done ++ (rendered_row' <$> archives), None).
Proof.
  revert done pending. induction archives as [|archive rest IH];
    intros done pending Hlen Hall.
  - destruct pending; [|done]. done.
  - destruct pending as [|row pending]; [done|]. inversion Hall; subst.
    change (fill_rows' (length done) (archive :: rest) (done ++ row :: pending))
      with (match fill_row' (length done) archive (done ++ row :: pending) with
            | (t, Some e) => (t, Some e)
            | (t, None) => fill_rows' (S (length done)) rest t
            end).
    rewrite fill_row_renderable by done.
    pose proof (IH (done ++ [rendered_row' archive]) pending) as IH'.
    rewrite length_app, Nat.add_1_r, <- !app_assoc in IH'. simpl in IH'.
    rewrite IH'; [done| |done]. simpl in Hlen. lia.
Qed.

Lemma length_setRowCount (n : nat) (t : list table_row) : length (setRowCount n t) = n.
Proof. unfold setRowCount. rewrite length_app, length_take, length_replicate. lia. Qed.

Lemma refresh_archives_success (g : GUI) (n : string) (p : BackupProfile)
    (result : completed) (archives : list snapshot) :
  current_profile_name g = Some n → n ≠ "" → profiles g !! n = Some p →
  returncode result = 0 → json_loads_snapshots (stdout result) = Ok archives →
  Forall renderable' archives →
  ∃ effs,
    refresh_archives' g (Ok result)
    = (set_catalog g (rendered_row' <$> sort_desc sort_key archives)
         (Some (sort_desc sort_key archives)), effs).
Proof.
  intros Hcur Hn Hp Hrc Hload Hall. unfold refresh_archives.
  rewrite (get_current_config_some g n p) by done. simpl.
  rewrite Hrc. simpl. rewrite Hload.
  pose proof (fill_rows_renderable (sort_desc sort_key archives) []
                (setRowCount (length (sort_desc sort_key archives)) (archives_table g)))
    as Hfill.
  simpl in Hfill. rewrite Hfill.
  - by eexists.
  - apply length_setRowCount.
  - by rewrite sort_desc_perm.
Qed.


(** A refresh whose listing process exits with a code other than 0, or
    whose output [json.loads] rejects, leaves the whole window state as it
    was, and with it the rows of the table and the stored archive data of
    the last successful refresh. *)
Lemma refresh_archives_failure_keeps_catalog (g : GUI) (result : completed) :
  returncode result ≠ 0 ∨ (∃ e, json_loads_snapshots (stdout result) = Raise e) →
  (refresh_archives' g (Ok result)).1 = g
  ∧ archives_table (refresh_archives' g (Ok result)).1 = archives_table g
  ∧ archive_data (refresh_archives' g (Ok result)).1 = archive_data g.
Proof.
  intros Hfail.
  assert ((refresh_archives' g (Ok result)).1 = g) as Hsame; [|by rewrite Hsame].
  unfold refresh_archives.
  destruct (get_current_config g) as [config|e]; simpl; [|done].
  destruct (config_item config "api_key" cfg_api_key); simpl; [|done].
  destruct (config_item config "repository" cfg_repository); simpl; [|done].
  destruct (Z.eqb_spec (returncode result) 0) as [Hz|Hnz]; [|done].
  destruct Hfail as [Hnz|[e He]]; [done|]. by rewrite He.
Qed.

(** A launch that fails leaves the state as it was, too. *)
Lemma refresh_archives_launch_failure (g : GUI) (e : string) :
  (refresh_archives' g (Raise e)).1 = g.
Proof.
  unfold refresh_archives.
  destruct (get_current_config g) as [config|e']; simpl; [|done].
  destruct (config_item config "api_key" cfg_api_key); simpl; [|done].
  by destruct (config_item config "repository" cfg_repository).
Qed.

End catalog.


Example refresh_archives_sample_order :
  (λ l : list snapshot, backup_time <$> l) <$>
    archive_data
      (refresh_archives ∅ sample_loads_snapshots sample_utc sample_local sample_format_size
         sample_gui (exit_with 0 sample_list_json "")).1
  = Some [Some 300; Some 200; Some 100]
  ∧ ((λ row, (cell_owner row, cell_verify row)) <$>
       archives_table
         (refresh_archives ∅ sample_loads_snapshots sample_utc sample_local
            sample_format_size sample_gui (exit_with 0 sample_list_json "")).1)
    = [(Some "Unknown", Some "none"); (Some "root@pam", Some "ok");
       (Some "Unknown", Some "none")].
Proof. split; vm_compute; reflexivity. Qed.

Lemma refresh_archives_failure_keeps_catalog_witness :
  ((refresh_archives ∅ sample_loads_snapshots sample_utc sample_local sample_format_size
      sample_gui (exit_with 1 "" "connection refused")).1 = sample_gui
   ∧ archives_table
       (refresh_archives ∅ sample_loads_snapshots sample_utc sample_local
          sample_format_size sample_gui (exit_with 1 "" "connection refused")).1
     = archives_table sample_gui
   ∧ archive_data
       (refresh_archives ∅ sample_loads_snapshots sample_utc sample_local
          sample_format_size sample_gui (exit_with 1 "" "connection refused")).1
     = archive_data sample_gui)
  ∧ ((refresh_archives ∅ sample_loads_snapshots sample_utc sample_local sample_format_size
        sample_gui (exit_with 0 "[{" "")).1 = sample_gui
     ∧ archives_table
         (refresh_archives ∅ sample_loads_snapshots sample_utc sample_local
            sample_format_size sample_gui (exit_with 0 "[{" "")).1
       = archives_table sample_gui
     ∧ archive_data
         (refresh_archives ∅ sample_loads_snapshots sample_utc sample_local
            sample_format_size sample_gui (exit_with 0 "[{" "")).1
       = archive_data sample_gui).
Proof.
  split.
  - apply (refresh_archives_failure_keeps_catalog ∅ sample_loads_snapshots sample_utc
             sample_local sample_format_size sample_gui
             {| returncode := 1; stdout := ""; stderr := "connection refused" |}).
    left. discriminate.
  - apply (refresh_archives_failure_keeps_catalog ∅ sample_loads_snapshots sample_utc
             sample_local sample_format_size sample_gui
             {| returncode := 0; stdout := "[{"; stderr := "" |}).
    right. eexists. reflexivity.
Defined.

(** C9, at a listing that exits with code 0 and decodes to one object
    without a backup time, while the window shows the three rows of the last
    listing: the row loop raises on the object and the refresh reports the
    error, but by then the table was cut down to its first row, which still
    shows the first snapshot of the old listing, and the stored archive data
    was replaced by the new list.  The catalog of a failed refresh is not
    left as it was. *)
Theorem refresh_archives_failure_changes_catalog :
  length (archives_table sample_listed_gui) = 3%nat
  ∧ archive_data sample_listed_gui = Some (sort_desc sort_key sample_list)
  ∧ sample_loads_snapshots untimed_list_json = Ok untimed_list
  ∧ (∃ e,
       (refresh_archives ∅ sample_loads_snapshots sample_utc sample_local
          sample_format_size sample_listed_gui (exit_with 0 untimed_list_json "")).2
       = [Spawn ["proxmox-backup-client"; "snapshot"; "list"; "--repository";
                 repository sample_profile; "--output-format"; "json"]
            (<["PBS_PASSWORD" := api_key sample_profile]> ∅);
          MessageBox Warning "Error"
            ("Unexpected error when fetching archives: " +:+ e)])
  ∧ archives_table
      (refresh_archives ∅ sample_loads_snapshots sample_utc sample_local
         sample_format_size sample_listed_gui (exit_with 0 untimed_list_json "")).1
    = take 1 (archives_table sample_listed_gui)
  ∧ archive_data
      (refresh_archives ∅ sample_loads_snapshots sample_utc sample_local
         sample_format_size sample_listed_gui (exit_with 0 untimed_list_json "")).1
    = Some untimed_list
  ∧ (refresh_archives ∅ sample_loads_snapshots sample_utc sample_local
       sample_format_size sample_listed_gui (exit_with 0 untimed_list_json "")).1
    ≠ sample_listed_gui.
Proof.
  split; [vm_compute; reflexivity|]. split; [vm_compute; reflexivity|].
  split; [vm_compute; reflexivity|]. split; [eexists; vm_compute; reflexivity|].
  split; [vm_compute; reflexivity|]. split; [vm_compute; reflexivity|].
  intros Heq. apply (f_equal archive_data) in Heq. vm_compute in Heq. discriminate.
Qed.

(** ** Streaming runs *)

Section streaming.

Implicit Types (s cur : string) (c : ascii).

Lemma rev_app_append s cur : String.rev_app s cur = String.rev s +:+ cur.
Proof.
  unfold String.rev. revert cur. induction s as [|c s IH]; intros cur; simpl; [done|].
  rewrite (IH (String c cur)), (IH (String c "")). by rewrite append_assoc.
Qed.

Lemma rev_cons c s : String.rev (String c s) = String.rev s +:+ String c "".
Proof. unfold String.rev at 1. simpl. apply rev_app_append. Qed.

Lemma append_not_nil s c cur : s +:+ String c cur ≠ "".
Proof. by destruct s. Qed.

(** The lines that [readline] returns make up the text read from the pipe,
    and none of them is empty. *)
Lemma readlines_go_concat cur s :
  foldr String.append "" (readlines_go cur s) = String.rev cur +:+ s.
Proof.
  revert cur. induction s as [|c s IH]; intros cur; simpl.
  - destruct cur; simpl; [done|]. by rewrite !append_nil_r.
  - destruct (Ascii.eqb c "010"); simpl.
    + rewrite IH, rev_cons. simpl. by rewrite append_assoc.
    + rewrite IH, rev_cons. by rewrite append_assoc.
Qed.

Lemma readlines_concat s :
  foldr String.append "" (readlines s) = universal_newlines s.
Proof. apply readlines_go_concat. Qed.

Lemma readlines_go_nonempty cur s : Forall (λ l, l ≠ "") (readlines_go cur s).
Proof.
  revert cur. induction s as [|c s IH]; intros cur; simpl.
  - destruct cur as [|d cur]; constructor; [|constructor].
    rewrite rev_cons. apply append_not_nil.
  - destruct (Ascii.eqb c "010"); [|apply IH].
    constructor; [|apply IH]. rewrite rev_cons. apply append_not_nil.
Qed.

Lemma no_line_end_cons c body :
  no_line_end (String c body)
  ↔ Ascii.eqb c "010" = false ∧ Ascii.eqb c "013" = false ∧ no_line_end body.
Proof. unfold no_line_end. simpl. rewrite !orb_false_iff. tauto. Qed.

Lemma no_line_end_nil : no_line_end "".
Proof. by split. Qed.

(** Translation and line reading pass over a stretch without line ends. *)
Lemma universal_newlines_body body t :
  no_line_end body → universal_newlines (body +:+ t) = body +:+ universal_newlines t.
Proof.
  induction body as [|c body IH]; intros Hb; [done|].
  apply no_line_end_cons in Hb as (_ & Hcr & Hb).
  rewrite !append_cons. simpl. by rewrite Hcr, IH.
Qed.

Lemma readlines_go_body cur body t :
  PyStr.contains "010" body = false →
  readlines_go cur (body +:+ String "010" t)
  = (String.rev cur +:+ body +:+ String "010" "") :: readlines_go "" t.
Proof.
  revert cur. induction body as [|c body IH]; intros cur Hb.
  - rewrite append_nil_l. simpl. by rewrite rev_cons.
  - simpl in Hb. apply orb_false_iff in Hb as [Hc Hb].
    rewrite append_cons. simpl. rewrite Hc, IH by done.
    by rewrite rev_cons, append_assoc.
Qed.

Lemma readlines_go_last cur body :
  PyStr.contains "010" body = false → String.rev cur +:+ body ≠ "" →
  readlines_go cur body = [String.rev cur +:+ body].
Proof.
  revert cur. induction body as [|c body IH]; intros cur Hb Hne.
  - rewrite append_nil_r in *. simpl. by destruct cur.
  - simpl in Hb. apply orb_false_iff in Hb as [Hc Hb]. simpl. rewrite Hc.
    rewrite IH; [|done|]; rewrite rev_cons, append_assoc; [done|].
    destruct (String.rev cur); by rewrite ?append_cons.
Qed.

Lemma readlines_nil : readlines "" = [].
Proof. done. Qed.

Lemma readlines_last body : body ≠ "" → no_line_end body → readlines body = [body].
Proof.
  intros Hne Hb. unfold readlines.
  rewrite <- (append_nil_r body) at 1. rewrite universal_newlines_body by done.
  simpl. rewrite append_nil_r. destruct Hb as [Hlf _].
  by rewrite readlines_go_last.
Qed.

Lemma readlines_lf body rest :
  no_line_end body →
  readlines (body +:+ String "010" rest) = (body +:+ String "010" "") :: readlines rest.
Proof.
  intros Hb. unfold readlines. rewrite universal_newlines_body by done.
  simpl. destruct Hb as [Hlf _]. by rewrite readlines_go_body.
Qed.

Lemma readlines_crlf body rest :
  no_line_end body →
  readlines (body +:+ String "013" (String "010" rest))
  = (body +:+ String "010" "") :: readlines rest.
Proof.
  intros Hb. unfold readlines. rewrite universal_newlines_body by done.
  simpl. destruct Hb as [Hlf _]. by rewrite readlines_go_body.
Qed.

Lemma readlines_cr body rest :
  no_line_end body → PyStr.head_is (λ c, Ascii.eqb c "010") rest = false →
  readlines (body +:+ String "013" rest) = (body +:+ String "010" "") :: readlines rest.
Proof.
  intros Hb Hrest. unfold readlines. rewrite universal_newlines_body by done.
  destruct Hb as [Hlf _].
  destruct rest as [|c rest]; simpl in *; [by rewrite readlines_go_body|].
  by rewrite Hrest, readlines_go_body.
Qed.

(** Every text is a stretch without line ends, or such a stretch followed
    by a line end and a shorter text. *)
Lemma line_end_split s :
  no_line_end s
  ∨ ∃ body rest,
      no_line_end body ∧ (String.length rest < String.length s)%nat
      ∧ (s = body +:+ String "010" rest
         ∨ s = body +:+ String "013" (String "010" rest)
         ∨ (s = body +:+ String "013" rest
            ∧ PyStr.head_is (λ c, Ascii.eqb c "010") rest = false)).
Proof.
  induction s as [|c s IH]; [left; apply no_line_end_nil|].
  destruct (Ascii.eqb c "010") eqn:Hlf.
  { apply Ascii.eqb_eq in Hlf as ->. right. exists "", s.
    split; [apply no_line_end_nil|]. split; [simpl; lia|]. by left. }
  destruct (Ascii.eqb c "013") eqn:Hcr.
  { apply Ascii.eqb_eq in Hcr as ->. right.
    destruct s as [|c' s'].
    - exists "", "". split; [apply no_line_end_nil|]. split; [simpl; lia|].
      right. right. by split.
    - destruct (Ascii.eqb c' "010") eqn:Hlf'.
      + apply Ascii.eqb_eq in Hlf' as ->. exists "", s'.
        split; [apply no_line_end_nil|]. split; [simpl; lia|]. right. by left.
      + exists "", (String c' s'). split; [apply no_line_end_nil|].
        split; [simpl; lia|]. right. right. by split. }
  destruct IH as [Hs|(body & rest & Hb & Hlen & Hs)].
  - left. by apply no_line_end_cons.
  - right. exists (String c body), rest.
    split; [by apply no_line_end_cons|]. split; [simpl; lia|].
    rewrite !append_cons.
    destruct Hs as [->|[->|[-> Hrest]]]; [by left|right; by left|right; right; by split].
Qed.

(** [readlines] returns the lines of the text written, and nothing else
    is the list of its lines. *)
Lemma readlines_text_lines s : text_lines s (readlines s).
Proof.
  remember (String.length s) as n eqn:Hn.
  assert (String.length s ≤ n)%nat as Hle by lia. clear Hn.
  revert s Hle. induction n as [|n IH]; intros s Hle.
  - destruct s; [constructor|simpl in Hle; lia].
  - destruct (line_end_split s) as [Hs|(body & rest & Hb & Hlen & Hs)].
    + destruct s as [|c s]; [constructor|].
      rewrite readlines_last by done. by constructor.
    + assert (text_lines rest (readlines rest)) as Hrest by (apply IH; lia).
      destruct Hs as [->|[->|[-> Hhead]]].
      * rewrite readlines_lf by done. by constructor.
      * rewrite readlines_crlf by done. by constructor.
      * rewrite readlines_cr by done. by constructor.
Qed.

Lemma text_lines_readlines s lines : text_lines s lines → lines = readlines s.
Proof.
  induction 1 as [|body Hne Hb|body rest lines Hb _ IH|body rest lines Hb _ IH
                 |body rest lines Hb Hhead _ IH].
  - done.
  - by rewrite readlines_last.
  - by rewrite readlines_lf, IH.
  - by rewrite readlines_crlf, IH.
  - by rewrite readlines_cr, IH.
Qed.

Lemma run_loop_lines (lines : list string) :
  Forall (λ l, l ≠ "") lines → run_loop lines = (λ l, progress (PyStr.strip l)) <$> lines.
Proof.
  induction 1 as [|l lines Hl _ IH]; simpl; [done|].
  apply truthy_true in Hl. by rewrite Hl, IH.
Qed.

Lemma restore_loop_canceled (running : nat) (cancel_at : option nat) :
  restore_loop running cancel_at = Canceled ↔ ∃ j, cancel_at = Some j ∧ (j < running)%nat.
Proof.
  revert cancel_at. induction running as [|k IH]; intros cancel_at; simpl.
  - split; [done|]. intros (j & _ & Hj). lia.
  - destruct cancel_at as [[|j]|].
    + split; [|done]. intros _. exists 0%nat. split; [done|lia].
    + rewrite IH. split.
      * intros (j' & [= <-] & Hj). exists (S j). split; [done|lia].
      * intros (j' & [= <-] & Hj). exists j. split; [done|lia].
    + rewrite IH. split; intros (j' & [=] & _).
Qed.

End streaming.

Section runs.

Variable environ : gmap string string.
Variable json_loads_files : string → result (list file_entry).

Abbreviation restore_archive' := (restore_archive environ json_loads_files).

Lemma BackupWorker_run_signals (g : GUI) (n : string) (p : BackupProfile)
    (process : child) :
  current_profile_name g = Some n → n ≠ "" → profiles g !! n = Some p →
  ∃ cmd,
    get_backup_command g = Ok cmd
    ∧ (BackupWorker_run environ g (Ok process)).2
      = [command_ready cmd; progress ("Running command: " +:+ PyStr.join " " cmd)]
        ++ ((λ l, progress (PyStr.strip l)) <$> readlines (child_stdout process))
        ++ [finished (child_returncode process =? 0)
              (if child_returncode process =? 0 then "Backup completed successfully"
               else "Backup failed: " +:+ child_stderr process)].
Proof.
  intros Hcur Hn Hp. eexists. split; [by apply (get_backup_command_some g n p)|].
  unfold BackupWorker_run. rewrite (get_current_config_some g n p) by done.
  rewrite (get_backup_command_some g n p) by done. simpl.
  rewrite run_loop_lines by apply readlines_go_nonempty.
  by destruct (child_returncode process =? 0).
Qed.

Lemma restore_archive_run (g : GUI) (n : string) (p : BackupProfile)
    (backup_id restore_path : string) (result : completed) (choice : option nat)
    (file : string) (process : child) (running : nat) (cancel_at : option nat) :
  current_profile_name g = Some n → n ≠ "" → profiles g !! n = Some p →
  restore_path ≠ "" → returncode result = 0 →
  select_file json_loads_files result choice = Selected file →
  restore_archive' g (Some backup_id) restore_path (Ok result) choice (Ok process)
    running cancel_at
  = [Spawn ["proxmox-backup-client"; "snapshot"; "files"; backup_id; "--repository";
            repository p; "--output-format"; "json"]
       (<["PBS_PASSWORD" := api_key p]> environ);
     Spawn ["proxmox-backup-client"; "restore"; backup_id; file; restore_path;
            "--repository"; repository p]
       (<["PBS_PASSWORD" := api_key p]> environ)]
    ++ match restore_loop running cancel_at with
       | Canceled =>
           [Terminate; MessageBox Warning "Cancelled" "Restore operation cancelled"]
       | Exited =>
           [if child_returncode process =? 0
            then MessageBox Information "Success" "Archive restored successfully"
            else MessageBox Warning "Error"
                   ("Failed to restore archive: " +:+ child_stderr process)]
       end.
Proof.
  intros Hcur Hn Hp Hpath Hrc Hsel. unfold restore_archive, files_command.
  rewrite (get_current_config_some g n p) by done. simpl.
  apply truthy_true in Hpath. rewrite Hpath, Hrc, Hsel. simpl.
  destruct (restore_loop running cancel_at); [|done].
  by destruct (child_returncode process =? 0).
Qed.

Lemma worker_never_cancelled (signals : list signal) :
  Cancelled ∉ concat (worker_delivery <$> signals).
Proof.
  induction signals as [|s signals IH]; simpl; [apply not_elem_of_nil|].
  rewrite elem_of_app. intros [Hs|Hin]; [|done].
  destruct s; simpl in Hs; try (apply elem_of_cons in Hs as [?|Hs]; [done|]);
    by apply elem_of_nil in Hs.
Qed.

(** C2, as the program has it.  The backup worker announces the command,
    then delivers each line that the child writes to standard output, in
    arrival order and without its surrounding whitespace, and last of all
    one terminal result: success with a fixed text when the exit code is
    0, otherwise failure with the captured standard error after the prefix
    [Backup failed: ]; the worker has no cancellation.  The lines are those
    of the text written, each ended by a line feed, by a carriage return
    and a line feed or by a carriage return alone, with a last line for
    what follows the last ending, and the text has no other list of lines.
    The restore run
    delivers no line of the child; when the user cancels while the child
    is running, the child is sent the termination signal and the run ends
    with the cancelled notice and neither a success nor a failure result;
    otherwise it ends with one result chosen by the exit code. *)
Theorem streaming_runs_delivery (g : GUI) (n : string) (p : BackupProfile) :
  current_profile_name g = Some n → n ≠ "" → profiles g !! n = Some p →
  (∀ process : child,
     ∃ cmd lines,
       get_backup_command g = Ok cmd
       ∧ text_lines (child_stdout process) lines
       ∧ (∀ lines', text_lines (child_stdout process) lines' → lines' = lines)
       ∧ concat (worker_delivery <$> (BackupWorker_run environ g (Ok process)).2)
         = Line ("Running command: " +:+ PyStr.join " " cmd)
           :: ((λ l, Line (PyStr.strip l)) <$> lines)
           ++ [Result (child_returncode process =? 0)
                 (if child_returncode process =? 0 then "Backup completed successfully"
                  else "Backup failed: " +:+ child_stderr process)])
  ∧ (∀ launch : result child,
       (Terminate ∉ (BackupWorker_run environ g launch).1)
       ∧ Cancelled ∉ concat (worker_delivery <$> (BackupWorker_run environ g launch).2))
  ∧ (∀ backup_id restore_path result choice file process running cancel_at,
       restore_path ≠ "" → returncode result = 0 →
       select_file json_loads_files result choice = Selected file →
       let effs :=
         restore_archive' g (Some backup_id) restore_path (Ok result) choice (Ok process)
           running cancel_at in
       restore_launched effs = true
       ∧ ((∃ j, cancel_at = Some j ∧ (j < running)%nat) →
            Terminate ∈ effs ∧ concat (restore_delivery <$> effs) = [Cancelled])
       ∧ (¬ (∃ j, cancel_at = Some j ∧ (j < running)%nat) →
            (Terminate ∉ effs)
            ∧ concat (restore_delivery <$> effs)
              = [Result (child_returncode process =? 0)
                   (if child_returncode process =? 0 then "Archive restored successfully"
                    else "Failed to restore archive: " +:+ child_stderr process)])).
Proof.
  intros Hcur Hn Hp. split; [|split].
  - intros process.
    destruct (BackupWorker_run_signals g n p process Hcur Hn Hp) as (cmd & Hcmd & Hsig).
    exists cmd, (readlines (child_stdout process)).
    split; [done|]. split; [apply readlines_text_lines|].
    split; [apply text_lines_readlines|].
    assert (∀ ls : list string,
              concat (worker_delivery <$> ((λ l, progress (PyStr.strip l)) <$> ls))
              = (λ l, Line (PyStr.strip l)) <$> ls) as Hmap.
    { induction ls as [|l ls IH]; simpl; [done|]. by f_equal. }
    by rewrite Hsig, !fmap_app, !concat_app, Hmap.
  - intros launch. split; [|apply worker_never_cancelled].
    unfold BackupWorker_run.
    destruct (_ ≫= _) as [[cmd env]|e]; simpl; [|apply not_elem_of_nil].
    destruct launch; simpl; by intros [?|?%elem_of_nil]%elem_of_cons.
  - intros backup_id restore_path result choice file process running cancel_at
      Hpath Hrc Hsel effs.
    unfold effs.
    rewrite (restore_archive_run g n p backup_id restore_path result choice file
               process running cancel_at) by done.
    split; [done|]. split.
    + intros Hc. apply restore_loop_canceled in Hc. rewrite Hc. simpl.
      split; [|done]. apply list_elem_of_In. simpl. tauto.
    + intros Hc. destruct (restore_loop running cancel_at) eqn:Hloop.
      * simpl. destruct (child_returncode process =? 0);
          (split; [|done]); rewrite list_elem_of_In; simpl; intuition discriminate.
      * by apply restore_loop_canceled in Hloop.
Qed.

End runs.

Lemma streaming_runs_delivery_witness :
  (∃ cmd lines,
     get_backup_command sample_gui = Ok cmd
     ∧ text_lines (child_stdout sample_child) lines
     ∧ (∀ lines', text_lines (child_stdout sample_child) lines' → lines' = lines)
     ∧ concat (worker_delivery <$> (BackupWorker_run ∅ sample_gui (Ok sample_child)).2)
       = Line ("Running command: " +:+ PyStr.join " " cmd)
         :: ((λ l, Line (PyStr.strip l)) <$> lines)
         ++ [Result (child_returncode sample_child =? 0)
               (if child_returncode sample_child =? 0
                then "Backup completed successfully"
                else "Backup failed: " +:+ child_stderr sample_child)])
  ∧ restore_launched (sample_restore 3 (Some 1%nat)) = true
  ∧ Terminate ∈ sample_restore 3 (Some 1%nat)
  ∧ concat (restore_delivery <$> sample_restore 3 (Some 1%nat)) = [Cancelled].
Proof.
  destruct (streaming_runs_delivery ∅ sample_loads_files sample_gui "Default"
              sample_profile)
    as (Hworker & _ & Hrestore);
    [reflexivity | discriminate | vm_compute; reflexivity |].
  split; [exact (Hworker sample_child)|].
  destruct (Hrestore "host/pc/2024-01-01T00:00:00Z" "/restore"
              {| returncode := 0; stdout := sample_files_json; stderr := "" |}
              None "a.pxar" one_line_child 3%nat (Some 1%nat))
    as (Hlaunched & Hcancel & _);
    [discriminate | reflexivity | reflexivity |].
  split; [exact Hlaunched|]. apply Hcancel. exists 1%nat. split; [reflexivity|lia].
Defined.

Example BackupWorker_run_sample :
  concat (worker_delivery <$> (BackupWorker_run ∅ sample_gui (Ok sample_child)).2)
  = [Line "Running command: proxmox-backup-client backup u.pxar:/home/u/ --exclude=cache --exclude=tmp etc.pxar:/etc --repository h:8007:ds";
     Line "Starting backup"; Line "done"; Result true "Backup completed successfully"].
Proof. vm_compute. reflexivity. Qed.

Example BackupWorker_run_carriage_returns :
  readlines (child_stdout carriage_child)
  = ["10%" +:+ String "010" ""; "50%" +:+ String "010" ""; "done" +:+ String "010" ""]
  ∧ concat (worker_delivery <$> (BackupWorker_run ∅ sample_gui (Ok carriage_child)).2)
    = [Line "Running command: proxmox-backup-client backup u.pxar:/home/u/ --exclude=cache --exclude=tmp etc.pxar:/etc --repository h:8007:ds";
       Line "10%"; Line "50%"; Line "done";
       Result false "Backup failed: connection lost"].
Proof. split; vm_compute; reflexivity. Qed.

(** The claim of C2 fails for the restore run: its child writes the line
    [L1] and exits with 0 without a cancellation, and the consumer is shown
    the success result only, not the line followed by the result. *)
Lemma restore_archive_drops_lines :
  readlines (child_stdout one_line_child) = ["L1" +:+ String "010" ""]
  ∧ concat (restore_delivery <$> sample_restore 1 None)
    = [Result true "Archive restored successfully"]
  ∧ concat (restore_delivery <$> sample_restore 1 None)
    ≠ spec_stream ["L1"] (child_returncode one_line_child)
        (child_stderr one_line_child) "Archive restored successfully" None.
Proof.
  split; [reflexivity|]. split; [vm_compute; reflexivity|].
  vm_compute. discriminate.
Qed.

(** ** The configuration file *)

Lemma sources_from_to_dicts (l : list BackupSource) :
  sources_from_dicts (BackupSource_to_dict <$> l) = Ok l.
Proof.
  induction l as [|[p t ex] l IH]; [done|].
  rewrite fmap_cons. simpl. rewrite IH. done.
Qed.

Lemma BackupProfile_from_to_dict_eq (p : BackupProfile) :
  BackupProfile_from_dict (BackupProfile_to_dict p) = Ok p.
Proof.
  destruct p as [n r k f srcs]. unfold BackupProfile_from_dict. simpl.
  by rewrite sources_from_to_dicts.
Qed.

(** A profile written by [to_dict] is read back by [from_dict] as it was,
    with its sources and their exclusions, and so is a source. *)
Theorem BackupProfile_from_to_dict (p : BackupProfile) (s : BackupSource) :
  BackupProfile_from_dict (BackupProfile_to_dict p) = Ok p
  ∧ BackupSource_from_dict (BackupSource_to_dict s) = Ok s.
Proof. split; [apply BackupProfile_from_to_dict_eq|by destruct s]. Qed.

Lemma sources_from_dicts_ok (l : list source_dict) :
  (∃ srcs, sources_from_dicts l = Ok srcs)
  ↔ Forall (λ d, is_Some (key_path d) ∧ is_Some (key_archive_type d)) l.
Proof.
  induction l as [|d l IH]; simpl.
  - split; [constructor|by eexists].
  - rewrite Forall_cons, <- IH. unfold BackupSource_from_dict.
    destruct (key_path d) as [p|]; simpl;
      [|split; [by intros [? ?]|by intros [[[? ?] _] _]]].
    destruct (key_archive_type d) as [t|]; simpl;
      [|split; [by intros [? ?]|by intros [[_ [? ?]] _]]].
    destruct (sources_from_dicts l) as [srcs|e]; simpl.
    + split; [|by eexists]. intros _. split; [by split; eexists|by eexists].
    + split; [by intros [? ?]|]. by intros [_ [? ?]].
Qed.

Lemma sources_from_dicts_fields (l : list source_dict) (srcs : list BackupSource) :
  sources_from_dicts l = Ok srcs →
  Forall2 (λ d s, key_path d = Some (path s)
                  ∧ key_archive_type d = Some (archive_type s)
                  ∧ exclusions s = default [] (key_exclusions d)) l srcs.
Proof.
  revert srcs. induction l as [|d l IH]; intros srcs; simpl.
  - intros [= <-]. constructor.
  - unfold BackupSource_from_dict.
    destruct (key_path d) as [p|] eqn:Hp; simpl; [|done].
    destruct (key_archive_type d) as [t|] eqn:Ht; simpl; [|done].
    destruct (sources_from_dicts l) as [r|e]; simpl; [|done].
    intros [= <-]. constructor; [by rewrite Hp, Ht|]. by apply IH.
Qed.

(** [from_dict] succeeds exactly when the name, the repository and the API
    key are present and every source has its path and archive type; a
    missing fingerprint is read as the empty string, a missing source list
    as no source and missing exclusions as none. *)
Theorem BackupProfile_from_dict_keys (data : profile_dict) :
  ((∃ p, BackupProfile_from_dict data = Ok p)
   ↔ is_Some (key_name data) ∧ is_Some (key_repository data)
     ∧ is_Some (key_api_key data)
     ∧ Forall (λ d, is_Some (key_path d) ∧ is_Some (key_archive_type d))
              (default [] (key_backup_sources data)))
  ∧ (∀ p, BackupProfile_from_dict data = Ok p →
       key_name data = Some (name p) ∧ key_repository data = Some (repository p)
       ∧ key_api_key data = Some (api_key p)
       ∧ fingerprint p = default "" (key_fingerprint data)
       ∧ Forall2 (λ d s, key_path d = Some (path s)
                         ∧ key_archive_type d = Some (archive_type s)
                         ∧ exclusions s = default [] (key_exclusions d))
                 (default [] (key_backup_sources data)) (backup_sources p)).
Proof.
  unfold BackupProfile_from_dict.
  pose proof (sources_from_dicts_ok (default [] (key_backup_sources data))) as Hok.
  pose proof (sources_from_dicts_fields (default [] (key_backup_sources data))) as Hf.
  destruct (sources_from_dicts (default [] (key_backup_sources data))) as [srcs|e]; simpl.
  - assert (Forall (λ d, is_Some (key_path d) ∧ is_Some (key_archive_type d))
              (default [] (key_backup_sources data))) as Hall
      by (apply Hok; by eexists).
    destruct (key_name data) as [n|]; simpl;
      [|split; [split; [by intros [? ?]|by intros ([? ?] & _)]|done]].
    destruct (key_repository data) as [r|]; simpl;
      [|split; [split; [by intros [? ?]|by intros (_ & [? ?] & _)]|done]].
    destruct (key_api_key data) as [k|]; simpl;
      [|split; [split; [by intros [? ?]|by intros (_ & _ & [? ?] & _)]|done]].
    split.
    + split; [|by eexists]. intros _. split_and!; [by eexists..|done].
    + intros p [= <-]. simpl. split_and!; try done. by apply Hf.
  - split; [|done]. split; [by intros [? ?]|].
    intros (_ & _ & _ & Hall). apply Hok in Hall as [? ?]. done.
Qed.

Section ordered_dict.

Context {V : Type}.
Implicit Types (d : list (string * V)) (k : string) (v : V).

Lemma dict_set_fresh k v d : k ∉ d.*1 → dict_set k v d = d ++ [(k, v)].
Proof.
  induction d as [|[k' v'] d IH]; simpl; [done|]. intros Hk.
  apply not_elem_of_cons in Hk as [Hne Hk].
  destruct (String.eqb_spec k' k) as [->|_]; [done|]. by rewrite IH.
Qed.

Lemma dict_set_keys k v d :
  (dict_set k v d).*1 = if bool_decide (k ∈ d.*1) then d.*1 else d.*1 ++ [k].
Proof.
  induction d as [|[k' v'] d IH]; [done|]. cbn [dict_set].
  destruct (String.eqb_spec k' k) as [->|Hne]; rewrite !fmap_cons; cbn [fst].
  - rewrite bool_decide_true; [done|]. apply elem_of_cons. by left.
  - rewrite IH. case_bool_decide as Hin.
    + rewrite bool_decide_true; [done|]. apply elem_of_cons. by right.
    + rewrite bool_decide_false; [done|].
      intros [?|?]%elem_of_cons; [by subst|done].
Qed.

Lemma dict_set_NoDup k v d : NoDup d.*1 → NoDup (dict_set k v d).*1.
Proof.
  intros Hd. rewrite dict_set_keys. case_bool_decide as Hin; [done|].
  apply NoDup_app. split; [done|]. split; [|apply NoDup_singleton].
  intros x Hx Hk. apply list_elem_of_singleton in Hk. by subst.
Qed.

Lemma dict_set_Forall (P : string * V → Prop) k v d :
  Forall P d → P (k, v) → Forall P (dict_set k v d).
Proof.
  intros Hd Hv. induction Hd as [|[k' v'] d Hx Hd IH]; simpl.
  - by constructor.
  - destruct (String.eqb k' k); by constructor.
Qed.

Lemma dict_set_head k v d : d ≠ [] → head (dict_set k v d).*1 = head d.*1.
Proof.
  destruct d as [|[k' v'] d]; [done|]. intros _. simpl.
  by destruct (String.eqb_spec k' k) as [->|_].
Qed.

Lemma dict_set_not_nil k v d : dict_set k v d ≠ [].
Proof. destruct d as [|[k' v'] d]; simpl; [done|]. by destruct (String.eqb k' k). Qed.

End ordered_dict.

Lemma BackupProfile_from_dict_name (data : profile_dict) (p : BackupProfile) :
  BackupProfile_from_dict data = Ok p → key_name data = Some (name p).
Proof.
  unfold BackupProfile_from_dict.
  destruct (sources_from_dicts _); simpl; [|done].
  destruct (key_name data), (key_repository data), (key_api_key data); simpl; try done.
  by intros [= <-].
Qed.

Lemma load_profiles_invariant (dicts : list profile_dict)
    (acc profiles : list (string * BackupProfile)) :
  load_profiles dicts acc = Ok profiles →
  NoDup acc.*1 → Forall (λ kp, name kp.2 = kp.1) acc →
  NoDup profiles.*1 ∧ Forall (λ kp, name kp.2 = kp.1) profiles
  ∧ (acc ≠ [] ∨ dicts ≠ [] → profiles ≠ []).
Proof.
  revert acc. induction dicts as [|data dicts IH]; intros acc; simpl.
  - intros [= <-] Hnd Hall. split_and!; try done. by intros [?|?].
  - destruct (BackupProfile_from_dict data) as [p|e]; simpl; [|done].
    intros Hload Hnd Hall.
    destruct (IH _ Hload) as (H1 & H2 & H3).
    + by apply dict_set_NoDup.
    + by apply dict_set_Forall.
    + split_and!; try done. intros _. apply H3. left. apply dict_set_not_nil.
Qed.

(** Whatever the file holds, and also when it is missing, unreadable or
    malformed, [load_config] leaves at least one profile, the current
    profile name is the first key of the dictionary, the keys are distinct
    and every profile is stored under its own name. *)
Theorem load_config_current_exists (file : option (result config_data)) :
  ∃ n p rest,
    (load_config file).1.1 = (n, p) :: rest
    ∧ (load_config file).1.2 = Some n
    ∧ NoDup (load_config file).1.1.*1
    ∧ Forall (λ kp, name kp.2 = kp.1) (load_config file).1.1.
Proof.
  assert (∃ n p rest,
            [("Default", BackupProfile_new "Default")] = (n, p) :: rest
            ∧ Some "Default" = Some n
            ∧ NoDup [("Default", BackupProfile_new "Default")].*1
            ∧ Forall (λ kp : string * BackupProfile, name kp.2 = kp.1)
                [("Default", BackupProfile_new "Default")]) as Hdefault.
  { exists "Default", (BackupProfile_new "Default"), []. split_and!; try done.
    - apply NoDup_singleton.
    - by constructor. }
  unfold load_config. destruct file as [[data|e]|]; simpl; [|done..].
  set (dicts := match data with
                | LegacyConfig _ _ _ => _
                | ProfileConfig dicts => dicts
                end).
  destruct (load_profiles dicts []) as [profiles|e] eqn:Hload; simpl; [|done].
  destruct (load_profiles_invariant dicts [] profiles Hload) as (Hnd & Hall & _);
    [constructor|constructor|].
  destruct profiles as [|[n p] rest]; [done|]. simpl.
  by exists n, p, rest.
Qed.

(** The old flat layout is migrated to one profile named [Default] that
    takes the repository, the API key and the sources of the file, with no
    fingerprint, and becomes the current profile; absent keys are read as
    empty. *)
Theorem load_config_legacy (repo key : option string) (dicts : option (list source_dict))
    (sources : list BackupSource) :
  sources_from_dicts (default [] dicts) = Ok sources →
  load_config (Some (Ok (LegacyConfig repo key dicts)))
  = ([("Default",
       {| name := "Default"; repository := default "" repo; api_key := default "" key;
          fingerprint := ""; backup_sources := sources |})],
     Some "Default", []).
Proof.
  intros Hs. unfold load_config. simpl. unfold BackupProfile_from_dict. simpl.
  by rewrite Hs.
Qed.

Lemma load_config_legacy_witness :
  load_config (Some (Ok (LegacyConfig (Some "r") (Some "k") (Some []))))
  = ([("Default",
       {| name := "Default"; repository := "r"; api_key := "k";
          fingerprint := ""; backup_sources := [] |})],
     Some "Default", []).
Proof. apply (load_config_legacy (Some "r") (Some "k") (Some []) []). reflexivity. Defined.

Lemma load_profiles_saved (profiles acc : list (string * BackupProfile)) :
  NoDup (acc.*1 ++ profiles.*1) → Forall (λ kp, name kp.2 = kp.1) profiles →
  load_profiles (BackupProfile_to_dict <$> profiles.*2) acc = Ok (acc ++ profiles).
Proof.
  revert acc. induction profiles as [|[k p] profiles IH]; intros acc Hnd Hall; simpl.
  - by rewrite app_nil_r.
  - rewrite BackupProfile_from_to_dict_eq. simpl.
    inversion Hall as [|? ? Hk Hrest]; subst. simpl in Hk. rewrite Hk.
    rewrite dict_set_fresh.
    + rewrite IH; [by rewrite <- app_assoc| |done].
      rewrite fmap_app, <- app_assoc. done.
    + simpl in Hnd. apply NoDup_app in Hnd as (_ & Hdisj & _).
      intros Hin. apply (Hdisj k Hin). apply elem_of_cons. by left.
Qed.

(** Loading what [save_settings] writes gives the profiles back, in their
    order, with the first one current, when they are stored under their
    names. *)
Theorem load_config_saved (profiles : list (string * BackupProfile)) :
  profiles ≠ [] → NoDup profiles.*1 → Forall (λ kp, name kp.2 = kp.1) profiles →
  load_config (Some (Ok (config_of_profiles profiles)))
  = (profiles, head profiles.*1, []).
Proof.
  intros Hne Hnd Hall. unfold load_config, config_of_profiles. simpl.
  rewrite (load_profiles_saved profiles []) by done. simpl.
  by destruct profiles.
Qed.

Lemma load_config_saved_witness :
  load_config
    (Some (Ok (config_of_profiles [("Work", work_profile); ("Default", sample_profile)])))
  = ([("Work", work_profile); ("Default", sample_profile)],
     head [("Work", work_profile); ("Default", sample_profile)].*1, []).
Proof.
  apply (load_config_saved [("Work", work_profile); ("Default", sample_profile)]).
  - discriminate.
  - apply NoDup_cons. split; [|apply NoDup_singleton].
    intros Hin. apply list_elem_of_singleton in Hin. discriminate.
  - repeat constructor.
Defined.

Lemma load_profiles_raises (dicts : list profile_dict)
    (acc : list (string * BackupProfile)) :
  Exists (λ data, ∃ e, BackupProfile_from_dict data = Raise e) dicts →
  ∃ e, load_profiles dicts acc = Raise e.
Proof.
  intros Hex. revert acc. induction Hex as [data dicts [e He]|data dicts _ IH];
    intros acc; simpl.
  - rewrite He. by eexists.
  - destruct (BackupProfile_from_dict data); simpl; [apply IH|by eexists].
Qed.

(** One profile entry that [from_dict] rejects discards the whole file:
    the profiles before and after it are dropped as well, a warning is
    shown and the result is the single empty [Default] profile. *)
Theorem load_config_malformed (dicts : list profile_dict) :
  Exists (λ data, ∃ e, BackupProfile_from_dict data = Raise e) dicts →
  ∃ e,
    load_config (Some (Ok (ProfileConfig dicts)))
    = ([("Default", BackupProfile_new "Default")], Some "Default",
       [MessageBox Warning "Error" ("Failed to load config: " +:+ e)]).
Proof.
  intros Hex. destruct (load_profiles_raises dicts [] Hex) as [e He].
  exists e. unfold load_config. simpl. by rewrite He.
Qed.

Lemma load_config_malformed_witness :
  ∃ e,
    load_config
      (Some (Ok (ProfileConfig
                   [BackupProfile_to_dict work_profile; keyless_dict;
                    BackupProfile_to_dict sample_profile])))
    = ([("Default", BackupProfile_new "Default")], Some "Default",
       [MessageBox Warning "Error" ("Failed to load config: " +:+ e)]).
Proof.
  apply (load_config_malformed
           [BackupProfile_to_dict work_profile; keyless_dict;
            BackupProfile_to_dict sample_profile]).
  apply Exists_cons_tl, Exists_cons_hd. eexists. reflexivity.
Defined.

(** ** Sources and profile selection *)

Section sources.

Variables (g : GUI) (n : string) (p : BackupProfile).
Hypothesis Hcur : current_profile_name g = Some n.
Hypothesis Hn : n ≠ "".
Hypothesis Hp : profiles g !! n = Some p.

Lemma validate_config_result (show_message : bool) :
  ∃ shown,
    validate_config g show_message = Ok (profile_complete p, shown)
    ∧ (profile_complete p = true → shown = [])
    ∧ (show_message = false → shown = []).
Proof using Hcur Hn Hp.
  unfold validate_config, profile_complete.
  rewrite (current_profile_some g n p) by done. simpl.
  destruct (backup_sources p) as [|s l].
  { eexists. split; [done|]. split; [done|]. by intros ->. }
  destruct (truthy (repository p)); simpl.
  2: { eexists. split; [done|]. split; [done|]. by intros ->. }
  destruct (truthy (api_key p)); simpl.
  2: { eexists. split; [done|]. split; [done|]. by intros ->. }
  by eexists.
Qed.

Lemma update_command_display_some :
  update_command_display g
  = Ok (set_command_display g
          (if profile_complete p then PyStr.join " " (backup_command_of p) else "")).
Proof using Hcur Hn Hp.
  unfold update_command_display.
  destruct (validate_config_result false) as (shown & -> & _). simpl.
  destruct (profile_complete p); simpl; [|done].
  by rewrite (get_backup_command_some g n p).
Qed.

Lemma update_sources_list_some :
  update_sources_list g = Ok (set_sources_list g (source_str <$> backup_sources p)).
Proof using Hcur Hn Hp.
  unfold update_sources_list. by rewrite (current_profile_some g n p).
Qed.

Lemma save_settings_profiles (show_message : bool) (write_error : option string) :
  profiles (save_settings g show_message write_error).1
  = <[n := set_connection (repo_edit g) (api_edit g) (fingerprint_edit g) p]> (profiles g)
  ∧ spawned (save_settings g show_message write_error).2 = []
  ∧ current_profile_name (save_settings g show_message write_error).1 = Some n
  ∧ sources_list (save_settings g show_message write_error).1 = sources_list g
  ∧ command_display (save_settings g show_message write_error).1 = command_display g
  ∧ repo_edit (save_settings g show_message write_error).1 = repo_edit g
  ∧ api_edit (save_settings g show_message write_error).1 = api_edit g
  ∧ fingerprint_edit (save_settings g show_message write_error).1 = fingerprint_edit g
  ∧ WriteConfig (profiles (save_settings g show_message write_error).1)
    ∈ (save_settings g show_message write_error).2.
Proof using Hcur Hn Hp.
  unfold save_settings. rewrite (current_profile_some g n p) by done. simpl.
  unfold alter_current. rewrite Hcur.
  assert (alter (set_connection (repo_edit g) (api_edit g) (fingerprint_edit g)) n
            (profiles g)
          = <[n := set_connection (repo_edit g) (api_edit g) (fingerprint_edit g) p]>
              (profiles g)) as ->.
  { apply map_eq. intros i. destruct (decide (n = i)) as [<-|Hne].
    - by rewrite lookup_alter_eq, lookup_insert_eq, Hp.
    - by rewrite lookup_alter_ne, lookup_insert_ne. }
  destruct write_error; simpl; split_and!; try done; try (by destruct show_message);
    apply elem_of_cons; by left.
Qed.

End sources.

Lemma insert_alter_same {V} (m : gmap string V) (k : string) (f : V → V) (v : V) :
  <[k := v]> (alter f k m) = <[k := v]> m.
Proof.
  apply map_eq. intros i. destruct (decide (k = i)) as [<-|Hne].
  - by rewrite !lookup_insert_eq.
  - by rewrite !lookup_insert_ne, lookup_alter_ne.
Qed.

Lemma add_source_run (g : GUI) (n : string) (p : BackupProfile)
    (text archive_type : string) (write_error : option string) :
  current_profile_name g = Some n → n ≠ "" → profiles g !! n = Some p → text ≠ "" →
  let source := {| path := text; archive_type := archive_type; exclusions := [] |} in
  let p1 := set_backup_sources (λ l, l ++ [source]) p in
  ∃ g' effs,
    add_source g text archive_type write_error = Ok (g', effs)
    ∧ profiles g'
      = <[n := set_connection (repo_edit g) (api_edit g) (fingerprint_edit g) p1]>
          (profiles g)
    ∧ current_profile_name g' = Some n
    ∧ sources_list g' = source_str <$> backup_sources p1
    ∧ command_display g'
      = (if profile_complete p1 then PyStr.join " " (backup_command_of p1) else "")
    ∧ repo_edit g' = repo_edit g ∧ api_edit g' = api_edit g
    ∧ fingerprint_edit g' = fingerprint_edit g
    ∧ spawned effs = [] ∧ WriteConfig (profiles g') ∈ effs.
Proof.
  intros Hcur Hn Hp Htext source p1.
  set (g1 := alter_current g (set_backup_sources (λ l, l ++ [source]))).
  assert (current_profile_name g1 = Some n) as Hcur1.
  { unfold g1, alter_current. by rewrite Hcur. }
  assert (profiles g1 !! n = Some p1) as Hp1.
  { unfold g1, alter_current. rewrite Hcur. simpl. by rewrite lookup_alter_eq, Hp. }
  set (g2 := set_sources_list g1 (source_str <$> backup_sources p1)).
  set (g3 := set_command_display g2
               (if profile_complete p1 then PyStr.join " " (backup_command_of p1) else "")).
  assert (update_sources_list g1 = Ok g2) as Hg2
    by apply (update_sources_list_some g1 n p1 Hcur1 Hn Hp1).
  assert (update_command_display g2 = Ok g3) as Hg3
    by apply (update_command_display_some g2 n p1 Hcur1 Hn Hp1).
  destruct (save_settings_profiles g3 n p1 Hcur1 Hn Hp1 false write_error)
    as (Hps & Hsp & Hc & Hsl & Hcd & Hre & Hae & Hfe & Hw).
  destruct (save_settings g3 false write_error) as [g' effs] eqn:Hsave.
  exists g', effs. split.
  { unfold add_source. rewrite Hcur. simpl.
    pose proof Hn as Hn'. apply truthy_true in Hn', Htext. rewrite Hn', Htext. simpl.
    rewrite (current_profile_some g n p) by done.
    simpl. fold source. fold g1. rewrite Hg2. simpl. rewrite Hg3. simpl.
    by rewrite Hsave. }
  simpl in *. split_and!; try done.
  - rewrite Hps. unfold g1, alter_current. rewrite Hcur. simpl.
    apply insert_alter_same.
  - rewrite Hre. unfold g1, alter_current. by rewrite Hcur.
  - rewrite Hae. unfold g1, alter_current. by rewrite Hcur.
  - rewrite Hfe. unfold g1, alter_current. by rewrite Hcur.
Qed.

Lemma remove_source_run (g : GUI) (n : string) (p : BackupProfile) (i : nat)
    (s : BackupSource) (write_error : option string) :
  current_profile_name g = Some n → n ≠ "" → profiles g !! n = Some p →
  backup_sources p !! i = Some s →
  let p1 := set_backup_sources (λ _, delete i (backup_sources p)) p in
  ∃ g' effs,
    remove_source g (Z.of_nat i) write_error = Ok (g', effs)
    ∧ profiles g'
      = <[n := set_connection (repo_edit g) (api_edit g) (fingerprint_edit g) p1]>
          (profiles g)
    ∧ current_profile_name g' = Some n
    ∧ sources_list g' = source_str <$> backup_sources p1
    ∧ command_display g'
      = (if profile_complete p1 then PyStr.join " " (backup_command_of p1) else "")
    ∧ spawned effs = [] ∧ WriteConfig (profiles g') ∈ effs.
Proof.
  intros Hcur Hn Hp Hi p1.
  set (g1 := alter_current g (set_backup_sources (λ _, delete i (backup_sources p)))).
  assert (current_profile_name g1 = Some n) as Hcur1.
  { unfold g1, alter_current. by rewrite Hcur. }
  assert (profiles g1 !! n = Some p1) as Hp1.
  { unfold g1, alter_current. rewrite Hcur. simpl. by rewrite lookup_alter_eq, Hp. }
  set (g2 := set_sources_list g1 (source_str <$> backup_sources p1)).
  set (g3 := set_command_display g2
               (if profile_complete p1 then PyStr.join " " (backup_command_of p1) else "")).
  assert (update_sources_list g1 = Ok g2) as Hg2
    by apply (update_sources_list_some g1 n p1 Hcur1 Hn Hp1).
  assert (update_command_display g2 = Ok g3) as Hg3
    by apply (update_command_display_some g2 n p1 Hcur1 Hn Hp1).
  destruct (save_settings_profiles g3 n p1 Hcur1 Hn Hp1 false write_error)
    as (Hps & Hsp & Hc & Hsl & Hcd & _ & _ & _ & Hw).
  destruct (save_settings g3 false write_error) as [g' effs] eqn:Hsave.
  exists g', effs. split.
  { unfold remove_source. rewrite Hcur. simpl.
    pose proof Hn as Hn'. apply truthy_true in Hn'. rewrite Hn'. simpl.
    assert ((0 <=? Z.of_nat i) = true) as -> by (apply Z.leb_le; lia).
    rewrite (current_profile_some g n p) by done. simpl.
    unfold list_pop. rewrite Nat2Z.id, Hi. simpl. fold g1.
    rewrite Hg2. simpl. rewrite Hg3. simpl. by rewrite Hsave. }
  simpl in *. split_and!; try done.
  rewrite Hps. unfold g1, alter_current. rewrite Hcur. simpl.
  apply insert_alter_same.
Qed.

(** [add_source] with a non-empty path appends the new source, without
    exclusions, to the sources of the current profile and rewrites the list
    shown; the current profile also takes the repository, the API key and
    the fingerprint of the settings tab, saved or not; the other profiles
    are untouched, the profile set is written and no process is started. *)
Theorem add_source_appends (g : GUI) (n : string) (p : BackupProfile)
    (text archive_type : string) (write_error : option string) :
  current_profile_name g = Some n → n ≠ "" → profiles g !! n = Some p → text ≠ "" →
  ∃ g' effs,
    add_source g text archive_type write_error = Ok (g', effs)
    ∧ profiles g' !! n
      = Some {| name := name p; repository := repo_edit g; api_key := api_edit g;
                fingerprint := fingerprint_edit g;
                backup_sources :=
                  backup_sources p
                  ++ [{| path := text; archive_type := archive_type; exclusions := [] |}] |}
    ∧ (∀ m, m ≠ n → profiles g' !! m = profiles g !! m)
    ∧ sources_list g'
      = source_str <$> (backup_sources p
                        ++ [{| path := text; archive_type := archive_type;
                               exclusions := [] |}])
    ∧ WriteConfig (profiles g') ∈ effs
    ∧ spawned effs = [].
Proof.
  intros Hcur Hn Hp Htext.
  destruct (add_source_run g n p text archive_type write_error Hcur Hn Hp Htext)
    as (g' & effs & Hrun & Hps & Hc & Hsl & Hcd & _ & _ & _ & Hsp & Hw).
  exists g', effs. split; [done|].
  split; [by rewrite Hps, lookup_insert_eq|].
  split; [by intros m Hm; rewrite Hps, lookup_insert_ne|].
  done.
Qed.

Lemma add_source_appends_witness :
  ∃ g' effs,
    add_source sample_gui "/var/lib" "pxar" None = Ok (g', effs)
    ∧ profiles g' !! "Default"
      = Some {| name := name sample_profile; repository := repo_edit sample_gui;
                api_key := api_edit sample_gui;
                fingerprint := fingerprint_edit sample_gui;
                backup_sources :=
                  backup_sources sample_profile
                  ++ [{| path := "/var/lib"; archive_type := "pxar"; exclusions := [] |}] |}
    ∧ (∀ m, m ≠ "Default" → profiles g' !! m = profiles sample_gui !! m)
    ∧ sources_list g'
      = source_str <$> (backup_sources sample_profile
                        ++ [{| path := "/var/lib"; archive_type := "pxar";
                               exclusions := [] |}])
    ∧ WriteConfig (profiles g') ∈ effs
    ∧ spawned effs = [].
Proof.
  apply (add_source_appends sample_gui "Default" sample_profile "/var/lib" "pxar" None);
    [reflexivity | discriminate | vm_compute; reflexivity | discriminate].
Defined.

(** The command shown after [add_source] is computed before the settings
    are saved: it is built from the sources with the new one last and from
    the repository stored in the profile, and it is empty when the stored
    repository or API key is empty, while the profile that is saved right
    after takes the repository of the settings tab. *)
Theorem add_source_preview (g : GUI) (n : string) (p : BackupProfile)
    (text archive_type : string) (write_error : option string) :
  current_profile_name g = Some n → n ≠ "" → profiles g !! n = Some p → text ≠ "" →
  ∃ g' effs p',
    add_source g text archive_type write_error = Ok (g', effs)
    ∧ command_display g'
      = (if truthy (repository p) && truthy (api_key p)
         then PyStr.join " "
                (["proxmox-backup-client"; "backup"]
                 ++ concat (spec_source_args <$> backup_sources p)
                 ++ [spec_baseName text +:+ "." +:+ archive_type +:+ ":" +:+ text;
                     "--repository"; repository p])
         else "")
    ∧ profiles g' !! n = Some p' ∧ repository p' = repo_edit g.
Proof.
  intros Hcur Hn Hp Htext.
  destruct (add_source_run g n p text archive_type write_error Hcur Hn Hp Htext)
    as (g' & effs & Hrun & Hps & _ & _ & Hcd & _).
  eexists g', effs, _. split; [done|]. split; [|split; [by rewrite Hps, lookup_insert_eq|done]].
  rewrite Hcd. unfold profile_complete, backup_command_of. simpl.
  destruct (backup_sources p ++ _) as [|s l] eqn:Hl; [by destruct (backup_sources p)|].
  rewrite <- Hl. destruct (truthy (repository p) && truthy (api_key p)); [|done].
  rewrite fmap_app, concat_app. simpl. by rewrite <- !app_assoc.
Qed.

Lemma add_source_preview_witness :
  ∃ g' effs p',
    add_source sample_gui "/var/lib/" "pxar" None = Ok (g', effs)
    ∧ command_display g'
      = (if truthy (repository sample_profile) && truthy (api_key sample_profile)
         then PyStr.join " "
                (["proxmox-backup-client"; "backup"]
                 ++ concat (spec_source_args <$> backup_sources sample_profile)
                 ++ [spec_baseName "/var/lib/" +:+ "." +:+ "pxar" +:+ ":" +:+ "/var/lib/";
                     "--repository"; repository sample_profile])
         else "")
    ∧ profiles g' !! "Default" = Some p' ∧ repository p' = repo_edit sample_gui.
Proof.
  apply (add_source_preview sample_gui "Default" sample_profile "/var/lib/" "pxar" None);
    [reflexivity | discriminate | vm_compute; reflexivity | discriminate].
Defined.

(** [remove_source] on row [i] drops exactly the source at position [i] of
    the current profile and keeps the others in order; the other profiles
    are untouched, the profile set is written and no process is started. *)
Theorem remove_source_deletes (g : GUI) (n : string) (p : BackupProfile) (i : nat)
    (s : BackupSource) (write_error : option string) :
  current_profile_name g = Some n → n ≠ "" → profiles g !! n = Some p →
  backup_sources p !! i = Some s →
  ∃ g' effs p',
    remove_source g (Z.of_nat i) write_error = Ok (g', effs)
    ∧ profiles g' !! n = Some p'
    ∧ backup_sources p' = take i (backup_sources p) ++ drop (S i) (backup_sources p)
    ∧ backup_sources p = take i (backup_sources p) ++ s :: drop (S i) (backup_sources p)
    ∧ (∀ m, m ≠ n → profiles g' !! m = profiles g !! m)
    ∧ sources_list g' = source_str <$> backup_sources p'
    ∧ WriteConfig (profiles g') ∈ effs
    ∧ spawned effs = [].
Proof.
  intros Hcur Hn Hp Hi.
  destruct (remove_source_run g n p i s write_error Hcur Hn Hp Hi)
    as (g' & effs & Hrun & Hps & _ & Hsl & _ & Hsp & Hw).
  eexists g', effs, _. split; [done|].
  split; [by rewrite Hps, lookup_insert_eq|]. simpl.
  split; [apply delete_take_drop|].
  split; [by rewrite take_drop_middle|].
  split; [by intros m Hm; rewrite Hps, lookup_insert_ne|]. done.
Qed.

Lemma remove_source_deletes_witness :
  ∃ g' effs p',
    remove_source sample_gui (Z.of_nat 0) None = Ok (g', effs)
    ∧ profiles g' !! "Default" = Some p'
    ∧ backup_sources p'
      = take 0 (backup_sources sample_profile) ++ drop 1 (backup_sources sample_profile)
    ∧ backup_sources sample_profile
      = take 0 (backup_sources sample_profile)
        ++ sample_source :: drop 1 (backup_sources sample_profile)
    ∧ (∀ m, m ≠ "Default" → profiles g' !! m = profiles sample_gui !! m)
    ∧ sources_list g' = source_str <$> backup_sources p'
    ∧ WriteConfig (profiles g') ∈ effs
    ∧ spawned effs = [].
Proof.
  apply (remove_source_deletes sample_gui "Default" sample_profile 0 sample_source None);
    [reflexivity | discriminate | vm_compute; reflexivity | reflexivity].
Defined.



Lemma delete_length_app {A} (l : list A) (x : A) : delete (length l) (l ++ [x]) = l.
Proof. induction l as [|y l IH]; simpl; [done|]. by f_equal. Qed.

(** Adding a source and then removing the last row gives the current
    profile its former sources back, and the list shown as well. *)
Theorem add_then_remove_source (g : GUI) (n : string) (p : BackupProfile)
    (text archive_type : string) (w1 w2 : option string) :
  current_profile_name g = Some n → n ≠ "" → profiles g !! n = Some p → text ≠ "" →
  ∃ g1 effs1 g2 effs2 p2,
    add_source g text archive_type w1 = Ok (g1, effs1)
    ∧ remove_source g1 (Z.of_nat (length (backup_sources p))) w2 = Ok (g2, effs2)
    ∧ profiles g2 !! n = Some p2
    ∧ backup_sources p2 = backup_sources p
    ∧ sources_list g2 = source_str <$> backup_sources p
    ∧ (∀ m, m ≠ n → profiles g2 !! m = profiles g !! m).
Proof.
  intros Hcur Hn Hp Htext.
  destruct (add_source_run g n p text archive_type w1 Hcur Hn Hp Htext)
    as (g1 & effs1 & Hrun1 & Hps1 & Hc1 & _).
  set (source := {| path := text; archive_type := archive_type; exclusions := [] |}) in *.
  set (p1 := set_connection (repo_edit g) (api_edit g) (fingerprint_edit g)
               (set_backup_sources (λ l, l ++ [source]) p)) in *.
  assert (profiles g1 !! n = Some p1) as Hp1 by (by rewrite Hps1, lookup_insert_eq).
  assert (backup_sources p1 !! length (backup_sources p) = Some source) as Hi.
  { simpl. by rewrite lookup_app_r, Nat.sub_diag. }
  destruct (remove_source_run g1 n p1 (length (backup_sources p)) source w2 Hc1 Hn Hp1 Hi)
    as (g2 & effs2 & Hrun2 & Hps2 & _ & Hsl2 & _).
  assert (delete (length (backup_sources p)) (backup_sources p ++ [source])
          = backup_sources p) as Hdel.
  { apply delete_length_app. }
  eexists g1, effs1, g2, effs2, _. split; [done|]. split; [done|].
  split; [by rewrite Hps2, lookup_insert_eq|]. simpl in *.
  split; [done|]. split; [by rewrite Hsl2, Hdel|].
  intros m Hm. by rewrite Hps2, lookup_insert_ne, Hps1, lookup_insert_ne.
Qed.

Lemma add_then_remove_source_witness :
  ∃ g1 effs1 g2 effs2 p2,
    add_source sample_gui "/var/lib" "pxar" None = Ok (g1, effs1)
    ∧ remove_source g1 (Z.of_nat (length (backup_sources sample_profile))) None
      = Ok (g2, effs2)
    ∧ profiles g2 !! "Default" = Some p2
    ∧ backup_sources p2 = backup_sources sample_profile
    ∧ sources_list g2 = source_str <$> backup_sources sample_profile
    ∧ (∀ m, m ≠ "Default" → profiles g2 !! m = profiles sample_gui !! m).
Proof.
  apply (add_then_remove_source sample_gui "Default" sample_profile "/var/lib" "pxar"
           None None);
    [reflexivity | discriminate | vm_compute; reflexivity | discriminate].
Defined.

Lemma profile_complete_true (p : BackupProfile) :
  profile_complete p = true
  ↔ backup_sources p ≠ [] ∧ repository p ≠ "" ∧ api_key p ≠ "".
Proof.
  unfold profile_complete. destruct (backup_sources p) as [|s l].
  - split; [done|]. by intros [? _].
  - rewrite andb_true_iff, !truthy_true. split; [by intros [? ?]|]. by intros (_ & ? & ?).
Qed.

(** [validate_config] accepts the current profile exactly when it has a
    source, a repository and an API key, and then it shows nothing, whether
    messages are asked for or not. *)
Theorem validate_config_accepts (g : GUI) (n : string) (p : BackupProfile)
    (show_message : bool) :
  current_profile_name g = Some n → n ≠ "" → profiles g !! n = Some p →
  ((∃ shown, validate_config g show_message = Ok (true, shown))
   ↔ backup_sources p ≠ [] ∧ repository p ≠ "" ∧ api_key p ≠ "")
  ∧ (∀ shown, validate_config g show_message = Ok (true, shown) → shown = []).
Proof.
  intros Hcur Hn Hp.
  destruct (validate_config_result g n p Hcur Hn Hp show_message)
    as (shown & Hv & Hnone & _).
  rewrite Hv, <- profile_complete_true. split.
  - split; [by intros [? [= -> _]]|]. intros ->. by eexists.
  - intros ? [= Hc <-]. by apply Hnone.
Qed.

Lemma validate_config_accepts_witness :
  ((∃ shown, validate_config sample_gui true = Ok (true, shown))
   ↔ backup_sources sample_profile ≠ [] ∧ repository sample_profile ≠ ""
     ∧ api_key sample_profile ≠ "")
  ∧ (∀ shown, validate_config sample_gui true = Ok (true, shown) → shown = []).
Proof.
  apply (validate_config_accepts sample_gui "Default" sample_profile true);
    [reflexivity | discriminate | vm_compute; reflexivity].
Defined.

Lemma set_connection_same (q : BackupProfile) :
  set_connection (repository q) (api_key q) (fingerprint q) q = q.
Proof. by destruct q. Qed.

(** [switch_profile] to an existing, non-empty name makes that profile
    current and loads its repository, API key, fingerprint, sources and
    command preview into the window without changing any profile, so that
    a [save_settings] right after it leaves every profile as it was; an
    empty or unknown name is ignored. *)
Theorem switch_profile_loads (g : GUI) (m : string) (q : BackupProfile) :
  m ≠ "" → profiles g !! m = Some q →
  (∃ g',
     switch_profile g m = Ok g'
     ∧ current_profile_name g' = Some m
     ∧ profiles g' = profiles g
     ∧ repo_edit g' = repository q ∧ api_edit g' = api_key q
     ∧ fingerprint_edit g' = fingerprint q
     ∧ sources_list g' = source_str <$> backup_sources q
     ∧ command_display g'
       = (if profile_complete q then PyStr.join " " (backup_command_of q) else "")
     ∧ ∀ show_message write_error,
         profiles (save_settings g' show_message write_error).1 = profiles g)
  ∧ (∀ m', m' = "" ∨ profiles g !! m' = None → switch_profile g m' = Ok g).
Proof.
  intros Hm Hq. split.
  - set (g1 := set_current g (Some m)).
    set (g3 := set_sources_list
                 (set_fields g1 (repository q) (api_key q) (fingerprint q))
                 (source_str <$> backup_sources q)).
    set (display := if profile_complete q then PyStr.join " " (backup_command_of q)
                    else "").
    set (g4 := set_command_display g3 display).
    assert (update_command_display g3 = Ok g4) as H3
      by (by apply (update_command_display_some g3 m q)).
    assert (update_command_display g4 = Ok (set_command_display g4 display)) as H4
      by (by apply (update_command_display_some g4 m q)).
    exists (set_command_display g4 display). split.
    { unfold switch_profile. pose proof Hm as Hm'. apply truthy_true in Hm'.
      rewrite Hm'. rewrite bool_decide_true by (by eexists). simpl. fold g1.
      unfold update_ui_from_profile.
      rewrite (current_profile_some g1 m q) by done. simpl. fold g3.
      rewrite H3. simpl. by rewrite H4. }
    split_and!; try done.
    intros show_message write_error.
    destruct (save_settings_profiles (set_command_display g4 display) m q
                eq_refl Hm Hq show_message write_error) as (Hps & _).
    rewrite Hps. simpl. rewrite set_connection_same. by apply insert_id.
  - intros m' Hm'. unfold switch_profile. destruct Hm' as [->|Hnone]; [done|].
    rewrite bool_decide_false; [by rewrite andb_false_r|].
    rewrite Hnone. by intros [? ?].
Qed.

Lemma switch_profile_loads_witness :
  (∃ g',
     switch_profile two_profiles_gui "Work" = Ok g'
     ∧ current_profile_name g' = Some "Work"
     ∧ profiles g' = profiles two_profiles_gui
     ∧ repo_edit g' = repository work_profile ∧ api_edit g' = api_key work_profile
     ∧ fingerprint_edit g' = fingerprint work_profile
     ∧ sources_list g' = source_str <$> backup_sources work_profile
     ∧ command_display g'
       = (if profile_complete work_profile
          then PyStr.join " " (backup_command_of work_profile) else "")
     ∧ ∀ show_message write_error,
         profiles (save_settings g' show_message write_error).1
         = profiles two_profiles_gui)
  ∧ (∀ m', m' = "" ∨ profiles two_profiles_gui !! m' = None →
       switch_profile two_profiles_gui m' = Ok two_profiles_gui).
Proof.
  apply (switch_profile_loads two_profiles_gui "Work" work_profile);
    [discriminate | vm_compute; reflexivity].
Defined.

(** ** Reopening the exclusion editor *)

Section reopen.

Implicit Types (s t : string) (ch : ascii) (p : ascii → bool) (l : list string).

Lemma contains_append ch s t :
  PyStr.contains ch (s +:+ t) = PyStr.contains ch s || PyStr.contains ch t.
Proof.
  induction s as [|c s IH]; [done|]. rewrite append_cons. simpl.
  by rewrite IH, orb_assoc.
Qed.

Lemma strip_no_sep ch s : PyStr.contains ch s = false → PyStr.contains ch (PyStr.strip s) = false.
Proof.
  destruct (strip_decomp s) as (a & b & Hs & _). intros Hc.
  rewrite Hs, !contains_append in Hc.
  apply orb_false_iff in Hc as [_ Hc]. by apply orb_false_iff in Hc as [Hc _].
Qed.

Lemma lstrip_by_id p s : PyStr.head_is p s = false → PyStr.lstrip_by p s = s.
Proof. destruct s as [|c s]; simpl; [done|]. by intros ->. Qed.

Lemma rstrip_by_id p s : PyStr.last_is p s = false → PyStr.rstrip_by p s = s.
Proof.
  induction s as [|c s IH]; [done|]. destruct s as [|d s].
  - simpl. by intros ->.
  - intros Hl. change (PyStr.last_is p (String c (String d s)))
      with (PyStr.last_is p (String d s)) in Hl.
    change (PyStr.rstrip_by p (String c (String d s)))
      with (match PyStr.rstrip_by p (String d s) with
            | "" => if p c then "" else String c ""
            | r' => String c r'
            end).
    by rewrite (IH Hl).
Qed.

Lemma strip_id s :
  PyStr.head_is PyStr.isspace s = false → PyStr.last_is PyStr.isspace s = false →
  PyStr.strip s = s.
Proof. intros Hh Hl. unfold PyStr.strip. by rewrite lstrip_by_id, rstrip_by_id. Qed.

Lemma split_append_sep ch s t :
  PyStr.contains ch s = false → PyStr.split ch (s +:+ String ch t) = s :: PyStr.split ch t.
Proof.
  induction s as [|c s IH]; simpl.
  - intros _. by rewrite Ascii.eqb_refl.
  - intros [Hc Hs]%orb_false_iff. rewrite ?append_cons. simpl. by rewrite Hc, IH.
Qed.

Lemma split_join_clean ch l :
  Forall (λ x, PyStr.contains ch x = false) l → l ≠ [] →
  PyStr.split ch (PyStr.join (String ch "") l) = l.
Proof.
  induction 1 as [|x l Hx Hl IH]; [done|]. intros _. destruct l as [|y l].
  - simpl. by apply split_no_sep_single.
  - change (PyStr.join (String ch "") (x :: y :: l))
      with (x +:+ String ch (PyStr.join (String ch "") (y :: l))).
    rewrite split_append_sep by done. by rewrite IH.
Qed.

Lemma exclusion_lines_join l :
  Forall (λ x, x ≠ "" ∧ PyStr.head_is PyStr.isspace x = false
               ∧ PyStr.last_is PyStr.isspace x = false
               ∧ PyStr.contains "010" x = false) l →
  exclusion_lines (PyStr.join (String "010" "") l) = l.
Proof.
  intros Hl. unfold exclusion_lines. destruct (decide (l = [])) as [->|Hnil]; [done|].
  rewrite split_join_clean;
    [|eapply Forall_impl; [exact Hl|by intros ? (_ & _ & _ & ?)]|done].
  clear Hnil. induction Hl as [|y l' (Hne & Hh & Ht & _) _ IH]; [done|].
  rewrite filter_cons, (strip_id y) by done.
  rewrite decide_True by (by apply truthy_true).
  rewrite fmap_cons, (strip_id y) by done. by rewrite IH.
Qed.

Lemma exclusion_lines_no_newline t :
  Forall (λ x, PyStr.contains "010" x = false) (exclusion_lines t).
Proof.
  unfold exclusion_lines. apply Forall_fmap, Forall_forall.
  intros x [_ Hx]%list_elem_of_filter. simpl. apply strip_no_sep.
  pose proof (split_no_sep "010" t) as Hall.
  by apply (proj1 (Forall_forall _ _) Hall).
Qed.

(** The exclusion editor opens on the stored exclusions joined by
    newlines.  Exclusions that are not empty, hold no newline and neither
    start nor end with whitespace are read back from that text as they
    are; the exclusions stored by the editor are of this kind, so
    accepting the dialog again without editing keeps them. *)
Theorem exclusion_lines_reopen (t : string) :
  (∀ l,
     Forall (λ x, x ≠ "" ∧ PyStr.head_is PyStr.isspace x = false
                  ∧ PyStr.last_is PyStr.isspace x = false
                  ∧ PyStr.contains "010" x = false) l →
     exclusion_lines (PyStr.join (String "010" "") l) = l)
  ∧ exclusion_lines (PyStr.join (String "010" "") (exclusion_lines t)) = exclusion_lines t.
Proof.
  split; [apply exclusion_lines_join|]. apply exclusion_lines_join.
  pose proof (exclusion_lines_clean t) as Hc.
  pose proof (exclusion_lines_no_newline t) as Hn.
  induction Hc as [|x l (? & ? & ?) _ IH]; [constructor|].
  inversion Hn; subst. constructor; [done|]. by apply IH.
Qed.

End reopen.

(** ** Archive names *)

Section archive_names.

Implicit Types (s t : string) (ch : ascii) (p : ascii → bool).

Lemma rstrip_by_all p t : PyStr.all_chars p t = true → PyStr.rstrip_by p t = "".
Proof.
  induction t as [|c t IH]; [done|]. simpl. intros [Hc Ht]%andb_true_iff.
  by rewrite (IH Ht), Hc.
Qed.

Lemma rstrip_by_append_all p s t :
  PyStr.all_chars p t = true → PyStr.rstrip_by p (s +:+ t) = PyStr.rstrip_by p s.
Proof.
  intros Ht. induction s as [|c s IH]; [by apply rstrip_by_all|].
  rewrite append_cons. simpl. by rewrite IH.
Qed.

Lemma last_is_append p s t : t ≠ "" → PyStr.last_is p (s +:+ t) = PyStr.last_is p t.
Proof.
  intros Ht. induction s as [|c s IH]; [done|]. rewrite append_cons.
  destruct (s +:+ t) as [|d r] eqn:Hst.
  - destruct s; [by rewrite append_nil_l in Hst|by rewrite append_cons in Hst].
  - exact IH.
Qed.

Lemma last_is_no_sep ch s : PyStr.contains ch s = false → PyStr.last_is (Ascii.eqb ch) s = false.
Proof.
  induction s as [|c s IH]; [done|]. simpl. intros [Hc Hs]%orb_false_iff.
  destruct s; [by rewrite Ascii.eqb_sym|by apply IH].
Qed.

Lemma last_split_append ch s t :
  last (PyStr.split ch (s +:+ String ch t)) = last (PyStr.split ch t).
Proof.
  induction s as [|c s IH].
  - rewrite append_nil_l. simpl. rewrite Ascii.eqb_refl.
    pose proof (split_not_nil ch t). by destruct (PyStr.split ch t).
  - rewrite append_cons, split_sep_last; [done|].
    rewrite contains_append. simpl. by rewrite Ascii.eqb_refl, orb_true_r.
Qed.

(** The archive name of a source is the last component of its path: for a
    component without [/] that is not empty, whatever directories come
    before it and however many [/] follow it, [basename] after [rstrip]
    gives the component; a path made of [/] only, such as the root, gives
    the empty name. *)
Theorem dir_name_final_component (dir c slashes : string) :
  c ≠ "" → PyStr.contains "/" c = false →
  PyStr.all_chars (Ascii.eqb "/") slashes = true →
  os_path_basename (PyStr.rstrip "/" (dir +:+ "/" +:+ c +:+ slashes)) = c
  ∧ os_path_basename (PyStr.rstrip "/" (c +:+ slashes)) = c
  ∧ os_path_basename (PyStr.rstrip "/" slashes) = "".
Proof.
  intros Hc Hno Hsl. unfold PyStr.rstrip.
  assert (PyStr.last_is (Ascii.eqb "/") c = false) as Hlast by (by apply last_is_no_sep).
  split; [|split].
  - change (dir +:+ "/" +:+ c +:+ slashes) with (dir +:+ String "/" (c +:+ slashes)).
    replace (dir +:+ String "/" (c +:+ slashes))
      with ((dir +:+ String "/" c) +:+ slashes)
      by (by rewrite append_assoc, append_cons).
    rewrite rstrip_by_append_all by done.
    rewrite rstrip_by_id.
    + rewrite os_path_basename_last, last_split_append.
      by rewrite split_no_sep_single.
    + change (dir +:+ String "/" c) with (dir +:+ ("/" +:+ c)).
      rewrite <- append_assoc. by rewrite last_is_append.
  - rewrite rstrip_by_append_all, rstrip_by_id by done.
    rewrite os_path_basename_last. by rewrite split_no_sep_single.
  - by rewrite rstrip_by_all.
Qed.

Lemma dir_name_final_component_witness :
  os_path_basename (PyStr.rstrip "/" ("/home" +:+ "/" +:+ "user" +:+ "//")) = "user"
  ∧ os_path_basename (PyStr.rstrip "/" ("user" +:+ "//")) = "user"
  ∧ os_path_basename (PyStr.rstrip "/" "//") = "".
Proof.
  apply (dir_name_final_component "/home" "user" "//"); [discriminate|reflexivity..].
Defined.

End archive_names.

(** ** Credentials and the environment *)

(** The command lines are built from the sources, the repository and the
    snapshot alone: two profiles that differ only in API key and
    fingerprint give the same backup command and the same file-listing
    command. *)
Theorem commands_ignore_credentials (environ : gmap string string) (g g' : GUI)
    (n : string) (p p' : BackupProfile) (backup_id : string) :
  current_profile_name g = Some n → n ≠ "" → profiles g !! n = Some p →
  current_profile_name g' = Some n → profiles g' !! n = Some p' →
  backup_sources p' = backup_sources p → repository p' = repository p →
  get_backup_command g' = get_backup_command g
  ∧ ∃ cmd config config' env env',
      files_command environ g backup_id = Ok (config, cmd, env)
      ∧ files_command environ g' backup_id = Ok (config', cmd, env').
Proof.
  intros Hcur Hn Hp Hcur' Hp' Hs Hr. split.
  - by apply (get_backup_command_ignores_credentials g n p Hcur Hn Hp g' p').
  - destruct (files_command_env environ g n p Hcur Hn Hp backup_id) as [config Hf].
    destruct (files_command_env environ g' n p' Hcur' Hn Hp' backup_id) as [config' Hf'].
    rewrite Hr in Hf'. by eexists _, config, config', _, _.
Qed.

Lemma commands_ignore_credentials_witness :
  get_backup_command fingerprint_gui
  = get_backup_command
      (set_profiles fingerprint_gui
         {["Default" := set_connection "h:8007:ds" "other" "" fingerprint_profile]})
  ∧ ∃ cmd config config' env env',
      files_command ∅
        (set_profiles fingerprint_gui
           {["Default" := set_connection "h:8007:ds" "other" "" fingerprint_profile]})
        "host/pc/2024-01-01T00:00:00Z" = Ok (config, cmd, env)
      ∧ files_command ∅ fingerprint_gui "host/pc/2024-01-01T00:00:00Z"
        = Ok (config', cmd, env').
Proof.
  apply (commands_ignore_credentials ∅
           (set_profiles fingerprint_gui
              {["Default" := set_connection "h:8007:ds" "other" "" fingerprint_profile]})
           fingerprint_gui "Default"
           (set_connection "h:8007:ds" "other" "" fingerprint_profile)
           fingerprint_profile);
    [reflexivity | discriminate | vm_compute; reflexivity | reflexivity
    | vm_compute; reflexivity | reflexivity | reflexivity].
Defined.

(** The backup command is started in the base environment changed in at
    most two variables: [PBS_PASSWORD] is the API key of the profile, and
    [PBS_FINGERPRINT] is the fingerprint of the profile when it is not
    empty; with an empty fingerprint the variable is left as the base
    environment has it, not removed. *)
Theorem BackupWorker_run_environment (environ : gmap string string) (g : GUI) (n : string)
    (p : BackupProfile) (launch : result child) :
  current_profile_name g = Some n → n ≠ "" → profiles g !! n = Some p →
  ∃ cmd env,
    (BackupWorker_run environ g launch).1 = [Spawn cmd env]
    ∧ env !! "PBS_PASSWORD" = Some (api_key p)
    ∧ env !! "PBS_FINGERPRINT"
      = (if truthy (fingerprint p) then Some (fingerprint p)
         else environ !! "PBS_FINGERPRINT")
    ∧ ∀ v, v ≠ "PBS_PASSWORD" → v ≠ "PBS_FINGERPRINT" → env !! v = environ !! v.
Proof.
  intros Hcur Hn Hp.
  destruct (BackupWorker_run_env environ g n p Hcur Hn Hp launch) as (cmd & _ & Hrun).
  eexists cmd, _. split; [exact Hrun|].
  destruct (truthy (fingerprint p)).
  - split; [by rewrite lookup_insert_ne, lookup_insert_eq|].
    split; [by rewrite lookup_insert_eq|].
    intros v Hv1 Hv2. by rewrite !lookup_insert_ne.
  - split; [by rewrite lookup_insert_eq|].
    split; [by rewrite lookup_insert_ne|].
    intros v Hv1 Hv2. by rewrite lookup_insert_ne.
Qed.

Lemma BackupWorker_run_environment_witness :
  ∃ cmd env,
    (BackupWorker_run {["PBS_FINGERPRINT" := "CC:DD"; "HOME" := "/root"]} sample_gui
       (Ok sample_child)).1 = [Spawn cmd env]
    ∧ env !! "PBS_PASSWORD" = Some (api_key sample_profile)
    ∧ env !! "PBS_FINGERPRINT"
      = (if truthy (fingerprint sample_profile) then Some (fingerprint sample_profile)
         else ({["PBS_FINGERPRINT" := "CC:DD"; "HOME" := "/root"]} : gmap string string)
              !! "PBS_FINGERPRINT")
    ∧ ∀ v, v ≠ "PBS_PASSWORD" → v ≠ "PBS_FINGERPRINT" →
           env !! v
           = ({["PBS_FINGERPRINT" := "CC:DD"; "HOME" := "/root"]} : gmap string string) !! v.
Proof.
  apply (BackupWorker_run_environment {["PBS_FINGERPRINT" := "CC:DD"; "HOME" := "/root"]}
           sample_gui "Default" sample_profile (Ok sample_child));
    [reflexivity | discriminate | vm_compute; reflexivity].
Defined.

(** ** Starting a backup *)

Lemma foldl_progress (write_error : option string) (msgs : list string) (g : GUI)
    (effs : list effect) :
  foldl (handle_signal write_error) (g, effs) (progress <$> msgs)
  = (match last msgs with Some m => set_progress g m | None => g end, effs).
Proof.
  revert g. induction msgs as [|m msgs IH]; intros g; [done|].
  rewrite fmap_cons. simpl foldl. rewrite IH.
  destruct msgs as [|m' msgs]; [done|]. rewrite last_cons_cons.
  destruct (last (m' :: msgs)) eqn:Hl; [done|]. by apply last_None in Hl.
Qed.

(** With a complete current profile [start_backup] starts exactly one
    process, the backup command, which is also the command shown; when the
    child has exited the progress label holds the terminal message, a tray
    message is shown, and after a failed backup no profile has changed. *)
Theorem start_backup_runs (environ : gmap string string) (g : GUI) (n : string)
    (p : BackupProfile) (process : child) (write_error : option string) :
  current_profile_name g = Some n → n ≠ "" → profiles g !! n = Some p →
  backup_sources p ≠ [] → repository p ≠ "" → api_key p ≠ "" →
  ∃ g' effs env,
    start_backup environ g (Ok process) write_error = Ok (g', effs)
    ∧ spawned effs = [Spawn (backup_command_of p) env]
    ∧ command_display g' = PyStr.join " " (backup_command_of p)
    ∧ progress_label g'
      = (if child_returncode process =? 0 then "Backup completed successfully"
         else "Backup failed: " +:+ child_stderr process)
    ∧ (if child_returncode process =? 0
       then TrayMessage "Backup Complete" "Backup finished successfully" ∈ effs
       else TrayMessage "Backup Failed" ("Backup failed: " +:+ child_stderr process) ∈ effs
            ∧ profiles g' = profiles g)
    ∧ current_mount g' = current_mount g.
Proof.
  intros Hcur Hn Hp Hs Hr Hk.
  assert (profile_complete p = true) as Hc by (by apply profile_complete_true).
  destruct (validate_config_result g n p Hcur Hn Hp true) as (shown & Hv & Hnone & _).
  rewrite Hc in Hv. rewrite (Hnone Hc) in Hv.
  destruct (BackupWorker_run_env environ g n p Hcur Hn Hp (Ok process))
    as (cmd & Hcmd & Hspawn).
  destruct (BackupWorker_run_signals environ g n p process Hcur Hn Hp)
    as (cmd' & Hcmd' & Hsig).
  assert (get_backup_command g = Ok (backup_command_of p)) as Hof
    by apply (get_backup_command_some g n p Hcur Hn Hp).
  rewrite Hof in Hcmd, Hcmd'. injection Hcmd as <-. injection Hcmd' as <-.
  remember (backup_command_of p) as cmd eqn:Hcmd.
  unfold start_backup. rewrite Hv.
  destruct (BackupWorker_run environ g (Ok process)) as [spawns signals].
  simpl in Hspawn, Hsig. subst spawns signals. simpl.
  assert (∀ ls : list string,
            (λ l, progress (PyStr.strip l)) <$> ls = progress <$> (PyStr.strip <$> ls))
    as Hcomp by (intros; apply (list_fmap_compose PyStr.strip progress)).
  rewrite Hcomp, foldl_app, foldl_progress. subst cmd.
  set (g1 := match last (PyStr.strip <$> readlines (child_stdout process)) with
             | Some m => set_progress _ m
             | None => _
             end).
  assert (command_display g1 = PyStr.join " " (backup_command_of p)
          ∧ current_profile_name g1 = Some n ∧ profiles g1 = profiles g
          ∧ current_mount g1 = current_mount g) as (Hd1 & Hc1 & Hp1 & Hm1).
  { unfold g1. by destruct (last _). }
  clearbody g1. destruct (child_returncode process =? 0); simpl.
  - rewrite Hc1. simpl. pose proof Hn as Hn'. apply truthy_true in Hn'. rewrite Hn'.
    set (g2 := set_progress g1 "Backup completed successfully").
    assert (profiles g2 !! n = Some p) as Hp2 by (simpl; by rewrite Hp1).
    destruct (save_settings_profiles g2 n p Hc1 Hn Hp2 false write_error)
      as (_ & Hsp' & _ & _ & Hcd' & _).
    assert (progress_label (save_settings g2 false write_error).1
            = "Backup completed successfully"
            ∧ current_mount (save_settings g2 false write_error).1 = current_mount g)
      as [Hpl Hcm].
    { unfold save_settings. rewrite (current_profile_some g2 n p) by (by rewrite <- Hp1 || done).
      simpl. unfold alter_current. simpl. rewrite Hc1.
      by destruct write_error. }
    destruct (save_settings g2 false write_error) as [g3 saved]. cbn [fst snd] in *.
    eexists g3, _, _. split; [done|].
    split.
    { unfold spawned in *. rewrite filter_cons_True by done.
      by rewrite filter_app, Hsp'. }
    split; [by rewrite Hcd'|]. split; [done|]. split; [|done].
    apply elem_of_cons. right. rewrite elem_of_app. right. apply elem_of_cons. by left.
  - eexists _, _, _. split; [done|]. split; [done|]. split; [done|].
    split; [done|]. split; [|done]. split; [|done].
    apply elem_of_cons. right. apply elem_of_cons. by left.
Qed.

Lemma start_backup_runs_witness :
  ∃ g' effs env,
    start_backup ∅ sample_gui (Ok sample_child) None = Ok (g', effs)
    ∧ spawned effs = [Spawn (backup_command_of sample_profile) env]
    ∧ command_display g' = PyStr.join " " (backup_command_of sample_profile)
    ∧ progress_label g'
      = (if child_returncode sample_child =? 0 then "Backup completed successfully"
         else "Backup failed: " +:+ child_stderr sample_child)
    ∧ (if child_returncode sample_child =? 0
       then TrayMessage "Backup Complete" "Backup finished successfully" ∈ effs
       else TrayMessage "Backup Failed" ("Backup failed: " +:+ child_stderr sample_child)
              ∈ effs
            ∧ profiles g' = profiles sample_gui)
    ∧ current_mount g' = current_mount sample_gui.
Proof.
  apply (start_backup_runs ∅ sample_gui "Default" sample_profile sample_child None);
    [reflexivity | discriminate | vm_compute; reflexivity | discriminate
    | discriminate | discriminate].
Defined.

(** ** Operations on the archive list *)

Section archive_operations.

Variable environ : gmap string string.
Variable json_loads_snapshots : string → result (list snapshot).
Variable json_loads_files : string → result (list file_entry).
Variable utc_timestamp : Z → result string.
Variable local_timestamp : Z → local_time.
Variable format_size : Z → string.

Abbreviation refresh_archives' :=
  (refresh_archives environ json_loads_snapshots utc_timestamp local_timestamp format_size).
Abbreviation delete_archive' :=
  (delete_archive environ json_loads_snapshots utc_timestamp local_timestamp format_size).
Abbreviation fill_row' := (fill_row utc_timestamp local_timestamp format_size).
Abbreviation fill_rows' := (fill_rows utc_timestamp local_timestamp format_size).
Abbreviation mount_archive' := (mount_archive environ json_loads_files).
Abbreviation restore_archive' := (restore_archive environ json_loads_files).

Lemma fill_row_length (i : nat) (archive : snapshot) (t : list table_row) :
  length (fill_row' i archive t).1 = length t.
Proof.
  unfold fill_row, setItem. destruct (backup_time archive) as [time|]; [|done].
  destruct (utc_timestamp time); [|done].
  destruct (local_timestamp time); simpl; by rewrite !length_alter.
Qed.

Lemma fill_rows_length (archives : list snapshot) (i : nat) (t : list table_row) :
  length (fill_rows' i archives t).1 = length t.
Proof.
  revert i t. induction archives as [|archive rest IH]; intros i t; [done|].
  simpl. pose proof (fill_row_length i archive t) as Hrow.
  destruct (fill_row' i archive t) as [t' [e|]]; [done|].
  simpl in Hrow. by rewrite IH.
Qed.

Lemma fill_rows_raises (archives : list snapshot) (i : nat) (t : list table_row) :
  Exists (λ archive, backup_time archive = None) archives →
  ∃ e, (fill_rows' i archives t).2 = Some e.
Proof.
  intros Hex. revert i t.
  induction Hex as [archive rest Hnone|archive rest _ IH]; intros i t; simpl.
  - unfold fill_row. rewrite Hnone. by eexists.
  - destruct (fill_row' i archive t) as [t' [e|]]; [by eexists|]. apply IH.
Qed.

(** When the listing decodes but one of its objects has no backup time, the
    row loop raises: the warning of the unexpected error is shown, after the
    stored archive data was replaced by the sorted list and the table was
    given one row per object. *)
Theorem refresh_archives_missing_time (g : GUI) (n : string) (p : BackupProfile)
    (result : completed) (archives : list snapshot) :
  current_profile_name g = Some n → n ≠ "" → profiles g !! n = Some p →
  returncode result = 0 → json_loads_snapshots (stdout result) = Ok archives →
  Exists (λ archive, backup_time archive = None) archives →
  archive_data (refresh_archives' g (Ok result)).1 = Some (sort_desc sort_key archives)
  ∧ length (archives_table (refresh_archives' g (Ok result)).1) = length archives
  ∧ ∃ e, (refresh_archives' g (Ok result)).2
         = [Spawn ["proxmox-backup-client"; "snapshot"; "list"; "--repository";
                   repository p; "--output-format"; "json"]
              (<["PBS_PASSWORD" := api_key p]> environ);
            MessageBox Warning "Error" ("Unexpected error when fetching archives: " +:+ e)].
Proof.
  intros Hcur Hn Hp Hrc Hload Hex. unfold refresh_archives.
  rewrite (get_current_config_some g n p) by done. simpl.
  rewrite Hrc. simpl. rewrite Hload.
  set (sorted := sort_desc sort_key archives).
  set (t := setRowCount (length sorted) (archives_table g)).
  assert (Exists (λ archive, backup_time archive = None) sorted) as Hex'.
  { unfold sorted. by rewrite sort_desc_perm. }
  destruct (fill_rows_raises sorted 0 t Hex') as [e He].
  pose proof (fill_rows_length sorted 0 t) as Hlen.
  destruct (fill_rows' 0 sorted t) as [t' raised]. simpl in He, Hlen. subst raised.
  simpl. split; [done|]. split; [|by eexists].
  rewrite Hlen. unfold t. rewrite length_setRowCount. unfold sorted.
  by rewrite sort_desc_perm.
Qed.


(** [delete_archive] runs [snapshot forget] on the selected snapshot only
    after the confirmation, and refreshes the archive list exactly when that
    command exits with code 0: then the state is the one the refresh leaves
    and the refresh's listing is the only other process; after a failed
    command or launch the state is unchanged and nothing else is started. *)
Theorem delete_archive_refreshes (g : GUI) (n : string) (p : BackupProfile)
    (backup_id : string) (outcome refreshed : result completed) :
  current_profile_name g = Some n → n ≠ "" → profiles g !! n = Some p →
  let forget :=
    Spawn ["proxmox-backup-client"; "snapshot"; "forget"; backup_id; "--repository";
           repository p]
      (<["PBS_PASSWORD" := api_key p]> environ) in
  delete_archive' g (Some backup_id) false outcome refreshed = (g, [])
  ∧ (succeeded outcome = true →
       (delete_archive' g (Some backup_id) true outcome refreshed).1
       = (refresh_archives' g refreshed).1
       ∧ spawned (delete_archive' g (Some backup_id) true outcome refreshed).2
         = forget :: spawned (refresh_archives' g refreshed).2)
  ∧ (succeeded outcome = false →
       (delete_archive' g (Some backup_id) true outcome refreshed).1 = g
       ∧ spawned (delete_archive' g (Some backup_id) true outcome refreshed).2 = [forget]).
Proof.
  intros Hcur Hn Hp forget. split; [done|].
  unfold delete_archive. rewrite (get_current_config_some g n p) by done. simpl.
  destruct outcome as [result|e]; simpl.
  - destruct (returncode result =? 0); simpl.
    + split; [|done]. intros _.
      by destruct (refresh_archives' g refreshed) as [g' effs].
    + by split.
  - by split.
Qed.

(** A restore for which a file was selected starts two processes and no
    other: the file listing of the snapshot, then the restore of the selected
    file into the chosen directory, both on the profile's repository and with
    the profile's API key as the password in the environment. *)
Theorem restore_archive_commands (g : GUI) (n : string) (p : BackupProfile)
    (backup_id restore_path : string) (result : completed) (choice : option nat)
    (file : string) (process : child) (running : nat) (cancel_at : option nat) :
  current_profile_name g = Some n → n ≠ "" → profiles g !! n = Some p →
  restore_path ≠ "" → returncode result = 0 →
  select_file json_loads_files result choice = Selected file →
  spawned (restore_archive' g (Some backup_id) restore_path (Ok result) choice
             (Ok process) running cancel_at)
  = [Spawn ["proxmox-backup-client"; "snapshot"; "files"; backup_id; "--repository";
            repository p; "--output-format"; "json"]
       (<["PBS_PASSWORD" := api_key p]> environ);
     Spawn ["proxmox-backup-client"; "restore"; backup_id; file; restore_path;
            "--repository"; repository p]
       (<["PBS_PASSWORD" := api_key p]> environ)].
Proof.
  intros Hcur Hn Hp Hpath Hrc Hsel.
  rewrite (restore_archive_run environ json_loads_files g n p backup_id restore_path
             result choice file process running cancel_at) by done.
  destruct (restore_loop running cancel_at); [|done].
  by destruct (child_returncode process =? 0).
Qed.

(** A mount that succeeds and the unmount that follows it: the mount starts
    the file listing and then the mount command for the selected file and
    the chosen directory, records the directory and shows it in the status
    label; the unmount runs [fusermount -u] on that directory, and when it
    exits with code 0 the state is the one before the mount, apart from the
    status label, which says that nothing is mounted. *)
Theorem mount_then_unmount (g : GUI) (n : string) (p : BackupProfile)
    (backup_id mount_path : string) (listing : completed) (choice : option nat)
    (file : string) (process : completed) (outcome : result completed) :
  current_profile_name g = Some n → n ≠ "" → profiles g !! n = Some p →
  current_mount g = None → mount_path ≠ "" → returncode listing = 0 →
  select_file json_loads_files listing choice = Selected file →
  returncode process = 0 → succeeded outcome = true →
  let mounted :=
    mount_archive' g (Some backup_id) mount_path (Ok listing) choice (Ok process) in
  let unmounted := unmount_current mounted.1 outcome in
  spawned mounted.2
  = [Spawn ["proxmox-backup-client"; "snapshot"; "files"; backup_id; "--repository";
            repository p; "--output-format"; "json"]
       (<["PBS_PASSWORD" := api_key p]> environ);
     Spawn ["proxmox-backup-client"; "mount"; backup_id; file; mount_path;
            "--repository"; repository p]
       (<["PBS_PASSWORD" := api_key p]> environ)]
  ∧ current_mount mounted.1 = Some mount_path
  ∧ mount_status_label mounted.1 = "Currently mounted at: " +:+ mount_path
  ∧ spawned unmounted.2 = [SpawnBare ["fusermount"; "-u"; mount_path]]
  ∧ unmounted.1 = set_mount g None "No archive currently mounted".
Proof.
  intros Hcur Hn Hp Hm Hpath Hrc Hsel Hrc' Hout mounted unmounted.
  assert (mounted
          = (set_mount g (Some mount_path) ("Currently mounted at: " +:+ mount_path),
             [Spawn ["proxmox-backup-client"; "snapshot"; "files"; backup_id;
                     "--repository"; repository p; "--output-format"; "json"]
                (<["PBS_PASSWORD" := api_key p]> environ);
              Spawn ["proxmox-backup-client"; "mount"; backup_id; file; mount_path;
                     "--repository"; repository p]
                (<["PBS_PASSWORD" := api_key p]> environ);
              MessageBox Information "Success"
                ("Archive mounted successfully at " +:+ mount_path
                 +:+ String "010" (String "010"
                       "Note: The mount will be automatically unmounted when you close the application."))]))
    as Hmounted.
  { unfold mounted, mount_archive, files_command, mount_status.
    rewrite Hm. simpl. rewrite (get_current_config_some g n p) by done. simpl.
    pose proof Hpath as Ht. apply truthy_true in Ht. rewrite Ht, Hrc, Hsel. simpl.
    by rewrite Hrc'. }
  unfold unmounted. rewrite Hmounted. simpl.
  split; [done|]. split; [done|]. split; [done|].
  unfold unmount_current. simpl.
  pose proof Hpath as Ht. apply truthy_true in Ht. rewrite Ht. simpl.
  destruct outcome as [completed|e]; [|done]. simpl in Hout. rewrite Hout. simpl.
  by destruct g.
Qed.

(** With no profile selected the archive operations and the backup worker
    start no process and leave the state as it is: each one fails on the
    missing [api_key] entry of the empty configuration and reports the text
    of that error. *)
Theorem no_profile_starts_nothing (g : GUI) :
  truthy_opt (current_profile_name g) = false →
  (∀ outcome,
     refresh_archives' g outcome
     = (g, [MessageBox Warning "Error"
              "Unexpected error when fetching archives: 'api_key'"]))
  ∧ (∀ backup_id outcome refreshed,
       delete_archive' g (Some backup_id) true outcome refreshed
       = (g, [MessageBox Warning "Error" "Failed to delete archive: 'api_key'"]))
  ∧ (∀ backup_id restore_path files choice launch running cancel_at,
       restore_path ≠ "" →
       restore_archive' g (Some backup_id) restore_path files choice launch running
         cancel_at
       = [MessageBox Warning "Error" "Failed to restore archive: 'api_key'"])
  ∧ (∀ backup_id mount_path files choice mounted,
       current_mount g = None → mount_path ≠ "" →
       mount_archive' g (Some backup_id) mount_path files choice mounted
       = (g, [MessageBox Warning "Error" "Failed to mount archive: 'api_key'"]))
  ∧ (∀ launch,
       BackupWorker_run environ g launch = ([], [finished false "Error: 'api_key'"])).
Proof.
  intros Hnone.
  assert (get_current_config g = Ok None) as Hcfg.
  { unfold get_current_config, current_profile. by rewrite Hnone. }
  split_and!.
  - intros outcome. unfold refresh_archives. by rewrite Hcfg.
  - intros backup_id outcome refreshed. unfold delete_archive. by rewrite Hcfg.
  - intros backup_id restore_path files choice launch running cancel_at Hpath.
    unfold restore_archive, files_command. rewrite Hcfg. simpl.
    apply truthy_true in Hpath. by rewrite Hpath.
  - intros backup_id mount_path files choice mounted Hm Hpath.
    unfold mount_archive, files_command. rewrite Hm, Hcfg. simpl.
    apply truthy_true in Hpath. by rewrite Hpath.
  - intros launch. unfold BackupWorker_run. by rewrite Hcfg.
Qed.

End archive_operations.

Lemma refresh_archives_missing_time_witness :
  archive_data
    (refresh_archives ∅ sample_loads_snapshots sample_utc sample_local sample_format_size
       sample_gui (Ok {| returncode := 0; stdout := untimed_list_json; stderr := "" |})).1
  = Some (sort_desc sort_key untimed_list)
  ∧ length
      (archives_table
         (refresh_archives ∅ sample_loads_snapshots sample_utc sample_local
            sample_format_size sample_gui
            (Ok {| returncode := 0; stdout := untimed_list_json; stderr := "" |})).1)
    = length untimed_list
  ∧ ∃ e,
      (refresh_archives ∅ sample_loads_snapshots sample_utc sample_local sample_format_size
         sample_gui (Ok {| returncode := 0; stdout := untimed_list_json; stderr := "" |})).2
      = [Spawn ["proxmox-backup-client"; "snapshot"; "list"; "--repository";
                repository sample_profile; "--output-format"; "json"]
           (<["PBS_PASSWORD" := api_key sample_profile]> ∅);
         MessageBox Warning "Error" ("Unexpected error when fetching archives: " +:+ e)].
Proof.
  apply (refresh_archives_missing_time ∅ sample_loads_snapshots sample_utc sample_local
           sample_format_size sample_gui "Default" sample_profile
           {| returncode := 0; stdout := untimed_list_json; stderr := "" |} untimed_list);
    [reflexivity | discriminate | vm_compute; reflexivity | reflexivity
    | vm_compute; reflexivity | apply Exists_cons_hd; reflexivity].
Defined.

Lemma delete_archive_refreshes_witness :
  let forget :=
    Spawn ["proxmox-backup-client"; "snapshot"; "forget"; "host/pc/2024-01-01T00:00:00Z";
           "--repository"; repository sample_profile]
      (<["PBS_PASSWORD" := api_key sample_profile]> ∅) in
  let run reply :=
    delete_archive ∅ sample_loads_snapshots sample_utc sample_local sample_format_size
      sample_listed_gui (Some "host/pc/2024-01-01T00:00:00Z") reply (exit_with 0 "" "")
      (exit_with 0 "[]" "") in
  let refresh :=
    refresh_archives ∅ sample_loads_snapshots sample_utc sample_local sample_format_size
      sample_listed_gui (exit_with 0 "[]" "") in
  run false = (sample_listed_gui, [])
  ∧ (succeeded (exit_with 0 "" "") = true →
       (run true).1 = refresh.1 ∧ spawned (run true).2 = forget :: spawned refresh.2)
  ∧ (succeeded (exit_with 0 "" "") = false →
       (run true).1 = sample_listed_gui ∧ spawned (run true).2 = [forget]).
Proof.
  apply (delete_archive_refreshes ∅ sample_loads_snapshots sample_utc sample_local
           sample_format_size sample_listed_gui "Default" sample_profile
           "host/pc/2024-01-01T00:00:00Z" (exit_with 0 "" "") (exit_with 0 "[]" ""));
    [reflexivity | discriminate | vm_compute; reflexivity].
Defined.

Lemma restore_archive_commands_witness :
  spawned
    (restore_archive ∅ sample_loads_files sample_gui (Some "host/pc/2024-01-01T00:00:00Z")
       "/tmp/restore" (exit_with 0 sample_files_json "") None (Ok sample_child) 2 None)
  = [Spawn ["proxmox-backup-client"; "snapshot"; "files"; "host/pc/2024-01-01T00:00:00Z";
            "--repository"; repository sample_profile; "--output-format"; "json"]
       (<["PBS_PASSWORD" := api_key sample_profile]> ∅);
     Spawn ["proxmox-backup-client"; "restore"; "host/pc/2024-01-01T00:00:00Z"; "a.pxar";
            "/tmp/restore"; "--repository"; repository sample_profile]
       (<["PBS_PASSWORD" := api_key sample_profile]> ∅)].
Proof.
  apply (restore_archive_commands ∅ sample_loads_files sample_gui "Default" sample_profile
           "host/pc/2024-01-01T00:00:00Z" "/tmp/restore"
           {| returncode := 0; stdout := sample_files_json; stderr := "" |} None "a.pxar"
           sample_child 2 None);
    [reflexivity | discriminate | vm_compute; reflexivity | discriminate | reflexivity
    | vm_compute; reflexivity].
Defined.

Lemma mount_then_unmount_witness :
  let mounted :=
    mount_archive ∅ sample_loads_files sample_gui (Some "host/pc/2024-01-01T00:00:00Z")
      "/mnt/backup" (exit_with 0 sample_files_json "") None (exit_with 0 "" "") in
  let unmounted := unmount_current mounted.1 (exit_with 0 "" "") in
  spawned mounted.2
  = [Spawn ["proxmox-backup-client"; "snapshot"; "files"; "host/pc/2024-01-01T00:00:00Z";
            "--repository"; repository sample_profile; "--output-format"; "json"]
       (<["PBS_PASSWORD" := api_key sample_profile]> ∅);
     Spawn ["proxmox-backup-client"; "mount"; "host/pc/2024-01-01T00:00:00Z"; "a.pxar";
            "/mnt/backup"; "--repository"; repository sample_profile]
       (<["PBS_PASSWORD" := api_key sample_profile]> ∅)]
  ∧ current_mount mounted.1 = Some "/mnt/backup"
  ∧ mount_status_label mounted.1 = "Currently mounted at: " +:+ "/mnt/backup"
  ∧ spawned unmounted.2 = [SpawnBare ["fusermount"; "-u"; "/mnt/backup"]]
  ∧ unmounted.1 = set_mount sample_gui None "No archive currently mounted".
Proof.
  apply (mount_then_unmount ∅ sample_loads_files sample_gui "Default" sample_profile
           "host/pc/2024-01-01T00:00:00Z" "/mnt/backup"
           {| returncode := 0; stdout := sample_files_json; stderr := "" |} None "a.pxar"
           {| returncode := 0; stdout := ""; stderr := "" |} (exit_with 0 "" ""));
    [reflexivity | discriminate | vm_compute; reflexivity | reflexivity | discriminate
    | reflexivity | vm_compute; reflexivity | reflexivity | reflexivity].
Defined.

Lemma no_profile_starts_nothing_witness :
  (∀ outcome,
     refresh_archives ∅ sample_loads_snapshots sample_utc sample_local sample_format_size
       unnamed_gui outcome
     = (unnamed_gui,
        [MessageBox Warning "Error" "Unexpected error when fetching archives: 'api_key'"]))
  ∧ (∀ backup_id outcome refreshed,
       delete_archive ∅ sample_loads_snapshots sample_utc sample_local sample_format_size
         unnamed_gui (Some backup_id) true outcome refreshed
       = (unnamed_gui,
          [MessageBox Warning "Error" "Failed to delete archive: 'api_key'"]))
  ∧ (∀ backup_id restore_path files choice launch running cancel_at,
       restore_path ≠ "" →
       restore_archive ∅ sample_loads_files unnamed_gui (Some backup_id) restore_path
         files choice launch running cancel_at
       = [MessageBox Warning "Error" "Failed to restore archive: 'api_key'"])
  ∧ (∀ backup_id mount_path files choice mounted,
       current_mount unnamed_gui = None → mount_path ≠ "" →
       mount_archive ∅ sample_loads_files unnamed_gui (Some backup_id) mount_path files
         choice mounted
       = (unnamed_gui, [MessageBox Warning "Error" "Failed to mount archive: 'api_key'"]))
  ∧ (∀ launch,
       BackupWorker_run ∅ unnamed_gui launch = ([], [finished false "Error: 'api_key'"])).
Proof.
  apply (no_profile_starts_nothing ∅ sample_loads_snapshots sample_loads_files sample_utc
           sample_local sample_format_size unnamed_gui).
  reflexivity.
Defined.

(** ** Saving the settings *)

(** [save_settings] overwrites the repository, API key and fingerprint of
    the current profile with the fields of the settings tab, keeping its
    name and sources; every other profile is left as it was; and the
    success notice is shown exactly when it was asked for and the file was
    written. *)
Theorem save_settings_current_only (g : GUI) (n : string) (p : BackupProfile)
    (show_message : bool) (write_error : option string) :
  current_profile_name g = Some n → n ≠ "" → profiles g !! n = Some p →
  profiles (save_settings g show_message write_error).1 !! n
  = Some {| name := name p; repository := repo_edit g; api_key := api_edit g;
            fingerprint := fingerprint_edit g; backup_sources := backup_sources p |}
  ∧ (∀ m, m ≠ n →
       profiles (save_settings g show_message write_error).1 !! m = profiles g !! m)
  ∧ (MessageBox Information "Success" "Settings saved successfully"
       ∈ (save_settings g show_message write_error).2
     ↔ show_message = true ∧ write_error = None).
Proof.
  intros Hcur Hn Hp.
  destruct (save_settings_profiles g n p Hcur Hn Hp show_message write_error)
    as (Hps & _).
  rewrite Hps. split; [by rewrite lookup_insert_eq|].
  split; [intros m Hm; by rewrite lookup_insert_ne|].
  unfold save_settings. rewrite (current_profile_some g n p) by done. simpl.
  destruct write_error as [e|], show_message; simpl; rewrite list_elem_of_In; simpl;
    split; try (intros [? ?]; done); try (intros [?|[?|[]]]; done);
    try (intros [?|[]]; done); intros; tauto.
Qed.

Lemma save_settings_current_only_witness :
  profiles (save_settings two_profiles_gui true None).1 !! "Default"
  = Some {| name := name sample_profile; repository := repo_edit two_profiles_gui;
            api_key := api_edit two_profiles_gui;
            fingerprint := fingerprint_edit two_profiles_gui;
            backup_sources := backup_sources sample_profile |}
  ∧ (∀ m, m ≠ "Default" →
       profiles (save_settings two_profiles_gui true None).1 !! m
       = profiles two_profiles_gui !! m)
  ∧ (MessageBox Information "Success" "Settings saved successfully"
       ∈ (save_settings two_profiles_gui true None).2
     ↔ true = true ∧ (None : option string) = None).
Proof.
  apply (save_settings_current_only two_profiles_gui "Default" sample_profile true None);
    [reflexivity | discriminate | vm_compute; reflexivity].
Defined.
